(** * Flash driver of the PIC32CX2051MTG loader: EEFC command layer (efc.c)
      and flash management layer (flashd.c)

    The C sources are embedded as Rocq functions over [Z].  Fixed-width
    integers carry their wrap-around explicitly ([u16], [u32]); the
    controller behind the memory-mapped registers is an arbitrary
    [Controller]; every write the driver performs on the bus (word stores
    into the flash write window, command-register writes, calls of the
    IAP routine in ROM) is appended to a [trace]. *)

From Stdlib Require Import ZArith List Lia Bool.
Import ListNotations.
Open Scope Z_scope.

(** ** Machine integers *)

Definition u16 (x : Z) : Z := x mod 65536.
Definition u32 (x : Z) : Z := x mod 4294967296.

(** ** Constants of efc.h and flashd.c (CPU_PIC32CX2051MTG) *)

Definition IFLASH_PAGE_SIZE : Z := 512.
Definition IFLASH_SECTOR_SIZE : Z := 131072.
Definition IFLASH_LOCK_REGION_SIZE : Z := 8192.
Definition IFLASH_NB_OF_PAGES : Z := 4096.
Definition IFLASH_NB_OF_LOCK_BITS : Z := 256.

Definition SEFC_FCMD_GETD : Z := 0.
Definition SEFC_FCMD_WP : Z := 1.
Definition SEFC_FCMD_EA : Z := 5.
Definition SEFC_FCMD_SLB : Z := 8.
Definition SEFC_FCMD_CLB : Z := 9.
Definition SEFC_FCMD_GLB : Z := 10.
Definition SEFC_FCMD_SGPB : Z := 11.
Definition SEFC_FCMD_CGPB : Z := 12.
Definition SEFC_FCMD_GGPB : Z := 13.
Definition SEFC_FCMD_STUI : Z := 14.
Definition SEFC_FCMD_SPUI : Z := 15.
Definition SEFC_FCMD_ES : Z := 17.

Definition GPNVM_NUM_MAX : Z := 9.

(** ** The device header

    pic32cx2051mtg64.h is not part of the sources.  What the driver takes
    from it is a parameter of the model: the base and size of the mapped
    flash, whether a second controller [EFC1] exists (the [#if defined
    (EFC1)] branches), and the layout of the status and command
    registers. *)

Inductive Sefc : Type := SEFC0 | EFC1.

Definition Sefc_eqb (a b : Sefc) : bool :=
  match a, b with
  | SEFC0, SEFC0 | EFC1, EFC1 => true
  | _, _ => false
  end.

Class Chip : Type := {
  IFLASH0_CNC_ADDR : Z;
  IFLASH_SIZE : Z;
  EFC1_defined : bool;
  EEFC_FSR_FRDY : Z;
  EEFC_FSR_FCMDE : Z;
  EEFC_FSR_FLOCKE : Z;
  EEFC_FSR_FLERR : Z;
  EEFC_FCR_FKEY_PASSWD : Z;
  EEFC_FCR_FARG : Z -> Z;
  EEFC_FCR_FCMD_Msk : Z;
  EEFC_FCR_FCMD_Pos : Z
}.

(** The geometry the proofs rely on: the mapped flash lies below bit 29 of
    the address space (so that or-ing [0xA0000000] shifts it into the write
    window), it holds at most [IFLASH_NB_OF_PAGES] pages and a whole number
    of lock regions, and so does each half when there are two controllers. *)
Definition chip_ok (C : Chip) : bool :=
  (0 <=? IFLASH0_CNC_ADDR) && (0 <? IFLASH_SIZE)
  && (IFLASH_SIZE <=? IFLASH_NB_OF_PAGES * IFLASH_PAGE_SIZE)
  && (IFLASH0_CNC_ADDR + IFLASH_SIZE <? 536870912)
  && (IFLASH_SIZE mod IFLASH_LOCK_REGION_SIZE =? 0)
  && (negb EFC1_defined
      || ((IFLASH_SIZE / 2) mod IFLASH_LOCK_REGION_SIZE =? 0)).

(** The part described by FlashDev.c: 2 MB at [0x01000000], one controller;
    register layout of the EEFC. *)
Definition pic32cx2051mtg : Chip := {|
  IFLASH0_CNC_ADDR := 16777216;
  IFLASH_SIZE := 2097152;
  EFC1_defined := false;
  EEFC_FSR_FRDY := 1;
  EEFC_FSR_FCMDE := 2;
  EEFC_FSR_FLOCKE := 4;
  EEFC_FSR_FLERR := 8;
  EEFC_FCR_FKEY_PASSWD := 1509949440;
  EEFC_FCR_FARG := fun v => Z.land 16776960 (Z.shiftl v 8);
  EEFC_FCR_FCMD_Msk := 255;
  EEFC_FCR_FCMD_Pos := 0
|}.

(** The same array split over two controllers. *)
Definition dual_bank : Chip := {|
  IFLASH0_CNC_ADDR := 16777216;
  IFLASH_SIZE := 2097152;
  EFC1_defined := true;
  EEFC_FSR_FRDY := 1;
  EEFC_FSR_FCMDE := 2;
  EEFC_FSR_FLOCKE := 4;
  EEFC_FSR_FLERR := 8;
  EEFC_FCR_FKEY_PASSWD := 1509949440;
  EEFC_FCR_FARG := fun v => Z.land 16776960 (Z.shiftl v 8);
  EEFC_FCR_FCMD_Msk := 255;
  EEFC_FCR_FCMD_Pos := 0
|}.

(** ** Outcomes

    A call returns ([Done]), dies in an [assert] ([AssertFailed]), or is
    still busy-waiting when the model stops following it ([Hung]). *)

Inductive outcome (A : Type) : Type :=
| Done (a : A)
| AssertFailed
| Hung.
Arguments Done {A} a.
Arguments AssertFailed {A}.
Arguments Hung {A}.

Definition obind {A B} (o : outcome A) (f : A -> outcome B) : outcome B :=
  match o with
  | Done a => f a
  | AssertFailed => AssertFailed
  | Hung => Hung
  end.

Definition assert (b : bool) : outcome unit :=
  if b then Done tt else AssertFailed.

Section AddressTranslation.
Context {C : Chip}.

(** efc.c, SEFC_TranslateAddress.  The three results are the values the
    function stores through [ppSefc], [pwPage] and [pwOffset]; a caller
    that passes a null pointer ignores the corresponding component. *)
Definition SEFC_TranslateAddress (dwAddress : Z) : outcome (Sefc * Z * Z) :=
  obind (assert (IFLASH0_CNC_ADDR <=? dwAddress)) (fun _ =>
  obind (assert (dwAddress <=? u32 (IFLASH0_CNC_ADDR + IFLASH_SIZE))) (fun _ =>
  if EFC1_defined then
    let low := dwAddress <? u32 (IFLASH0_CNC_ADDR + IFLASH_SIZE / 2) in
    let rel := if low then u32 (dwAddress - IFLASH0_CNC_ADDR)
               else u32 (dwAddress - u32 (IFLASH0_CNC_ADDR + IFLASH_SIZE / 2)) in
    Done (if low then SEFC0 else EFC1,
          u16 (rel / IFLASH_PAGE_SIZE),
          u16 (rel mod IFLASH_PAGE_SIZE))
  else
    let rel := u32 (dwAddress - IFLASH0_CNC_ADDR) in
    Done (SEFC0, u16 (rel / IFLASH_PAGE_SIZE), u16 (rel mod IFLASH_PAGE_SIZE)))).

(** efc.c, SEFC_ComputeAddress.  [assert( sefc )] holds by typing. *)
Definition SEFC_ComputeAddress (sefc : Sefc) (wPage wOffset : Z) : outcome Z :=
  obind (assert (wPage <=? IFLASH_NB_OF_PAGES)) (fun _ =>
  obind (assert (wOffset <? IFLASH_PAGE_SIZE)) (fun _ =>
  if EFC1_defined then
    if Sefc_eqb sefc SEFC0
    then Done (u32 (IFLASH0_CNC_ADDR + wPage * IFLASH_PAGE_SIZE + wOffset))
    else Done (u32 (IFLASH0_CNC_ADDR + IFLASH_SIZE / 2
                    + wPage * IFLASH_PAGE_SIZE + wOffset))
  else Done (u32 (IFLASH0_CNC_ADDR + wPage * IFLASH_PAGE_SIZE + wOffset)))).

(** flashd.c, ComputeLockRange: the pair is
    [( *pdwActualStart, *pdwActualEnd )]. *)
Definition ComputeLockRange (dwStart dwEnd : Z) : outcome (Z * Z) :=
  obind (SEFC_TranslateAddress dwStart) (fun '(pStartEfc, wStartPage, _) =>
  obind (SEFC_TranslateAddress dwEnd) (fun '(pEndEfc, wEndPage, _) =>
  let wNumPagesInRegion := u16 (IFLASH_LOCK_REGION_SIZE / IFLASH_PAGE_SIZE) in
  let wActualStartPage := u16 (wStartPage - wStartPage mod wNumPagesInRegion) in
  let wActualEndPage :=
    if negb (wEndPage mod wNumPagesInRegion =? 0)
    then u16 (wEndPage + (wNumPagesInRegion - wEndPage mod wNumPagesInRegion))
    else wEndPage in
  obind (SEFC_ComputeAddress pStartEfc wActualStartPage 0) (fun actualStart =>
  obind (SEFC_ComputeAddress pEndEfc wActualEndPage 0) (fun actualEnd =>
  Done (actualStart, actualEnd))))).

End AddressTranslation.

(** ** Bus traffic and the controller *)

Inductive event : Type :=
| EvStore32 (addr word : Z)        (* 32-bit store into the flash write window *)
| EvFCR (sefc : Sefc) (word : Z)   (* write of the command register EEFC_FCR *)
| EvIAP (bank word : Z).           (* call of the IAP routine in ROM *)

(** The controller as the driver sees it: what a write of EEFC_FCR or a call
    of the ROM routine (the function whose address is stored at
    [CHIP_FLASH_IAP_ADDRESS]) does to it, and what a read of EEFC_FSR or
    EEFC_FRR returns (a read may change it: time passes, flags clear on
    read). *)
Class Controller : Type := {
  hw : Type;
  hw_fcr : Sefc -> Z -> hw -> hw;
  hw_iap : Z -> Z -> hw -> hw;
  hw_fsr : Sefc -> hw -> Z * hw;
  hw_frr : Sefc -> hw -> Z * hw
}.

Section Driver.
Context {C : Chip} {K : Controller}.

(** Number of reads of EEFC_FSR a busy-wait is followed for. *)
Variable patience : nat.

(** [mem] is the byte-addressed bus (a store into the write window is read
    back from it); [_pdwPageBuffer] is the static staging buffer, viewed
    as bytes through [pucPageBuffer]. *)
Record state : Type := mkState {
  hw_st : hw;
  mem : Z -> Z;
  _pdwPageBuffer : Z -> Z;
  _dwUseIAP : Z;
  trace : list event
}.

Definition set_hw (h : hw) (s : state) : state :=
  mkState h (mem s) (_pdwPageBuffer s) (_dwUseIAP s) (trace s).
Definition set_mem (m : Z -> Z) (s : state) : state :=
  mkState (hw_st s) m (_pdwPageBuffer s) (_dwUseIAP s) (trace s).
Definition set_buffer (b : Z -> Z) (s : state) : state :=
  mkState (hw_st s) (mem s) b (_dwUseIAP s) (trace s).
Definition emit (e : event) (s : state) : state :=
  mkState (hw_st s) (mem s) (_pdwPageBuffer s) (_dwUseIAP s) (trace s ++ [e]).

Definition M (A : Type) : Type := state -> outcome (A * state).
Definition ret {A} (a : A) : M A := fun s => Done (a, s).
Definition bind {A B} (m : M A) (f : A -> M B) : M B :=
  fun s => match m s with
           | Done (a, s1) => f a s1
           | AssertFailed => AssertFailed
           | Hung => Hung
           end.
Definition lift {A} (o : outcome A) : M A :=
  fun s => match o with
           | Done a => Done (a, s)
           | AssertFailed => AssertFailed
           | Hung => Hung
           end.

Notation "x <- c1 ;; c2" := (bind c1 (fun x => c2))
  (at level 61, c1 at next level, right associativity).
Notation "' pat <- c1 ;; c2" := (bind c1 (fun x => match x with pat => c2 end))
  (at level 61, pat pattern, c1 at next level, right associativity).
Notation "c1 ;; c2" := (bind c1 (fun _ => c2))
  (at level 61, right associativity).

(** *** efc.c *)

Definition EEFC_FCR_FCMD (value : Z) : Z :=
  Z.land EEFC_FCR_FCMD_Msk (Z.shiftl value EEFC_FCR_FCMD_Pos).

(** [EEFC_FCR_FKEY_PASSWD | EEFC_FCR_FARG(dwArgument) | EEFC_FCR_FCMD(dwCommand)] *)
Definition fcr_word (dwCommand dwArgument : Z) : Z :=
  Z.lor (Z.lor EEFC_FCR_FKEY_PASSWD (EEFC_FCR_FARG dwArgument))
        (EEFC_FCR_FCMD dwCommand).

(** [EEFC_FSR_FLOCKE | EEFC_FSR_FCMDE | EEFC_FSR_FLERR] *)
Definition error_mask : Z :=
  Z.lor (Z.lor EEFC_FSR_FLOCKE EEFC_FSR_FCMDE) EEFC_FSR_FLERR.

Definition write_FCR (sefc : Sefc) (w : Z) (s : state) : state :=
  emit (EvFCR sefc w) (set_hw (hw_fcr sefc w (hw_st s)) s).

Definition call_IAP (bank w : Z) (s : state) : state :=
  emit (EvIAP bank w) (set_hw (hw_iap bank w (hw_st s)) s).

(** [do dwStatus = sefc->EEFC_FSR ; while ((dwStatus & EEFC_FSR_FRDY) != EEFC_FSR_FRDY)] *)
Fixpoint wait_ready (n : nat) (sefc : Sefc) (h : hw) : option (Z * hw) :=
  match n with
  | O => None
  | S n' =>
      let (dwStatus, h1) := hw_fsr sefc h in
      if Z.land dwStatus EEFC_FSR_FRDY =? EEFC_FSR_FRDY
      then Some (dwStatus, h1)
      else wait_ready n' sefc h1
  end.

Definition SEFC_GetResult (sefc : Sefc) : M Z :=
  fun s => let (v, h) := hw_frr sefc (hw_st s) in Done (v, set_hw h s).

(** The two guarded calls of [IAP_PerformCommand]: bank 0 for SEFC0 and,
    where EFC1 is defined, bank 1 for EFC1. *)
Definition IAP_calls (sefc : Sefc) (w : Z) (s : state) : state :=
  let s1 := if Sefc_eqb sefc SEFC0 then call_IAP 0 w s else s in
  if EFC1_defined && Sefc_eqb sefc EFC1 then call_IAP 1 w s1 else s1.

Definition SEFC_PerformCommand (sefc : Sefc) (dwCommand dwArgument dwUseIAP : Z)
  : M Z :=
  fun s =>
    if negb (dwUseIAP =? 0) then
      let s2 := IAP_calls sefc (fcr_word dwCommand dwArgument) s in
      let (dwStatus, h) := hw_fsr sefc (hw_st s2) in
      Done (Z.land dwStatus error_mask, set_hw h s2)
    else
      let s1 := write_FCR sefc (fcr_word dwCommand dwArgument) s in
      match wait_ready patience sefc (hw_st s1) with
      | Some (dwStatus, h) => Done (Z.land dwStatus error_mask, set_hw h s1)
      | None => Hung
      end.

(** *** Memory accesses of flashd.c (little-endian core) *)

Definition load8 (m : Z -> Z) (a : Z) : Z := m a mod 256.

Definition load32 (m : Z -> Z) (a : Z) : Z :=
  load8 m a + 256 * load8 m (a + 1) + 65536 * load8 m (a + 2)
  + 16777216 * load8 m (a + 3).

Definition store32_mem (a w : Z) (m : Z -> Z) : Z -> Z :=
  fun x =>
    if x =? a then w mod 256
    else if x =? a + 1 then (w / 256) mod 256
    else if x =? a + 2 then (w / 65536) mod 256
    else if x =? a + 3 then (w / 16777216) mod 256
    else m x.

Definition store32 (a w : Z) : M unit :=
  fun s => Done (tt, emit (EvStore32 a w) (set_mem (store32_mem a w (mem s)) s)).

(** [memcpy( pucPageBuffer + dst, (void * ) src, n )] *)
Definition memcpy_to_buffer (dst src n : Z) : M unit :=
  fun s =>
    Done (tt, set_buffer
                (fun i => if (dst <=? i) && (i <? dst + n)
                          then load8 (mem s) (src + (i - dst))
                          else _pdwPageBuffer s i) s).

(** [_pdwPageBuffer[dwIdx]] *)
Definition buffer_word (pb : Z -> Z) (dwIdx : Z) : Z :=
  pb (4 * dwIdx) mod 256 + 256 * (pb (4 * dwIdx + 1) mod 256)
  + 65536 * (pb (4 * dwIdx + 2) mod 256)
  + 16777216 * (pb (4 * dwIdx + 3) mod 256).

(** [for (...; dwIdx < IFLASH_PAGE_SIZE / sizeof(uint32_t); ++dwIdx)
      *pAlignedDestination++ = _pdwPageBuffer[dwIdx]], with [n] iterations
    to go. *)
Fixpoint store_words (n : nat) (dwIdx pAlignedDestination : Z) : M unit :=
  match n with
  | O => ret tt
  | S n' =>
      fun s =>
        (store32 pAlignedDestination (buffer_word (_pdwPageBuffer s) dwIdx) ;;
         store_words n' (dwIdx + 1) (pAlignedDestination + 4)) s
  end.

(** *** flashd.c *)

Definition FLASHD_Erase (dwAddress : Z) : M Z :=
  lift (assert ((IFLASH0_CNC_ADDR <=? dwAddress)
                || (dwAddress <=? u32 (IFLASH0_CNC_ADDR + IFLASH_SIZE)))) ;;
  '(pSefc, wPage, wOffset) <- lift (SEFC_TranslateAddress dwAddress) ;;
  fun s => SEFC_PerformCommand pSefc SEFC_FCMD_EA 0 (_dwUseIAP s) s.

Definition FLASHD_EraseSector (dwAddress : Z) : M Z :=
  lift (assert ((IFLASH0_CNC_ADDR <=? dwAddress)
                || (dwAddress <=? u32 (IFLASH0_CNC_ADDR + IFLASH_SIZE)))) ;;
  '(pSefc, wPage, wOffset) <- lift (SEFC_TranslateAddress dwAddress) ;;
  fun s => SEFC_PerformCommand pSefc SEFC_FCMD_ES wPage (_dwUseIAP s) s.

(** Body of the loop of FLASHD_Write up to and including the write-page
    command: staging of the page, the word stores, the command. *)
Definition program_page (pSefc : Sefc) (page offset pvBuffer writeSize : Z) : M Z :=
  pageAddress <- lift (SEFC_ComputeAddress pSefc page 0) ;;
  let pageAddress := Z.lor pageAddress 2684354560 in
  let padding := u16 (u32 (IFLASH_PAGE_SIZE - offset - writeSize)) in
  memcpy_to_buffer 0 pageAddress offset ;;
  memcpy_to_buffer offset pvBuffer writeSize ;;
  memcpy_to_buffer (offset + writeSize)
                   (u32 (pageAddress + offset + writeSize)) padding ;;
  store_words (Z.to_nat (IFLASH_PAGE_SIZE / 4)) 0 pageAddress ;;
  fun s => SEFC_PerformCommand pSefc SEFC_FCMD_WP page (_dwUseIAP s) s.

(** [min((uint32_t)IFLASH_PAGE_SIZE - offset, dwSize)] *)
Definition write_size (offset dwSize : Z) : Z :=
  let a := u32 (IFLASH_PAGE_SIZE - offset) in
  if a <? dwSize then a else dwSize.

(** [while ( dwSize > 0 )]; [k] bounds the number of iterations followed. *)
Fixpoint FLASHD_Write_loop (k : nat) (pSefc : Sefc)
         (page offset pvBuffer dwSize : Z) : M Z :=
  match k with
  | O => fun _ => Hung
  | S k' =>
      if 0 <? dwSize then
        let writeSize := write_size offset dwSize in
        dwError <- program_page pSefc page offset pvBuffer writeSize ;;
        if negb (dwError =? 0) then ret dwError
        else FLASHD_Write_loop k' pSefc (u16 (page + 1)) 0
                               (u32 (pvBuffer + writeSize))
                               (u32 (dwSize - writeSize))
      else ret 0
  end.

(** [pvBuffer] is the address of the caller's data, 0 for NULL.  Every
    iteration with [offset < IFLASH_PAGE_SIZE] consumes at least one
    byte, so [dwSize + 1] iterations are enough. *)
Definition FLASHD_Write (dwAddress pvBuffer dwSize : Z) : M Z :=
  lift (assert (negb (pvBuffer =? 0))) ;;
  lift (assert (IFLASH0_CNC_ADDR <=? dwAddress)) ;;
  lift (assert (u32 (dwAddress + dwSize) <=? u32 (IFLASH0_CNC_ADDR + IFLASH_SIZE))) ;;
  '(pSefc, page, offset) <- lift (SEFC_TranslateAddress dwAddress) ;;
  FLASHD_Write_loop (S (Z.to_nat dwSize)) pSefc page offset pvBuffer dwSize.

(** [while ( startPage < endPage )] of FLASHD_Lock and FLASHD_Unlock, which
    differ in the command only. *)
Fixpoint region_loop (k : nat) (dwCommand : Z) (pSefc : Sefc)
         (startPage endPage numPagesInRegion : Z) : M Z :=
  match k with
  | O => fun _ => Hung
  | S k' =>
      if startPage <? endPage then
        dwError <- (fun s => SEFC_PerformCommand pSefc dwCommand startPage
                                                 (_dwUseIAP s) s) ;;
        if negb (dwError =? 0) then ret dwError
        else region_loop k' dwCommand pSefc (u16 (startPage + numPagesInRegion))
                         endPage numPagesInRegion
      else ret 0
  end.

(** An output pointer is [None] when null, else [Some] of the word it
    points to; the function returns the words after the call. *)
Definition store_out (p : option Z) (v : Z) : option Z :=
  match p with
  | Some _ => Some v
  | None => None
  end.

Definition lock_or_unlock (dwCommand : Z) (start end_ : Z)
           (pActualStart pActualEnd : option Z) : M (Z * option Z * option Z) :=
  let numPagesInRegion := u16 (IFLASH_LOCK_REGION_SIZE / IFLASH_PAGE_SIZE) in
  '(actualStart, actualEnd) <- lift (ComputeLockRange start end_) ;;
  let pActualStart := store_out pActualStart actualStart in
  let pActualEnd := store_out pActualEnd actualEnd in
  '(pSefc, startPage, _) <- lift (SEFC_TranslateAddress actualStart) ;;
  '(_, endPage, _) <- lift (SEFC_TranslateAddress actualEnd) ;;
  dwError <- region_loop (S (Z.to_nat endPage)) dwCommand pSefc
                         startPage endPage numPagesInRegion ;;
  ret (dwError, pActualStart, pActualEnd).

Definition FLASHD_Lock := lock_or_unlock SEFC_FCMD_SLB.
Definition FLASHD_Unlock := lock_or_unlock SEFC_FCMD_CLB.

Definition FLASHD_IsGPNVMSet (usGPVM : Z) : M Z :=
  lift (assert (usGPVM <? GPNVM_NUM_MAX)) ;;
  (fun s => SEFC_PerformCommand SEFC0 SEFC_FCMD_GGPB 0 (_dwUseIAP s) s) ;;
  dwStatus <- SEFC_GetResult SEFC0 ;;
  if negb (Z.land dwStatus (Z.shiftl 1 usGPVM) =? 0) then ret 1 else ret 0.

Definition FLASHD_SetGPNVM (usGPVM : Z) : M Z :=
  lift (assert (usGPVM <? GPNVM_NUM_MAX)) ;;
  isSet <- FLASHD_IsGPNVMSet usGPVM ;;
  if isSet =? 0
  then fun s => SEFC_PerformCommand SEFC0 SEFC_FCMD_SGPB usGPVM (_dwUseIAP s) s
  else ret 0.

Definition FLASHD_ClearGPNVM (usGPVM : Z) : M Z :=
  lift (assert (usGPVM <? GPNVM_NUM_MAX)) ;;
  isSet <- FLASHD_IsGPNVMSet usGPVM ;;
  if negb (isSet =? 0)
  then fun s => SEFC_PerformCommand SEFC0 SEFC_FCMD_CGPB usGPVM (_dwUseIAP s) s
  else ret 0.

(** The caller's array of four words: [None] for a null pointer. *)
Definition uid : Type := (Z * Z * Z * Z)%type.

Definition FLASHD_ReadUniqueID (pdwUniqueID : option uid) : M (Z * option uid) :=
  match pdwUniqueID with
  | None => ret (1, None)
  | Some _ =>
      fun s =>
        let s1 := write_FCR SEFC0 (Z.lor EEFC_FCR_FKEY_PASSWD SEFC_FCMD_STUI) s in
        let id := (load32 (mem s1) IFLASH0_CNC_ADDR,
                   load32 (mem s1) (IFLASH0_CNC_ADDR + 4),
                   load32 (mem s1) (IFLASH0_CNC_ADDR + 8),
                   load32 (mem s1) (IFLASH0_CNC_ADDR + 12)) in
        let s2 := write_FCR SEFC0 (Z.lor EEFC_FCR_FKEY_PASSWD SEFC_FCMD_SPUI) s1 in
        match wait_ready patience SEFC0 (hw_st s2) with
        | Some (_, h) => Done ((0, Some id), set_hw h s2)
        | None => Hung
        end
  end.

End Driver.

(** ** Vocabulary of the statements *)

(** Address of page 0 of the array a controller drives. *)
Definition bank_base {C : Chip} (sefc : Sefc) : Z :=
  if EFC1_defined
  then (if Sefc_eqb sefc SEFC0 then IFLASH0_CNC_ADDR
        else IFLASH0_CNC_ADDR + IFLASH_SIZE / 2)
  else IFLASH0_CNC_ADDR.

Section Vocabulary.
Context {C : Chip} {K : Controller}.
Variable patience : nat.

(** [polled sefc h k st h']: from controller state [h], [k] reads of
    EEFC_FSR show FRDY clear and the next one returns [st] with FRDY set,
    leaving the controller in [h']. *)
Inductive polled (sefc : Sefc) : hw -> nat -> Z -> hw -> Prop :=
| polled_ready h st h' :
    hw_fsr sefc h = (st, h') ->
    Z.land st EEFC_FSR_FRDY = EEFC_FSR_FRDY ->
    polled sefc h 0 st h'
| polled_busy h st h1 k st' h' :
    hw_fsr sefc h = (st, h1) ->
    Z.land st EEFC_FSR_FRDY <> EEFC_FSR_FRDY ->
    polled sefc h1 k st' h' ->
    polled sefc h (S k) st' h'.

(** The controller raises FRDY within [patience] reads, whatever its state. *)
Definition responsive : Prop :=
  forall sefc h, wait_ready patience sefc h <> None.

(** The controllers of this build. *)
Definition valid_sefc (sefc : Sefc) : Prop :=
  sefc = SEFC0 \/ EFC1_defined = true.

(** The bus write by which SEFC_PerformCommand hands a command word over. *)
Definition command_event (sefc : Sefc) (w dwUseIAP : Z) : event :=
  if negb (dwUseIAP =? 0)
  then EvIAP (if Sefc_eqb sefc SEFC0 then 0 else 1) w
  else EvFCR sefc w.

(** Address of a page in the write window. *)
Definition window (sefc : Sefc) (page : Z) : Z :=
  Z.lor (bank_base sefc + page * IFLASH_PAGE_SIZE) 2684354560.

(** The word stores of one page, from the staged bytes [pb]. *)
Definition burst (pageAddress : Z) (pb : Z -> Z) : list event :=
  map (fun j => EvStore32 (pageAddress + 4 * Z.of_nat j) (buffer_word pb (Z.of_nat j)))
      (seq 0 (Z.to_nat (IFLASH_PAGE_SIZE / 4))).

(** Bus writes of one iteration of FLASHD_Write. *)
Definition page_traffic (sefc : Sefc) (dwUseIAP page : Z) (pb : Z -> Z) : list event :=
  burst (window sefc page) pb
  ++ [command_event sefc (fcr_word SEFC_FCMD_WP page) dwUseIAP].

(** Bus writes of consecutive iterations, starting at [page]. *)
Fixpoint write_traffic (sefc : Sefc) (dwUseIAP page : Z) (pbs : list (Z -> Z))
  : list event :=
  match pbs with
  | [] => []
  | pb :: rest =>
      page_traffic sefc dwUseIAP page pb ++ write_traffic sefc dwUseIAP (page + 1) rest
  end.

(** The page image FLASHD_Write stages: flash content before [offset] and
    from [offset + writeSize] on, the caller's bytes in between. *)
Definition staged (m : Z -> Z) (pageAddress offset pvBuffer writeSize : Z) : Z -> Z :=
  fun i => if i <? offset then load8 m (pageAddress + i)
           else if i <? offset + writeSize then load8 m (pvBuffer + (i - offset))
           else load8 m (pageAddress + i).

(** Number of pages the bytes [offset, offset + dwSize) of a page sequence
    touch. *)
Definition pages_spanned (offset dwSize : Z) : Z :=
  if dwSize <=? 0 then 0
  else (offset + dwSize + (IFLASH_PAGE_SIZE - 1)) / IFLASH_PAGE_SIZE.

(** Big-step reading of the loop of FLASHD_Write: one entry per write-page
    command issued, holding the error code the command reported and the
    page image that was stored before it. *)
Inductive write_run (pSefc : Sefc)
  : Z -> Z -> Z -> Z -> state -> list (Z * (Z -> Z)) -> Z -> state -> Prop :=
| write_run_end page offset pvBuffer dwSize s :
    dwSize <= 0 ->
    write_run pSefc page offset pvBuffer dwSize s [] 0 s
| write_run_abort page offset pvBuffer dwSize s e s1 :
    0 < dwSize ->
    program_page patience pSefc page offset pvBuffer (write_size offset dwSize) s
      = Done (e, s1) ->
    e <> 0 ->
    write_run pSefc page offset pvBuffer dwSize s [(e, _pdwPageBuffer s1)] e s1
| write_run_next page offset pvBuffer dwSize s s1 its r s' :
    0 < dwSize ->
    program_page patience pSefc page offset pvBuffer (write_size offset dwSize) s
      = Done (0, s1) ->
    write_run pSefc (u16 (page + 1)) 0
              (u32 (pvBuffer + write_size offset dwSize))
              (u32 (dwSize - write_size offset dwSize)) s1 its r s' ->
    write_run pSefc page offset pvBuffer dwSize s
              ((0, _pdwPageBuffer s1) :: its) r s'.

(** Big-step reading of the loop of FLASHD_Lock / FLASHD_Unlock over the
    page cursors it visits: the error codes the commands reported. *)
Inductive region_run (dwCommand : Z) (pSefc : Sefc)
  : list Z -> state -> list Z -> Z -> state -> Prop :=
| region_run_end s :
    region_run dwCommand pSefc [] s [] 0 s
| region_run_abort p ps s e s1 :
    SEFC_PerformCommand patience pSefc dwCommand p (_dwUseIAP s) s = Done (e, s1) ->
    e <> 0 ->
    region_run dwCommand pSefc (p :: ps) s [e] e s1
| region_run_next p ps s s1 es r s' :
    SEFC_PerformCommand patience pSefc dwCommand p (_dwUseIAP s) s = Done (0, s1) ->
    region_run dwCommand pSefc ps s1 es r s' ->
    region_run dwCommand pSefc (p :: ps) s (0 :: es) r s'.

(** Page cursors from [startPage] in steps of [step] while below [endPage]. *)
Fixpoint cursors (n : nat) (startPage step : Z) : list Z :=
  match n with
  | O => []
  | S n' => startPage :: cursors n' (startPage + step) step
  end.

(** What FLASHD_Lock / FLASHD_Unlock with command [dwCommand] did when it
    ended in [result]: the aligned range is the one of ComputeLockRange; the
    commands went to the controller of the aligned start, one per page
    cursor from the aligned start page in steps of sixteen pages while below
    the aligned end page (with a single controller: one per lock region of
    the aligned range), up to and including the first that reported an
    error, whose code is the result; the output words hold the aligned
    range. *)
Definition regions_commanded (dwCommand start end_ : Z)
           (pActualStart pActualEnd : option Z) (s : state)
           (result : outcome (Z * option Z * option Z * state)) : Prop :=
  exists actualStart actualEnd pSefc startPage endPage,
    ComputeLockRange start end_ = Done (actualStart, actualEnd)
    /\ SEFC_TranslateAddress actualStart = Done (pSefc, startPage, 0)
    /\ (exists sefc', SEFC_TranslateAddress actualEnd = Done (sefc', endPage, 0))
    /\ let n := Z.to_nat ((endPage - startPage + 15) / 16) in
       let pages := cursors n startPage 16 in
       (EFC1_defined = false ->
        Z.of_nat n * IFLASH_LOCK_REGION_SIZE = actualEnd - actualStart)
       /\ match result with
          | Done (r, oS, oE, s') =>
              oS = store_out pActualStart actualStart
              /\ oE = store_out pActualEnd actualEnd
              /\ exists es,
                  region_run dwCommand pSefc pages s es r s'
                  /\ trace s' = trace s
                       ++ map (fun p => command_event pSefc (fcr_word dwCommand p)
                                                      (_dwUseIAP s))
                              (firstn (length es) pages)
                  /\ (length es <= n)%nat
                  /\ (r = 0 -> length es = n /\ Forall (eq 0) es)
                  /\ (r <> 0 -> exists es0, es = es0 ++ [r] /\ Forall (eq 0) es0)
          | AssertFailed => False
          | Hung => ~ responsive
          end.

(** The same with every part written out.  The aligned start is [start]
    rounded down to a lock-region boundary; the aligned end is the boundary
    at or above the page that contains [end_], whose byte offset within
    that page does not count.  A non-null output pointer holds the aligned
    address after the call, a null one stays null.  A command is the word
    made of the key, the page cursor as argument and the command code,
    handed over by the selected path. *)
Definition lock_outcome (dwCommand start end_ : Z)
           (pActualStart pActualEnd : option Z) (s : state)
           (result : outcome (Z * option Z * option Z * state)) : Prop :=
  let actualStart :=
    start - (start - IFLASH0_CNC_ADDR) mod IFLASH_LOCK_REGION_SIZE in
  let actualEnd :=
    IFLASH0_CNC_ADDR
    + IFLASH_LOCK_REGION_SIZE
      * (((end_ - IFLASH0_CNC_ADDR) / IFLASH_PAGE_SIZE + 15) / 16) in
  exists pSefc startPage endPage,
    SEFC_TranslateAddress actualStart = Done (pSefc, startPage, 0)
    /\ (exists sefc', SEFC_TranslateAddress actualEnd = Done (sefc', endPage, 0))
    /\ let n := Z.to_nat ((endPage - startPage + 15) / 16) in
       let pages := cursors n startPage 16 in
       (EFC1_defined = false ->
        Z.of_nat n * IFLASH_LOCK_REGION_SIZE = actualEnd - actualStart)
       /\ match result with
          | Done (r, oS, oE, s') =>
              oS = match pActualStart with
                   | Some _ => Some actualStart
                   | None => None
                   end
              /\ oE = match pActualEnd with
                      | Some _ => Some actualEnd
                      | None => None
                      end
              /\ exists es,
                  region_run dwCommand pSefc pages s es r s'
                  /\ trace s' = trace s
                       ++ map (fun p =>
                                 if negb (_dwUseIAP s =? 0)
                                 then EvIAP (if Sefc_eqb pSefc SEFC0 then 0 else 1)
                                        (Z.lor (Z.lor EEFC_FCR_FKEY_PASSWD
                                                      (EEFC_FCR_FARG p))
                                               (Z.land EEFC_FCR_FCMD_Msk
                                                  (Z.shiftl dwCommand EEFC_FCR_FCMD_Pos)))
                                 else EvFCR pSefc
                                        (Z.lor (Z.lor EEFC_FCR_FKEY_PASSWD
                                                      (EEFC_FCR_FARG p))
                                               (Z.land EEFC_FCR_FCMD_Msk
                                                  (Z.shiftl dwCommand EEFC_FCR_FCMD_Pos))))
                              (firstn (length es) pages)
                  /\ (length es <= n)%nat
                  /\ (r = 0 -> length es = n /\ Forall (eq 0) es)
                  /\ (r <> 0 -> exists es0, es = es0 ++ [r] /\ Forall (eq 0) es0)
          | AssertFailed => False
          | Hung => ~ responsive
          end.

(** What the data sheet says of the GPNVM commands, for a reading [gp] of
    the fuse bits off the controller state: a completed get-GPNVM command
    leaves the bits in EEFC_FRR and does not change them; a set (clear)
    command that completed without error leaves the bit set (clear). *)
Definition gpnvm_contract (gp : hw -> Z) : Prop :=
  (forall s r s1 v h,
      SEFC_PerformCommand patience SEFC0 SEFC_FCMD_GGPB 0 (_dwUseIAP s) s = Done (r, s1) ->
      hw_frr SEFC0 (hw_st s1) = (v, h) ->
      v = gp (hw_st s) /\ gp h = gp (hw_st s))
  /\ (forall s i s1,
      0 <= i < GPNVM_NUM_MAX ->
      SEFC_PerformCommand patience SEFC0 SEFC_FCMD_SGPB i (_dwUseIAP s) s = Done (0, s1) ->
      Z.testbit (gp (hw_st s1)) i = true)
  /\ (forall s i s1,
      0 <= i < GPNVM_NUM_MAX ->
      SEFC_PerformCommand patience SEFC0 SEFC_FCMD_CGPB i (_dwUseIAP s) s = Done (0, s1) ->
      Z.testbit (gp (hw_st s1)) i = false).

End Vocabulary.

(** ** A small controller to run the driver on

    It follows the register layout of [pic32cx2051mtg].  A command written
    to EEFC_FCR shows FRDY clear on the first status read and set from the
    second on; the ROM routine returns with FRDY set.  A write-page command
    on a page listed in [sim_locked] reports FLOCKE; the GPNVM commands act
    on [sim_gpnvm]. *)

Record sim_hw : Type := mkSim {
  sim_gpnvm : Z;
  sim_frr : Z;
  sim_err : bool;
  sim_busy : bool;
  sim_locked : list Z
}.

Definition sim_exec (w : Z) (busy : bool) (h : sim_hw) : sim_hw :=
  let cmd := Z.land w 255 in
  let arg := Z.land (Z.shiftr w 8) 65535 in
  if cmd =? SEFC_FCMD_WP then
    mkSim (sim_gpnvm h) (sim_frr h)
          (existsb (Z.eqb arg) (sim_locked h)) busy (sim_locked h)
  else if cmd =? SEFC_FCMD_SGPB then
    mkSim (Z.lor (sim_gpnvm h) (Z.shiftl 1 arg)) (sim_frr h) false busy (sim_locked h)
  else if cmd =? SEFC_FCMD_CGPB then
    mkSim (Z.ldiff (sim_gpnvm h) (Z.shiftl 1 arg)) (sim_frr h) false busy (sim_locked h)
  else if cmd =? SEFC_FCMD_GGPB then
    mkSim (sim_gpnvm h) (sim_gpnvm h) false busy (sim_locked h)
  else mkSim (sim_gpnvm h) (sim_frr h) false busy (sim_locked h).

Definition sim : Controller := {|
  hw := sim_hw;
  hw_fcr := fun _ w h => sim_exec w true h;
  hw_iap := fun _ w h => sim_exec w false h;
  hw_fsr := fun _ h =>
    if sim_busy h
    then (0, mkSim (sim_gpnvm h) (sim_frr h) (sim_err h) false (sim_locked h))
    else (if sim_err h then 5 else 1, h);
  hw_frr := fun _ h => (sim_frr h, h)
|}.

(** A start state: flash and RAM hold a recognisable pattern, the staging
    buffer is clear, nothing has been sent yet. *)
Definition sim_state (gpnvm : Z) (locked : list Z) (useIAP : Z) : @state sim :=
  @mkState sim (mkSim gpnvm 0 false false locked) (fun a => a mod 251) (fun _ => 0) useIAP [].

(** ** The rest of efc.c and flashd.c, and the debugger adapter FlashPrg.c *)

Definition u8 (x : Z) : Z := x mod 256.

(** Further names the sources take from the device header. *)
Class Header : Type := {
  EEFC_FMR_FRDY : Z;
  EEFC_FMR_FWS_Msk : Z;
  EEFC_FMR_FWS : Z -> Z;
  EEFC_FCR_FCMD_GETD : Z
}.

(** The mode register EEFC_FMR of a controller: what a read returns and
    what a write does. *)
Class ModeRegister (K : Controller) : Type := {
  hw_fmr : Sefc -> hw -> Z * hw;
  hw_set_fmr : Sefc -> Z -> hw -> hw
}.

Section Rest.
Context {C : Chip} {K : Controller} {H : Header} {R : ModeRegister K}.
Variable patience : nat.

Notation "x <- c1 ;; c2" := (bind c1 (fun x => c2))
  (at level 61, c1 at next level, right associativity).
Notation "' pat <- c1 ;; c2" := (bind c1 (fun x => match x with pat => c2 end))
  (at level 61, pat pattern, c1 at next level, right associativity).
Notation "c1 ;; c2" := (bind c1 (fun _ => c2))
  (at level 61, right associativity).

(** *** efc.c *)

(** [sefc->EEFC_FMR |= EEFC_FMR_FRDY] *)
Definition SEFC_EnableFrdyIt (sefc : Sefc) : M unit :=
  fun s =>
    let (fmr, h) := hw_fmr sefc (hw_st s) in
    Done (tt, set_hw (hw_set_fmr sefc (Z.lor fmr EEFC_FMR_FRDY) h) s).

(** [sefc->EEFC_FMR &= (~EEFC_FMR_FRDY)] *)
Definition SEFC_DisableFrdyIt (sefc : Sefc) : M unit :=
  fun s =>
    let (fmr, h) := hw_fmr sefc (hw_st s) in
    Done (tt, set_hw (hw_set_fmr sefc (Z.land fmr (u32 (Z.lnot EEFC_FMR_FRDY))) h) s).

Definition SEFC_SetWaitState (sefc : Sefc) (ucCycles : Z) : M unit :=
  fun s =>
    let (dwFmr, h) := hw_fmr sefc (hw_st s) in
    let dwFmr := Z.land dwFmr (u32 (Z.lnot (u32 EEFC_FMR_FWS_Msk))) in
    let dwFmr := Z.lor dwFmr (EEFC_FMR_FWS ucCycles) in
    Done (tt, set_hw (hw_set_fmr sefc dwFmr h) s).

Definition SEFC_GetStatus (sefc : Sefc) : M Z :=
  fun s => let (v, h) := hw_fsr sefc (hw_st s) in Done (v, set_hw h s).

(** *** flashd.c *)

Definition set_UseIAP (u : Z) (s : state) : state :=
  mkState (hw_st s) (mem s) (_pdwPageBuffer s) u (trace s).

Definition FLASHD_Initialize (dwMCk dwUseIAP : Z) : M unit :=
  SEFC_DisableFrdyIt SEFC0 ;;
  (if EFC1_defined then SEFC_DisableFrdyIt EFC1 else ret tt) ;;
  fun s => Done (tt, set_UseIAP dwUseIAP s).

(** [for (i = ...; i < IFLASH_NB_OF_LOCK_BITS / 32u; i++) status[i] =
    SEFC_GetResult( pSefc )], with [n] iterations to go: the words read, in
    order. *)
Fixpoint read_status (n : nat) (pSefc : Sefc) : M (list Z) :=
  match n with
  | O => ret []
  | S n' =>
      v <- SEFC_GetResult pSefc ;;
      rest <- read_status n' pSefc ;;
      ret (v :: rest)
  end.

(** [while ( startRegion < endRegion )] of FLASHD_IsLocked; [k] bounds the
    number of iterations followed.  [status[i]] is [nth i status 0]. *)
Fixpoint count_locked (k : nat) (status : list Z)
         (startRegion endRegion numLockedRegions : Z) : outcome Z :=
  match k with
  | O => Hung
  | S k' =>
      if startRegion <? endRegion then
        let i := u32 (startRegion / 32) in
        let j := u32 (startRegion mod 32) in
        let numLockedRegions :=
          if negb (Z.land (nth (Z.to_nat i) status 0) (u32 (Z.shiftl 1 j)) =? 0)
          then u32 (numLockedRegions + 1) else numLockedRegions in
        count_locked k' status (u8 (startRegion + 1)) endRegion numLockedRegions
      else Done numLockedRegions
  end.

Definition FLASHD_IsLocked (start end_ : Z) : M Z :=
  lift (assert (start <=? end_)) ;;
  lift (assert ((IFLASH0_CNC_ADDR <=? start)
                && (end_ <=? u32 (IFLASH0_CNC_ADDR + IFLASH_SIZE)))) ;;
  '(pSefc, startPage, _) <- lift (SEFC_TranslateAddress start) ;;
  '(_, endPage, _) <- lift (SEFC_TranslateAddress end_) ;;
  let numPagesInRegion := IFLASH_LOCK_REGION_SIZE / IFLASH_PAGE_SIZE in
  let startRegion := u8 (startPage / numPagesInRegion) in
  let endRegion := u8 (endPage / numPagesInRegion) in
  let endRegion := if negb (endPage mod numPagesInRegion =? 0)
                   then u8 (endRegion + 1) else endRegion in
  (fun s => SEFC_PerformCommand patience pSefc SEFC_FCMD_GLB 0 (_dwUseIAP s) s) ;;
  status <- read_status (Z.to_nat (IFLASH_NB_OF_LOCK_BITS / 32)) pSefc ;;
  lift (count_locked 256 status startRegion endRegion 0).

(** [while (!(SEFC0->EEFC_FSR & EEFC_FSR_FRDY))] *)
Fixpoint wait_flag (n : nat) (sefc : Sefc) (h : hw) : option hw :=
  match n with
  | O => None
  | S n' =>
      let (v, h1) := hw_fsr sefc h in
      if Z.land v EEFC_FSR_FRDY =? 0 then wait_flag n' sefc h1 else Some h1
  end.

(** The result is the return value and the four words stored through
    [pdwDescriptor], which the function does not test for null. *)
Definition FLASHD_GetDescriptor : M (Z * list Z) :=
  fun s =>
    match wait_flag patience SEFC0 (hw_st s) with
    | None => Hung
    | Some h =>
        let s1 := write_FCR SEFC0
                    (Z.lor (Z.lor (EEFC_FCR_FCMD EEFC_FCR_FCMD_GETD) (EEFC_FCR_FARG 0))
                           EEFC_FCR_FKEY_PASSWD)
                    (set_hw h s) in
        match wait_flag patience SEFC0 (hw_st s1) with
        | None => Hung
        | Some h1 =>
            (words <- read_status 4 SEFC0 ;; ret (0, words)) (set_hw h1 s1)
        end
    end.

(** *** FlashPrg.c *)

Definition GPNVM_BOOT_MODE_BIT0 : Z := 5.
Definition GPNVM_BOOT_MODE_BIT1 : Z := 6.

(** The adapter's own variable beside the driver's state. *)
Record prg_state : Type := mkPrg {
  dev_base_adr : Z;
  drv : state
}.

Definition Init (adr clk fnc : Z) (p : prg_state) : outcome (Z * prg_state) :=
  match (FLASHD_Initialize 0 0 ;;
         ret1 <- FLASHD_SetGPNVM patience GPNVM_BOOT_MODE_BIT0 ;;
         ret2 <- FLASHD_SetGPNVM patience GPNVM_BOOT_MODE_BIT1 ;;
         ret ret2) (drv p) with
  | Done (ret_, s) =>
      if negb (ret_ =? 0) then Done (1, mkPrg (dev_base_adr p) s)
      else Done (0, mkPrg adr s)
  | AssertFailed => AssertFailed
  | Hung => Hung
  end.

Definition UnInit (fnc : Z) (p : prg_state) : outcome (Z * prg_state) :=
  Done (0, p).

Definition EraseChip (p : prg_state) : outcome (Z * prg_state) :=
  match FLASHD_Erase patience (dev_base_adr p) (drv p) with
  | Done (r, s) => Done (r, mkPrg (dev_base_adr p) s)
  | AssertFailed => AssertFailed
  | Hung => Hung
  end.

Definition EraseSector (adr : Z) (p : prg_state) : outcome (Z * prg_state) :=
  let startAddr := Z.land adr 33554431 in
  let endAddr := u32 (startAddr + 131072 - 1) in
  match FLASHD_Unlock patience startAddr endAddr None None (drv p) with
  | Done (r, _, _, s) =>
      if negb (r =? 0) then Done (1, mkPrg (dev_base_adr p) s)
      else
        match FLASHD_EraseSector patience adr s with
        | Done (e, s1) =>
            if negb (e =? 0) then Done (1, mkPrg (dev_base_adr p) s1)
            else Done (0, mkPrg (dev_base_adr p) s1)
        | AssertFailed => AssertFailed
        | Hung => Hung
        end
  | AssertFailed => AssertFailed
  | Hung => Hung
  end.

Definition ProgramPage (adr sz buf : Z) (p : prg_state) : outcome (Z * prg_state) :=
  let startAddr := Z.land adr 33554431 in
  match FLASHD_Write patience startAddr buf sz (drv p) with
  | Done (r, s) =>
      if negb (r =? 0) then Done (1, mkPrg (dev_base_adr p) s)
      else Done (0, mkPrg (dev_base_adr p) s)
  | AssertFailed => AssertFailed
  | Hung => Hung
  end.

(** [memcmp]: 0 when the [n] bytes agree, else the difference of the first
    two that differ. *)
Fixpoint memcmp (m : Z -> Z) (a b : Z) (n : nat) : Z :=
  match n with
  | O => 0
  | S n' =>
      if load8 m a =? load8 m b then memcmp m (a + 1) (b + 1) n'
      else load8 m a - load8 m b
  end.

Definition Verify (adr sz buf : Z) (p : prg_state) : Z :=
  if memcmp (mem (drv p)) adr buf (Z.to_nat sz) =? 0 then u32 (adr + sz) else adr.

End Rest.

(** The controller [sim] with a mode register beside it. *)
Definition simM : Controller := {|
  hw := (sim_hw * Z)%type;
  hw_fcr := fun a w (h : sim_hw * Z) => (@hw_fcr sim a w (fst h), snd h);
  hw_iap := fun b w (h : sim_hw * Z) => (@hw_iap sim b w (fst h), snd h);
  hw_fsr := fun a (h : sim_hw * Z) =>
    (fst (@hw_fsr sim a (fst h)), (snd (@hw_fsr sim a (fst h)), snd h));
  hw_frr := fun a (h : sim_hw * Z) =>
    (fst (@hw_frr sim a (fst h)), (snd (@hw_frr sim a (fst h)), snd h))
|}.

Definition simM_fmr (a : Sefc) (h : sim_hw * Z) : Z * (sim_hw * Z) := (snd h, h).
Definition simM_set_fmr (a : Sefc) (v : Z) (h : sim_hw * Z) : sim_hw * Z := (fst h, v).

Definition simM_mode : ModeRegister simM :=
  Build_ModeRegister simM simM_fmr simM_set_fmr.

(** Register layout of the EEFC for the names of [Header]. *)
Definition eefc_header : Header := {|
  EEFC_FMR_FRDY := 1;
  EEFC_FMR_FWS_Msk := 3840;
  EEFC_FMR_FWS := fun v => Z.land 3840 (Z.shiftl v 8);
  EEFC_FCR_FCMD_GETD := 0
|}.

Definition simM_state (gpnvm frr fmr : Z) (locked : list Z) (useIAP : Z) : @state simM :=
  @mkState simM (mkSim gpnvm frr false false locked, fmr)
           (fun a => a mod 251) (fun _ => 0) useIAP [].

(** ** Vocabulary of the further statements *)

(** Page coordinates that denote an address of the flash: within the half
    of its controller when there are two, within the whole array and on
    SEFC0 when there is one. *)
Definition valid_coordinate {C : Chip} (sefc : Sefc) (page offset : Z) : bool :=
  (0 <=? page) && (0 <=? offset) && (offset <? IFLASH_PAGE_SIZE)
  && (if EFC1_defined
      then (if Sefc_eqb sefc SEFC0
            then page * IFLASH_PAGE_SIZE + offset <? IFLASH_SIZE / 2
            else page * IFLASH_PAGE_SIZE + offset <=? IFLASH_SIZE - IFLASH_SIZE / 2)
      else Sefc_eqb sefc SEFC0
           && (page * IFLASH_PAGE_SIZE + offset <=? IFLASH_SIZE)).

(** Lock bit of a region in the words read by FLASHD_IsLocked. *)
Definition lock_bit (status : list Z) (region : Z) : bool :=
  Z.testbit (nth (Z.to_nat (region / 32)) status 0) (region mod 32).

(** Number of regions among [first, first + 1, ...] ([n] of them) whose lock
    bit is set. *)
Definition locked_between (status : list Z) (first : Z) (n : nat) : nat :=
  length (filter (lock_bit status) (cursors n first 1)).

(* ================================================================== *)
(** * Properties *)

Lemma u16_small x : 0 <= x < 65536 -> u16 x = x.
Proof. intros; unfold u16; apply Z.mod_small; lia. Qed.

Lemma u32_small x : 0 <= x < 4294967296 -> u32 x = x.
Proof. intros; unfold u32; apply Z.mod_small; lia. Qed.

Section Geometry.
Context {C : Chip}.
Hypothesis Hok : chip_ok C = true.

Lemma chip_ok_facts :
  0 <= IFLASH0_CNC_ADDR /\ 0 < IFLASH_SIZE /\ IFLASH_SIZE <= 2097152
  /\ IFLASH0_CNC_ADDR + IFLASH_SIZE < 536870912
  /\ (EFC1_defined = true -> (IFLASH_SIZE / 2) mod 8192 = 0).
Proof.
  unfold chip_ok in Hok.
  repeat (apply andb_prop in Hok; destruct Hok as [Hok ?]).
  apply Z.leb_le in Hok. apply Z.ltb_lt in H3, H1. apply Z.leb_le in H2.
  change (IFLASH_NB_OF_PAGES * IFLASH_PAGE_SIZE) with 2097152 in H2.
  repeat split; try assumption.
  intros E. rewrite E in H. simpl in H. apply Z.eqb_eq in H. exact H.
Qed.

Lemma chip_ok_regions : IFLASH_SIZE mod 8192 = 0.
Proof.
  unfold chip_ok in Hok.
  repeat (apply andb_prop in Hok; destruct Hok as [Hok ?]).
  apply Z.eqb_eq in H0. exact H0.
Qed.

Lemma half_bounds : 0 <= IFLASH_SIZE / 2 /\ 2 * (IFLASH_SIZE / 2) <= IFLASH_SIZE.
Proof.
  destruct chip_ok_facts as (_ & Hs & _).
  split; [apply Z.div_pos; lia | apply Z.mul_div_le; lia].
Qed.

Lemma bank_base_bounds sefc :
  IFLASH0_CNC_ADDR <= bank_base sefc <= IFLASH0_CNC_ADDR + IFLASH_SIZE / 2
  /\ (bank_base sefc - IFLASH0_CNC_ADDR) mod 8192 = 0.
Proof.
  destruct chip_ok_facts as (Hb & Hs & Hs2 & Hw & Hd), half_bounds as (Hh & Hh2).
  unfold bank_base. destruct EFC1_defined eqn:E.
  - destruct (Sefc_eqb sefc SEFC0).
    + rewrite Z.sub_diag. split; [lia | reflexivity].
    + replace (IFLASH0_CNC_ADDR + IFLASH_SIZE / 2 - IFLASH0_CNC_ADDR)
        with (IFLASH_SIZE / 2) by lia.
      split; [lia | auto].
  - rewrite Z.sub_diag. split; [lia | reflexivity].
Qed.

(** What SEFC_TranslateAddress returns on the addresses its assertions
    accept. *)
Lemma translate_spec A :
  IFLASH0_CNC_ADDR <= A <= IFLASH0_CNC_ADDR + IFLASH_SIZE ->
  exists sefc page offset,
    SEFC_TranslateAddress A = Done (sefc, page, offset)
    /\ A = bank_base sefc + page * 512 + offset
    /\ 0 <= offset < 512 /\ 0 <= page
    /\ bank_base sefc + page * 512 <= IFLASH0_CNC_ADDR + IFLASH_SIZE
    /\ (EFC1_defined = false -> sefc = SEFC0).
Proof.
  intros HA.
  destruct chip_ok_facts as (Hb & Hs & Hs2 & Hw & Hd), half_bounds as (Hh & Hh2).
  unfold SEFC_TranslateAddress, bank_base, assert, obind, IFLASH_PAGE_SIZE.
  rewrite (u32_small (IFLASH0_CNC_ADDR + IFLASH_SIZE)) by lia.
  destruct (IFLASH0_CNC_ADDR <=? A) eqn:E1; [| apply Z.leb_gt in E1; lia].
  destruct (A <=? IFLASH0_CNC_ADDR + IFLASH_SIZE) eqn:E2; [| apply Z.leb_gt in E2; lia].
  assert (Hrel : forall b, IFLASH0_CNC_ADDR <= b <= A ->
            let rel := u32 (A - b) in
            rel = A - b /\ u16 (rel / 512) = (A - b) / 512
            /\ u16 (rel mod 512) = (A - b) mod 512
            /\ A = b + (A - b) / 512 * 512 + (A - b) mod 512
            /\ 0 <= (A - b) mod 512 < 512 /\ 0 <= (A - b) / 512
            /\ b + (A - b) / 512 * 512 <= A).
  { intros b Hbnd rel. subst rel. rewrite u32_small by lia.
    pose proof (Z.div_mod (A - b) 512 ltac:(lia)) as Hdm.
    pose proof (Z.mod_pos_bound (A - b) 512 ltac:(lia)) as Hm.
    assert (0 <= (A - b) / 512) by (apply Z.div_pos; lia).
    assert ((A - b) / 512 < 65536)
      by (apply Z.div_lt_upper_bound; lia).
    rewrite !u16_small by lia. repeat split; lia. }
  destruct EFC1_defined eqn:E.
  - rewrite (u32_small (IFLASH0_CNC_ADDR + IFLASH_SIZE / 2)) by lia.
    destruct (A <? IFLASH0_CNC_ADDR + IFLASH_SIZE / 2) eqn:E3.
    + assert (Hb0 : IFLASH0_CNC_ADDR <= IFLASH0_CNC_ADDR <= A) by lia.
      destruct (Hrel _ Hb0) as (R1 & R2 & R3 & R4 & R5 & R6 & R7).
      cbv zeta in *. rewrite R2, R3.
      do 3 eexists. split; [reflexivity |]. simpl.
      repeat split; try lia; try discriminate.
    + apply Z.ltb_ge in E3.
      assert (Hb0 : IFLASH0_CNC_ADDR <= IFLASH0_CNC_ADDR + IFLASH_SIZE / 2 <= A) by lia.
      destruct (Hrel _ Hb0) as (R1 & R2 & R3 & R4 & R5 & R6 & R7).
      cbv zeta in *. rewrite R2, R3.
      do 3 eexists. split; [reflexivity |]. simpl.
      repeat split; try lia; try discriminate.
  - assert (Hb0 : IFLASH0_CNC_ADDR <= IFLASH0_CNC_ADDR <= A) by lia.
      destruct (Hrel _ Hb0) as (R1 & R2 & R3 & R4 & R5 & R6 & R7).
    cbv zeta in *. rewrite R2, R3.
    do 3 eexists. split; [reflexivity |].
    repeat split; try lia.
Qed.

Lemma compute_spec sefc page offset :
  0 <= page <= 4096 -> 0 <= offset < 512 ->
  SEFC_ComputeAddress sefc page offset = Done (bank_base sefc + page * 512 + offset).
Proof.
  intros Hp Ho.
  destruct chip_ok_facts as (Hb & Hs & Hs2 & Hw & Hd), half_bounds as (Hh & Hh2).
  unfold SEFC_ComputeAddress, bank_base, assert, obind,
    IFLASH_PAGE_SIZE, IFLASH_NB_OF_PAGES.
  destruct (page <=? 4096) eqn:E1; [| apply Z.leb_gt in E1; lia].
  destruct (offset <? 512) eqn:E2; [| apply Z.ltb_ge in E2; lia].
  destruct EFC1_defined; [destruct (Sefc_eqb sefc SEFC0) |];
    rewrite u32_small by lia; reflexivity.
Qed.

End Geometry.

Section AddressClaims.
Context {C : Chip}.
Hypothesis Hok : chip_ok C = true.

(** C4: for every valid flash address [A], [IFLASH0_CNC_ADDR <= A <
    IFLASH0_CNC_ADDR + IFLASH_SIZE], SEFC_TranslateAddress returns a
    controller, a page below [IFLASH_NB_OF_PAGES] and an offset below
    [IFLASH_PAGE_SIZE], and SEFC_ComputeAddress on these three returns [A]. *)
Theorem translate_compute_roundtrip (A : Z) :
  IFLASH0_CNC_ADDR <= A < IFLASH0_CNC_ADDR + IFLASH_SIZE ->
  exists sefc page offset,
    SEFC_TranslateAddress A = Done (sefc, page, offset)
    /\ 0 <= page < IFLASH_NB_OF_PAGES /\ 0 <= offset < IFLASH_PAGE_SIZE
    /\ SEFC_ComputeAddress sefc page offset = Done A.
Proof.
  intros HA.
  destruct (chip_ok_facts Hok) as (Hb & Hs & Hs2 & Hw & Hd).
  destruct (translate_spec Hok A ltac:(lia))
    as (sefc & page & offset & Ht & HAeq & Ho & Hp & Hle & _).
  pose proof (bank_base_bounds Hok sefc) as [Hbb _].
  exists sefc, page, offset.
  unfold IFLASH_NB_OF_PAGES, IFLASH_PAGE_SIZE.
  assert (page < 4096) by lia.
  repeat split; try lia; try assumption.
  rewrite (compute_spec Hok) by lia. f_equal. lia.
Qed.

(** Distinct valid addresses have distinct page coordinates. *)
Lemma translate_injective (A B : Z) :
  IFLASH0_CNC_ADDR <= A < IFLASH0_CNC_ADDR + IFLASH_SIZE ->
  IFLASH0_CNC_ADDR <= B < IFLASH0_CNC_ADDR + IFLASH_SIZE ->
  SEFC_TranslateAddress A = SEFC_TranslateAddress B -> A = B.
Proof.
  intros HA HB E.
  destruct (translate_spec Hok A ltac:(lia)) as (sa & pa & oa & Ha & HAeq & _).
  destruct (translate_spec Hok B ltac:(lia)) as (sb & pb & ob & Hb & HBeq & _).
  rewrite Ha, Hb in E. inversion E; subst. reflexivity.
Qed.

(** C5 (amended): for in-range [start <= end], ComputeLockRange returns
    [actual_start <= start] and an [actual_end] that is at least the base of
    the page containing [end]: it reaches [end] exactly when [end] does not
    lie strictly inside the first page of a lock region.  Both results are
    multiples of [IFLASH_LOCK_REGION_SIZE] from the flash base, and a range
    that is already aligned is returned unchanged. *)
Theorem ComputeLockRange_aligned (dwStart dwEnd : Z) :
  IFLASH0_CNC_ADDR <= dwStart -> dwStart <= dwEnd ->
  dwEnd <= IFLASH0_CNC_ADDR + IFLASH_SIZE ->
  exists actualStart actualEnd,
    ComputeLockRange dwStart dwEnd = Done (actualStart, actualEnd)
    /\ actualStart <= dwStart
    /\ dwEnd - (dwEnd - IFLASH0_CNC_ADDR) mod IFLASH_PAGE_SIZE <= actualEnd
    /\ (dwEnd <= actualEnd <->
        ~ 0 < (dwEnd - IFLASH0_CNC_ADDR) mod IFLASH_LOCK_REGION_SIZE
            < IFLASH_PAGE_SIZE)
    /\ (actualStart - IFLASH0_CNC_ADDR) mod IFLASH_LOCK_REGION_SIZE = 0
    /\ (actualEnd - IFLASH0_CNC_ADDR) mod IFLASH_LOCK_REGION_SIZE = 0
    /\ ((dwStart - IFLASH0_CNC_ADDR) mod IFLASH_LOCK_REGION_SIZE = 0 ->
        (dwEnd - IFLASH0_CNC_ADDR) mod IFLASH_LOCK_REGION_SIZE = 0 ->
        actualStart = dwStart /\ actualEnd = dwEnd).
Proof.
  intros H1 H2 H3.
  destruct (chip_ok_facts Hok) as (Hb & Hs & Hs2 & Hw & Hd).
  destruct (translate_spec Hok dwStart ltac:(lia))
    as (ss & ps & os & Hts & HSeq & Hos & Hps & Hles & _).
  destruct (translate_spec Hok dwEnd ltac:(lia))
    as (se & pe & oe & Hte & HEeq & Hoe & Hpe & Hlee & _).
  destruct (bank_base_bounds Hok ss) as [Hbs Has].
  destruct (bank_base_bounds Hok se) as [Hbe Hae].
  unfold ComputeLockRange. rewrite Hts, Hte. cbn [obind].
  unfold IFLASH_LOCK_REGION_SIZE, IFLASH_PAGE_SIZE.
  change (u16 (8192 / 512)) with 16. cbv zeta.
  set (bs := bank_base ss) in *. set (be := bank_base se) in *.
  assert (Hps2 : ps <= 4096) by lia.
  assert (Hpe2 : pe <= 4096) by lia.
  pose proof (Z.div_mod ps 16 ltac:(lia)) as Hds.
  pose proof (Z.mod_pos_bound ps 16 ltac:(lia)) as Hms.
  pose proof (Z.div_mod pe 16 ltac:(lia)) as Hde.
  pose proof (Z.mod_pos_bound pe 16 ltac:(lia)) as Hme.
  rewrite (u16_small (ps - ps mod 16)) by lia.
  rewrite (compute_spec Hok) by lia. fold bs. cbn [obind].
  assert (Hpe' : exists pe', (if negb (pe mod 16 =? 0)
                              then u16 (pe + (16 - pe mod 16)) else pe) = pe'
            /\ pe' = 16 * ((pe + 15) / 16) /\ pe <= pe' <= 4096
            /\ (pe mod 16 = 0 -> pe' = pe) /\ (pe mod 16 <> 0 -> pe + 1 <= pe')).
  { destruct (pe mod 16 =? 0) eqn:E; cbn [negb].
    - apply Z.eqb_eq in E. exists pe. repeat split; try lia.
      Z.div_mod_to_equations; lia.
    - apply Z.eqb_neq in E.
      assert (pe + (16 - pe mod 16) <= 4096)
        by (Z.div_mod_to_equations; lia).
      rewrite u16_small by lia. eexists. split; [reflexivity |].
      repeat split; try lia; Z.div_mod_to_equations; lia. }
  destruct Hpe' as (pe' & -> & Hpe'eq & Hpe'b & Hpe'0 & Hpe'1).
  rewrite (compute_spec Hok) by lia. fold be. cbn [obind].
  do 2 eexists. split; [reflexivity |].
  assert (Hoe' : (dwEnd - IFLASH0_CNC_ADDR) mod 512 = oe).
  { assert ((be - IFLASH0_CNC_ADDR) mod 512 = 0)
      by (Z.div_mod_to_equations; lia).
    Z.div_mod_to_equations; lia. }
  assert (Hre : (dwEnd - IFLASH0_CNC_ADDR) mod 8192 = pe mod 16 * 512 + oe)
    by (Z.div_mod_to_equations; lia).
  assert (Hrs : (dwStart - IFLASH0_CNC_ADDR) mod 8192 = ps mod 16 * 512 + os)
    by (Z.div_mod_to_equations; lia).
  rewrite Hoe', Hre, Hrs.
  split; [lia |]. split; [lia |].
  split.
  { destruct (Z.eq_dec (pe mod 16) 0) as [E | E].
    - rewrite (Hpe'0 E). lia.
    - specialize (Hpe'1 E). lia. }
  split; [Z.div_mod_to_equations; lia |].
  split; [Z.div_mod_to_equations; lia |].
  intros Z1 Z2.
  assert (pe mod 16 = 0) by lia. rewrite (Hpe'0 H). lia.
Qed.

End AddressClaims.

Section CommandLayer.
Context {C : Chip} {K : Controller}.
Variable patience : nat.

Lemma wait_ready_polled n sefc h st h' :
  wait_ready n sefc h = Some (st, h') <->
  exists k, (k < n)%nat /\ polled sefc h k st h'.
Proof.
  revert h. induction n as [| n IH]; intros h; simpl.
  - split; [discriminate | intros (k & Hk & _); lia].
  - destruct (hw_fsr sefc h) as [st0 h1] eqn:E.
    destruct (Z.land st0 EEFC_FSR_FRDY =? EEFC_FSR_FRDY) eqn:R.
    + apply Z.eqb_eq in R. split.
      * intros [= <- <-]. exists 0%nat. split; [lia | econstructor; eauto].
      * intros (k & Hk & Hp). inversion Hp; subst; congruence.
    + apply Z.eqb_neq in R. rewrite IH. split.
      * intros (k & Hk & Hp). exists (S k). split; [lia |].
        eapply polled_busy; eauto.
      * intros (k & Hk & Hp). inversion Hp; subst.
        -- congruence.
        -- exists k0. split; [lia |]. congruence.
Qed.

Lemma polled_ready_bit sefc h k st h' :
  polled sefc h k st h' -> Z.land st EEFC_FSR_FRDY = EEFC_FSR_FRDY.
Proof. induction 1; auto. Qed.

Lemma polled_last sefc h k st h' :
  polled sefc h k st h' -> exists h0, hw_fsr sefc h0 = (st, h').
Proof. induction 1; eauto. Qed.

Lemma error_mask_split st :
  Z.land st error_mask
  = Z.lor (Z.lor (Z.land st EEFC_FSR_FLOCKE) (Z.land st EEFC_FSR_FCMDE))
          (Z.land st EEFC_FSR_FLERR).
Proof. unfold error_mask. now rewrite !Z.land_lor_distr_r. Qed.

(** C6: whatever the command and argument, SEFC_PerformCommand never dies
    in an assertion, and when it returns, its result is the bitwise or of
    the FLOCKE, FCMDE and FLERR bits of the last value [st] read from
    EEFC_FSR, hence zero exactly when none of the three is set.  On the
    register path that value is the first one showing FRDY after the write
    of the command word, all earlier reads having shown it clear, and the
    call keeps waiting only as long as no read shows FRDY; on the ROM path
    it is the one read made after the routine has returned. *)
Theorem SEFC_PerformCommand_result sefc dwCommand dwArgument dwUseIAP s :
  match SEFC_PerformCommand patience sefc dwCommand dwArgument dwUseIAP s with
  | Done (r, s') =>
      exists st,
        r = Z.lor (Z.lor (Z.land st EEFC_FSR_FLOCKE) (Z.land st EEFC_FSR_FCMDE))
                  (Z.land st EEFC_FSR_FLERR)
        /\ (r = 0 <-> Z.land st EEFC_FSR_FLOCKE = 0
                      /\ Z.land st EEFC_FSR_FCMDE = 0
                      /\ Z.land st EEFC_FSR_FLERR = 0)
        /\ (dwUseIAP <> 0 ->
            hw_fsr sefc (hw_st (IAP_calls sefc (fcr_word dwCommand dwArgument) s))
            = (st, hw_st s'))
        /\ (dwUseIAP = 0 ->
            Z.land st EEFC_FSR_FRDY = EEFC_FSR_FRDY
            /\ exists k, (k < patience)%nat
                 /\ polled sefc (hw_fcr sefc (fcr_word dwCommand dwArgument) (hw_st s))
                           k st (hw_st s'))
  | AssertFailed => False
  | Hung =>
      dwUseIAP = 0
      /\ forall k st h', (k < patience)%nat ->
           ~ polled sefc (hw_fcr sefc (fcr_word dwCommand dwArgument) (hw_st s))
                    k st h'
  end.
Proof.
  assert (Hz : forall st r,
             r = Z.land st error_mask ->
             r = Z.lor (Z.lor (Z.land st EEFC_FSR_FLOCKE) (Z.land st EEFC_FSR_FCMDE))
                       (Z.land st EEFC_FSR_FLERR)
             /\ (r = 0 <-> Z.land st EEFC_FSR_FLOCKE = 0
                           /\ Z.land st EEFC_FSR_FCMDE = 0
                           /\ Z.land st EEFC_FSR_FLERR = 0)).
  { intros st r ->. rewrite error_mask_split. split; [reflexivity |].
    rewrite !Z.lor_eq_0_iff. tauto. }
  unfold SEFC_PerformCommand.
  destruct (dwUseIAP =? 0) eqn:U; cbn [negb].
  - apply Z.eqb_eq in U. subst dwUseIAP.
    destruct (wait_ready patience sefc _) as [[st h] |] eqn:W.
    + pose proof W as W'. apply wait_ready_polled in W' as (k & Hk & Hp).
      exists st. destruct (Hz st _ eq_refl) as [Hr Hr0].
      split; [exact Hr |]. split; [exact Hr0 |]. split.
      * intros; contradiction.
      * intros _. split; [eapply polled_ready_bit; eauto |].
        exists k. split; [exact Hk | exact Hp].
    + split; [reflexivity |]. intros k st h' Hk Hp.
      assert (wait_ready patience sefc
                (hw_st (write_FCR sefc (fcr_word dwCommand dwArgument) s))
              = Some (st, h')) as E
        by (apply wait_ready_polled; eauto).
      congruence.
  - apply Z.eqb_neq in U.
    match goal with
    | |- context [hw_fsr sefc ?h] => destruct (hw_fsr sefc h) as [st h'] eqn:E
    end.
    exists st. destruct (Hz st _ eq_refl) as [Hr Hr0].
    split; [exact Hr |]. split; [exact Hr0 |]. split.
    + intros _. reflexivity.
    + intros; contradiction.
Qed.

(** The footprint of a command on the driver's state. *)
Lemma SEFC_PerformCommand_frame sefc dwCommand dwArgument dwUseIAP s :
  valid_sefc sefc ->
  match SEFC_PerformCommand patience sefc dwCommand dwArgument dwUseIAP s with
  | Done (r, s') =>
      trace s' = trace s ++ [command_event sefc (fcr_word dwCommand dwArgument) dwUseIAP]
      /\ mem s' = mem s /\ _pdwPageBuffer s' = _pdwPageBuffer s
      /\ _dwUseIAP s' = _dwUseIAP s
  | AssertFailed => False
  | Hung => ~ responsive patience
  end.
Proof.
  intros Hv. unfold SEFC_PerformCommand, command_event, IAP_calls.
  destruct (dwUseIAP =? 0) eqn:U; cbn [negb].
  - destruct (wait_ready patience sefc _) as [[st h] |] eqn:W.
    + simpl. auto.
    + intros R. eapply R; eauto.
  - match goal with
    | |- context [hw_fsr sefc ?h] => destruct (hw_fsr sefc h) as [st h'] eqn:E
    end.
    clear E. destruct Hv as [-> | Hd].
    + simpl. rewrite andb_false_r. simpl. auto.
    + rewrite Hd. destruct sefc; simpl; auto.
Qed.

End CommandLayer.

Section UniqueID.
Context {C : Chip} {K : Controller}.
Variable patience : nat.

(** C10: with a null pointer FLASHD_ReadUniqueID returns 1 and leaves the
    state as it was: nothing is written to the controller.  With a non-null
    pointer it never fails an assertion and returns, as soon as a read of
    EEFC_FSR shows FRDY, the value 0 together with the four words read at
    [IFLASH0_CNC_ADDR], whatever error bits that status carries; its only
    commands are start and stop of the unique-identifier mode. *)
Theorem FLASHD_ReadUniqueID_result (p : uid) (s : state) :
  FLASHD_ReadUniqueID patience None s = Done ((1, None), s)
  /\ match FLASHD_ReadUniqueID patience (Some p) s with
     | Done ((r, out), s') =>
         r = 0
         /\ out = Some (load32 (mem s) IFLASH0_CNC_ADDR,
                        load32 (mem s) (IFLASH0_CNC_ADDR + 4),
                        load32 (mem s) (IFLASH0_CNC_ADDR + 8),
                        load32 (mem s) (IFLASH0_CNC_ADDR + 12))
         /\ trace s' = trace s
                       ++ [EvFCR SEFC0 (Z.lor EEFC_FCR_FKEY_PASSWD SEFC_FCMD_STUI);
                           EvFCR SEFC0 (Z.lor EEFC_FCR_FKEY_PASSWD SEFC_FCMD_SPUI)]
     | AssertFailed => False
     | Hung => ~ responsive patience
     end
  /\ (forall st h',
        wait_ready patience SEFC0
          (hw_fcr SEFC0 (Z.lor EEFC_FCR_FKEY_PASSWD SEFC_FCMD_SPUI)
             (hw_fcr SEFC0 (Z.lor EEFC_FCR_FKEY_PASSWD SEFC_FCMD_STUI) (hw_st s)))
        = Some (st, h') ->
        exists out s',
          FLASHD_ReadUniqueID patience (Some p) s = Done ((0, Some out), s')).
Proof.
  split; [reflexivity |]. split.
  - unfold FLASHD_ReadUniqueID.
    destruct (wait_ready patience SEFC0 _) as [[st h] |] eqn:W.
    + split; [reflexivity |]. split; [reflexivity |].
      simpl. rewrite <- app_assoc. reflexivity.
    + intros R. eapply R; eauto.
  - intros st h' W. unfold FLASHD_ReadUniqueID. simpl in *. rewrite W. eauto.
Qed.

End UniqueID.

Section GPNVM.
Context {C : Chip} {K : Controller}.
Variable patience : nat.

Lemma IsGPNVMSet_unfold i s :
  i < GPNVM_NUM_MAX ->
  FLASHD_IsGPNVMSet patience i s =
  match SEFC_PerformCommand patience SEFC0 SEFC_FCMD_GGPB 0 (_dwUseIAP s) s with
  | Done (_, s1) =>
      let (v, h) := hw_frr SEFC0 (hw_st s1) in
      Done (if negb (Z.land v (Z.shiftl 1 i) =? 0) then 1 else 0, set_hw h s1)
  | AssertFailed => AssertFailed
  | Hung => Hung
  end.
Proof.
  intros Hi. unfold FLASHD_IsGPNVMSet, bind, lift, assert, SEFC_GetResult.
  destruct (i <? GPNVM_NUM_MAX) eqn:E; [| apply Z.ltb_ge in E; lia].
  destruct (SEFC_PerformCommand _ _ _ _ _ _) as [[r s1] | |]; try reflexivity.
  destruct (hw_frr SEFC0 (hw_st s1)) as [v h].
  destruct (negb _); reflexivity.
Qed.

Lemma land_bit_testbit v i :
  0 <= i -> (negb (Z.land v (Z.shiftl 1 i) =? 0)) = Z.testbit v i.
Proof.
  intros Hi. rewrite Z.shiftl_1_l.
  destruct (Z.testbit v i) eqn:T.
  - apply negb_true_iff, Z.eqb_neq. intros E.
    assert (Z.testbit (Z.land v (2 ^ i)) i = false) by (rewrite E; apply Z.bits_0).
    rewrite Z.land_spec, T, Z.pow2_bits_true in H by lia. discriminate.
  - apply negb_false_iff, Z.eqb_eq. apply Z.bits_inj'. intros n Hn.
    rewrite Z.land_spec, Z.bits_0.
    destruct (Z.eq_dec n i) as [-> | Hne].
    + rewrite T. reflexivity.
    + rewrite Z.pow2_bits_false by lia. apply andb_false_r.
Qed.

(** C8 (amended): for an index below [GPNVM_NUM_MAX], FLASHD_SetGPNVM first
    issues the get-GPNVM command.  If the bit reads as set it issues
    nothing else, in particular no set-GPNVM command, and returns 0; if the
    bit reads as clear it then issues the set-GPNVM command with the index
    as argument and returns what that command reports.  FLASHD_ClearGPNVM
    is the mirror image.  On a controller that honours [gpnvm_contract], a
    FLASHD_SetGPNVM that returned 0 makes FLASHD_IsGPNVMSet on the same
    index return 1, and a FLASHD_ClearGPNVM that returned 0 makes it
    return 0. *)
Theorem GPNVM_set_clear (i : Z) (s : state) :
  0 <= i < GPNVM_NUM_MAX ->
  let query := command_event SEFC0 (fcr_word SEFC_FCMD_GGPB 0) (_dwUseIAP s) in
  match FLASHD_IsGPNVMSet patience i s with
  | Done (b, s1) =>
      trace s1 = trace s ++ [query] /\ _dwUseIAP s1 = _dwUseIAP s
      /\ (b = 1 \/ b = 0)
      /\ (b = 1 -> FLASHD_SetGPNVM patience i s = Done (0, s1))
      /\ (b = 0 ->
          FLASHD_SetGPNVM patience i s
          = SEFC_PerformCommand patience SEFC0 SEFC_FCMD_SGPB i (_dwUseIAP s) s1
          /\ match FLASHD_SetGPNVM patience i s with
             | Done (_, s2) =>
                 trace s2 = trace s
                   ++ [query;
                       command_event SEFC0 (fcr_word SEFC_FCMD_SGPB i) (_dwUseIAP s)]
             | AssertFailed => False
             | Hung => ~ responsive patience
             end)
      /\ (b = 0 -> FLASHD_ClearGPNVM patience i s = Done (0, s1))
      /\ (b = 1 ->
          FLASHD_ClearGPNVM patience i s
          = SEFC_PerformCommand patience SEFC0 SEFC_FCMD_CGPB i (_dwUseIAP s) s1
          /\ match FLASHD_ClearGPNVM patience i s with
             | Done (_, s2) =>
                 trace s2 = trace s
                   ++ [query;
                       command_event SEFC0 (fcr_word SEFC_FCMD_CGPB i) (_dwUseIAP s)]
             | AssertFailed => False
             | Hung => ~ responsive patience
             end)
  | AssertFailed => False
  | Hung => ~ responsive patience
  end
  /\ (forall gp, gpnvm_contract patience gp ->
      match FLASHD_SetGPNVM patience i s with
      | Done (e, s1) =>
          e = 0 ->
          match FLASHD_IsGPNVMSet patience i s1 with
          | Done (b, _) => b = 1
          | AssertFailed => False
          | Hung => ~ responsive patience
          end
      | _ => True
      end
      /\ match FLASHD_ClearGPNVM patience i s with
         | Done (e, s1) =>
             e = 0 ->
             match FLASHD_IsGPNVMSet patience i s1 with
             | Done (b, _) => b = 0
             | AssertFailed => False
             | Hung => ~ responsive patience
             end
         | _ => True
         end).
Proof.
  intros Hi query.
  assert (Hi' : i < GPNVM_NUM_MAX) by lia.
  assert (Hv : valid_sefc SEFC0) by (left; reflexivity).
  assert (HS : FLASHD_SetGPNVM patience i s =
               match FLASHD_IsGPNVMSet patience i s with
               | Done (b, s1) =>
                   if b =? 0
                   then SEFC_PerformCommand patience SEFC0 SEFC_FCMD_SGPB i (_dwUseIAP s1) s1
                   else Done (0, s1)
               | AssertFailed => AssertFailed
               | Hung => Hung
               end).
  { unfold FLASHD_SetGPNVM, bind, lift, assert, ret.
    destruct (i <? GPNVM_NUM_MAX) eqn:E; [| apply Z.ltb_ge in E; lia].
    destruct (FLASHD_IsGPNVMSet patience i s) as [[b s1] | |]; try reflexivity.
    destruct (b =? 0); reflexivity. }
  assert (HC : FLASHD_ClearGPNVM patience i s =
               match FLASHD_IsGPNVMSet patience i s with
               | Done (b, s1) =>
                   if negb (b =? 0)
                   then SEFC_PerformCommand patience SEFC0 SEFC_FCMD_CGPB i (_dwUseIAP s1) s1
                   else Done (0, s1)
               | AssertFailed => AssertFailed
               | Hung => Hung
               end).
  { unfold FLASHD_ClearGPNVM, bind, lift, assert, ret.
    destruct (i <? GPNVM_NUM_MAX) eqn:E; [| apply Z.ltb_ge in E; lia].
    destruct (FLASHD_IsGPNVMSet patience i s) as [[b s1] | |]; try reflexivity.
    destruct (negb (b =? 0)); reflexivity. }
  assert (HQ : forall s0,
             match FLASHD_IsGPNVMSet patience i s0 with
             | Done (b, s1) =>
                 exists r s' v h,
                   SEFC_PerformCommand patience SEFC0 SEFC_FCMD_GGPB 0 (_dwUseIAP s0) s0
                   = Done (r, s')
                   /\ hw_frr SEFC0 (hw_st s') = (v, h) /\ s1 = set_hw h s'
                   /\ b = (if Z.testbit v i then 1 else 0)
                   /\ trace s1 = trace s0
                        ++ [command_event SEFC0 (fcr_word SEFC_FCMD_GGPB 0) (_dwUseIAP s0)]
                   /\ _dwUseIAP s1 = _dwUseIAP s0
             | AssertFailed => False
             | Hung => ~ responsive patience
             end).
  { intros s0. rewrite IsGPNVMSet_unfold by exact Hi'.
    pose proof (SEFC_PerformCommand_frame patience SEFC0 SEFC_FCMD_GGPB 0
                  (_dwUseIAP s0) s0 Hv) as F.
    destruct (SEFC_PerformCommand _ _ _ _ _ s0) as [[r s'] | |]; auto.
    destruct F as (Ft & _ & _ & Fu).
    destruct (hw_frr SEFC0 (hw_st s')) as [v h] eqn:E.
    exists r, s', v, h. rewrite land_bit_testbit by lia.
    repeat split; auto. }
  split.
  - pose proof (HQ s) as Q. rewrite HS, HC. clear HS HC HQ.
    destruct (FLASHD_IsGPNVMSet patience i s) as [[b s1] | |]; auto.
    destruct Q as (r & s' & v & h & Hp & Hf & -> & Hb & Ht & Hu).
    fold query in Ht. rewrite Hu.
    split; [exact Ht |]. split; [reflexivity |].
    split; [rewrite Hb; destruct (Z.testbit v i); auto |].
    split; [intros ->; reflexivity |].
    split.
    { intros ->. split; [reflexivity |]. cbn [Z.eqb].
      pose proof (SEFC_PerformCommand_frame patience SEFC0 SEFC_FCMD_SGPB i
                    (_dwUseIAP s) (set_hw h s') Hv) as F.
      destruct (SEFC_PerformCommand _ _ _ _ _ (set_hw h s')) as [[e s2] | |]; auto.
      destruct F as (Ft & _). rewrite Ft, Ht, <- app_assoc. reflexivity. }
    split; [intros ->; reflexivity |].
    intros ->. split; [reflexivity |]. cbn [Z.eqb negb].
    pose proof (SEFC_PerformCommand_frame patience SEFC0 SEFC_FCMD_CGPB i
                  (_dwUseIAP s) (set_hw h s') Hv) as F.
    destruct (SEFC_PerformCommand _ _ _ _ _ (set_hw h s')) as [[e s2] | |]; auto.
    destruct F as (Ft & _). rewrite Ft, Ht, <- app_assoc. reflexivity.
  - intros gp (Hget & Hset & Hclr).
    assert (Hread : forall s0 b s1,
               FLASHD_IsGPNVMSet patience i s0 = Done (b, s1) ->
               b = (if Z.testbit (gp (hw_st s0)) i then 1 else 0)
               /\ gp (hw_st s1) = gp (hw_st s0) /\ _dwUseIAP s1 = _dwUseIAP s0).
    { intros s0 b s1 E. pose proof (HQ s0) as Q. rewrite E in Q.
      destruct Q as (r & s' & v & h & Hp & Hf & -> & -> & _ & Hu).
      destruct (Hget _ _ _ _ _ Hp Hf) as [-> Hg]. simpl. auto. }
    assert (Hafter : forall s1 want,
               Z.testbit (gp (hw_st s1)) i = want ->
               match FLASHD_IsGPNVMSet patience i s1 with
               | Done (b, _) => b = (if want then 1 else 0)
               | AssertFailed => False
               | Hung => ~ responsive patience
               end).
    { intros s1 want Hw. pose proof (HQ s1) as Q.
      destruct (FLASHD_IsGPNVMSet patience i s1) as [[b s2] | |] eqn:E; auto.
      destruct (Hread _ _ _ E) as (-> & _). rewrite Hw. reflexivity. }
    rewrite HS, HC.
    destruct (FLASHD_IsGPNVMSet patience i s) as [[b s1] | |] eqn:E; auto.
    destruct (Hread _ _ _ E) as (Hb & Hg & Hu).
    split.
    + destruct (b =? 0) eqn:B.
      * destruct (SEFC_PerformCommand _ _ _ _ _ s1) as [[e s2] | |] eqn:P; auto.
        intros ->. apply (Hafter s2 true). eapply Hset; eauto.
      * intros _. apply (Hafter s1 true). rewrite Hg.
        destruct (Z.testbit (gp (hw_st s)) i); [reflexivity |].
        subst b. discriminate.
    + destruct (b =? 0) eqn:B; cbn [negb].
      * intros _. apply (Hafter s1 false). rewrite Hg.
        destruct (Z.testbit (gp (hw_st s)) i); [| reflexivity].
        subst b. discriminate.
      * destruct (SEFC_PerformCommand _ _ _ _ _ s1) as [[e s2] | |] eqn:P; auto.
        intros ->. apply (Hafter s2 false). eapply Hclr; eauto.
Qed.

End GPNVM.

Section LockRegions.
Context {C : Chip} {K : Controller}.
Variable patience : nat.
Hypothesis Hok : chip_ok C = true.

Lemma region_run_facts dwCommand sefc ps s es r s' :
  valid_sefc sefc ->
  region_run patience dwCommand sefc ps s es r s' ->
  trace s' = trace s
    ++ map (fun p => command_event sefc (fcr_word dwCommand p) (_dwUseIAP s))
           (firstn (length es) ps)
  /\ _dwUseIAP s' = _dwUseIAP s
  /\ (length es <= length ps)%nat
  /\ (r = 0 -> length es = length ps /\ Forall (eq 0) es)
  /\ (r <> 0 -> exists es0, es = es0 ++ [r] /\ Forall (eq 0) es0).
Proof.
  intros Hv. induction 1 as [s | p ps s e s1 Hp He | p ps s s1 es r s' Hp Hr IH].
  - simpl. rewrite app_nil_r. repeat split; auto. intros; contradiction.
  - pose proof (SEFC_PerformCommand_frame patience sefc dwCommand p (_dwUseIAP s) s Hv) as F.
    rewrite Hp in F. destruct F as (Ft & _ & _ & Fu).
    simpl. repeat split; auto; try lia; try contradiction.
    intros _. exists []. split; auto.
  - pose proof (SEFC_PerformCommand_frame patience sefc dwCommand p (_dwUseIAP s) s Hv) as F.
    rewrite Hp in F. destruct F as (Ft & _ & _ & Fu).
    destruct IH as (It & Iu & Il & I0 & I1).
    simpl. rewrite It, Ft, Fu, <- app_assoc. simpl.
    split; [reflexivity |]. split; [congruence |]. split; [lia |].
    split.
    + intros E. destruct (I0 E) as [-> Hf]. split; auto.
    + intros E. destruct (I1 E) as (es0 & -> & Hf).
      exists (0 :: es0). split; auto.
Qed.

Lemma region_loop_run dwCommand sefc endPage k :
  valid_sefc sefc -> endPage <= 65519 ->
  forall startPage s,
    0 <= startPage ->
    (Z.to_nat ((endPage - startPage + 15) / 16) < k)%nat ->
    match region_loop patience k dwCommand sefc startPage endPage 16 s with
    | Done (r, s') =>
        exists es,
          region_run patience dwCommand sefc
            (cursors (Z.to_nat ((endPage - startPage + 15) / 16)) startPage 16)
            s es r s'
    | AssertFailed => False
    | Hung => ~ responsive patience
    end.
Proof.
  intros Hv He. induction k as [| k IH]; intros startPage s Hs Hk; [lia |].
  simpl. destruct (startPage <? endPage) eqn:E.
  - apply Z.ltb_lt in E.
    assert (Hn : Z.to_nat ((endPage - startPage + 15) / 16)
                 = S (Z.to_nat ((endPage - (startPage + 16) + 15) / 16))).
    { rewrite <- Z2Nat.inj_succ by (Z.div_mod_to_equations; lia).
      f_equal. Z.div_mod_to_equations; lia. }
    rewrite Hn in *. simpl cursors.
    unfold bind.
    pose proof (SEFC_PerformCommand_frame patience sefc dwCommand startPage
                  (_dwUseIAP s) s Hv) as F.
    destruct (SEFC_PerformCommand _ _ _ _ _ s) as [[e s1] | |] eqn:P; auto.
    destruct (e =? 0) eqn:Ez; cbn [negb].
    + apply Z.eqb_eq in Ez. subst e.
      rewrite u16_small by lia.
      specialize (IH (startPage + 16) s1 ltac:(lia) ltac:(lia)).
      destruct (region_loop _ _ _ _ _ _ _ s1) as [[r s'] | |]; auto.
      destruct IH as (es & Hr). exists (0 :: es).
      eapply region_run_next; eauto.
    + apply Z.eqb_neq in Ez. unfold ret. exists [e].
      eapply region_run_abort; eauto.
  - apply Z.ltb_ge in E. unfold ret.
    replace (Z.to_nat ((endPage - startPage + 15) / 16)) with 0%nat
      by (symmetry; apply Z2Nat.inj_0 || (Z.div_mod_to_equations; lia)).
    exists []. constructor.
Qed.

Lemma cursors_length n p st : length (cursors n p st) = n.
Proof. revert p; induction n; intros; simpl; auto. Qed.

Lemma lock_or_unlock_spec dwCommand start end_ pActualStart pActualEnd s :
  IFLASH0_CNC_ADDR <= start -> start <= end_ ->
  end_ <= IFLASH0_CNC_ADDR + IFLASH_SIZE ->
  regions_commanded patience dwCommand start end_ pActualStart pActualEnd s
    (lock_or_unlock patience dwCommand start end_ pActualStart pActualEnd s).
Proof.
  intros H1 H2 H3.
  destruct (chip_ok_facts Hok) as (Hb & Hs & Hs2 & Hw & Hd).
  pose proof (chip_ok_regions Hok) as Hreg.
  (* the aligned range, in page coordinates *)
  destruct (translate_spec Hok start ltac:(lia))
    as (ss & ps & os & Hts & HSeq & Hos & Hps & Hles & Hss).
  destruct (translate_spec Hok end_ ltac:(lia))
    as (se & pe & oe & Hte & HEeq & Hoe & Hpe & Hlee & Hse).
  destruct (bank_base_bounds Hok ss) as [Hbs Has].
  destruct (bank_base_bounds Hok se) as [Hbe Hae].
  destruct (half_bounds Hok) as [Hh Hh2].
  assert (HCL : exists aS aE,
             ComputeLockRange start end_ = Done (aS, aE)
             /\ IFLASH0_CNC_ADDR <= aS /\ aS <= IFLASH0_CNC_ADDR + IFLASH_SIZE
             /\ IFLASH0_CNC_ADDR <= aE <= IFLASH0_CNC_ADDR + IFLASH_SIZE
             /\ (aS - IFLASH0_CNC_ADDR) mod 512 = 0
             /\ (aE - IFLASH0_CNC_ADDR) mod 512 = 0
             /\ (EFC1_defined = false ->
                 (aS - IFLASH0_CNC_ADDR) mod 8192 = 0
                 /\ (aE - IFLASH0_CNC_ADDR) mod 8192 = 0 /\ aS <= aE)).
  { unfold ComputeLockRange. rewrite Hts, Hte. cbn [obind].
    unfold IFLASH_LOCK_REGION_SIZE, IFLASH_PAGE_SIZE.
    change (u16 (8192 / 512)) with 16. cbv zeta.
    set (bs := bank_base ss) in *. set (be := bank_base se) in *.
    assert (Hbs' : bs = IFLASH0_CNC_ADDR \/ bs = IFLASH0_CNC_ADDR + IFLASH_SIZE / 2).
    { unfold bs, bank_base. destruct EFC1_defined; [destruct (Sefc_eqb ss SEFC0) |]; auto. }
    assert (Hbe' : (be = IFLASH0_CNC_ADDR /\
                    (EFC1_defined = true -> end_ < IFLASH0_CNC_ADDR + IFLASH_SIZE / 2))
                   \/ (be = IFLASH0_CNC_ADDR + IFLASH_SIZE / 2 /\ EFC1_defined = true)).
    { clear - Hte Hok. unfold be, bank_base.
      unfold SEFC_TranslateAddress, obind, assert in Hte.
      destruct (IFLASH0_CNC_ADDR <=? end_); [| discriminate].
      destruct (end_ <=? _); [| discriminate].
      destruct (chip_ok_facts Hok) as (Hb & Hs & Hs2 & Hw & Hd).
      destruct (half_bounds Hok) as [Hh Hh2].
      destruct EFC1_defined eqn:E.
      - rewrite (u32_small (IFLASH0_CNC_ADDR + IFLASH_SIZE / 2)) in Hte by lia.
        destruct (end_ <? IFLASH0_CNC_ADDR + IFLASH_SIZE / 2) eqn:L;
          inversion Hte; subst; simpl.
        + apply Z.ltb_lt in L. left; split; auto.
        + right; split; auto.
      - left. split; [reflexivity | discriminate]. }
    assert (Hhalf : EFC1_defined = true ->
                    (IFLASH_SIZE / 2) mod 8192 = 0
                    /\ (IFLASH_SIZE - IFLASH_SIZE / 2) mod 8192 = 0).
    { intros E. specialize (Hd E). split; [exact Hd |].
      Z.div_mod_to_equations; lia. }
    pose proof (Z.div_mod ps 16 ltac:(lia)) as Hds.
    pose proof (Z.mod_pos_bound ps 16 ltac:(lia)) as Hms.
    rewrite (u16_small (ps - ps mod 16)) by lia.
    rewrite (compute_spec Hok) by lia. fold bs. cbn [obind].
    assert (Hpe' : exists pe', (if negb (pe mod 16 =? 0)
                                then u16 (pe + (16 - pe mod 16)) else pe) = pe'
              /\ pe <= pe' <= 4096 /\ pe' mod 16 = 0
              /\ be + pe' * 512 <= IFLASH0_CNC_ADDR + IFLASH_SIZE).
    { assert (pe <= 4096) by lia.
      pose proof (Z.mod_pos_bound pe 16 ltac:(lia)) as Hme.
      assert (Hroom : pe mod 16 <> 0 ->
                      be + (pe + (16 - pe mod 16)) * 512
                      <= IFLASH0_CNC_ADDR + IFLASH_SIZE).
      { intros Hne.
        destruct Hbe' as [[Ebe Hlow] | [Ebe Ed]]; rewrite Ebe in *.
        - destruct EFC1_defined eqn:E.
          + destruct (Hhalf eq_refl) as [Hq1 Hq2].
            specialize (Hlow eq_refl). Z.div_mod_to_equations; lia.
          + Z.div_mod_to_equations; lia.
        - destruct (Hhalf Ed) as [Hq1 Hq2]. Z.div_mod_to_equations; lia. }
      destruct (pe mod 16 =? 0) eqn:E; cbn [negb].
      - apply Z.eqb_eq in E. exists pe. repeat split; try lia.
      - apply Z.eqb_neq in E. specialize (Hroom E).
        rewrite u16_small by lia. eexists. split; [reflexivity |].
        repeat split; try lia; Z.div_mod_to_equations; lia. }
    destruct Hpe' as (pe' & -> & Hpe'b & Hpe'm & Hpe'r).
    rewrite (compute_spec Hok) by lia. fold be. cbn [obind].
    do 2 eexists. split; [reflexivity |].
    split; [lia |]. split; [lia |]. split; [lia |].
    split; [Z.div_mod_to_equations; lia |].
    split; [Z.div_mod_to_equations; lia |].
    intros E.
    assert (bs = IFLASH0_CNC_ADDR /\ be = IFLASH0_CNC_ADDR) as [-> ->].
    { unfold bs, be, bank_base. rewrite E. auto. }
    Z.div_mod_to_equations; lia. }
  destruct HCL as (aS & aE & HCL & HaS1 & HaS2 & HaE & HaSm & HaEm & Hsingle).
  destruct (translate_spec Hok aS ltac:(lia))
    as (sefc & sp & so & Hta & HaSeq & Hso & Hsp & Hlea & Hsefc).
  destruct (translate_spec Hok aE ltac:(lia))
    as (sefc' & ep & eo & Htb & HaEeq & Heo & Hep & Hleb & Hsefc').
  destruct (bank_base_bounds Hok sefc) as [Hba Hbam].
  destruct (bank_base_bounds Hok sefc') as [Hbb Hbbm].
  assert (so = 0) by (Z.div_mod_to_equations; lia).
  assert (eo = 0) by (Z.div_mod_to_equations; lia).
  subst so eo.
  assert (Hv : valid_sefc sefc).
  { unfold valid_sefc. destruct EFC1_defined; auto. }
  exists aS, aE, sefc, sp, ep.
  split; [exact HCL |]. split; [exact Hta |]. split; [eauto |].
  cbv zeta. split.
  { intros E. destruct (Hsingle E) as (M1 & M2 & Hle).
    assert (bank_base sefc = IFLASH0_CNC_ADDR /\ bank_base sefc' = IFLASH0_CNC_ADDR)
      as [B1 B2] by (unfold bank_base; rewrite E; auto).
    unfold IFLASH_LOCK_REGION_SIZE.
    rewrite Z2Nat.id by (Z.div_mod_to_equations; lia).
    Z.div_mod_to_equations; lia. }
  unfold lock_or_unlock, bind, lift. rewrite HCL, Hta, Htb.
  change (u16 (IFLASH_LOCK_REGION_SIZE / IFLASH_PAGE_SIZE)) with 16.
  assert (Hfuel : (Z.to_nat ((ep - sp + 15) / 16) < S (Z.to_nat ep))%nat).
  { assert ((ep - sp + 15) / 16 <= ep) by (Z.div_mod_to_equations; lia). lia. }
  pose proof (region_loop_run dwCommand sefc ep (S (Z.to_nat ep)) Hv ltac:(lia)
                sp s Hsp Hfuel) as L.
  destruct (region_loop _ _ _ _ _ _ _ s) as [[r s'] | |]; auto.
  destruct L as (es & Hr). unfold ret.
  split; [reflexivity |]. split; [reflexivity |].
  exists es.
  destruct (region_run_facts _ _ _ _ _ _ _ Hv Hr) as (Rt & Ru & Rl & R0 & R1).
  rewrite cursors_length in *.
  repeat split; auto. apply R0; auto. apply R0; auto.
Qed.

Lemma bank_base_aligned sefc :
  (bank_base sefc - IFLASH0_CNC_ADDR) mod 8192 = 0.
Proof.
  destruct (chip_ok_facts Hok) as (Hb & Hs & Hs2 & Hw & Hd).
  unfold bank_base. destruct EFC1_defined; [destruct (Sefc_eqb sefc SEFC0) |].
  - rewrite Z.sub_diag. reflexivity.
  - replace (IFLASH0_CNC_ADDR + IFLASH_SIZE / 2 - IFLASH0_CNC_ADDR)
      with (IFLASH_SIZE / 2) by lia.
    apply Hd. reflexivity.
  - rewrite Z.sub_diag. reflexivity.
Qed.

(** The range ComputeLockRange returns, in closed form. *)
Lemma ComputeLockRange_value dwStart dwEnd :
  IFLASH0_CNC_ADDR <= dwStart -> dwStart <= dwEnd ->
  dwEnd <= IFLASH0_CNC_ADDR + IFLASH_SIZE ->
  ComputeLockRange dwStart dwEnd
  = Done (dwStart - (dwStart - IFLASH0_CNC_ADDR) mod 8192,
          IFLASH0_CNC_ADDR + 8192 * (((dwEnd - IFLASH0_CNC_ADDR) / 512 + 15) / 16)).
Proof.
  intros H1 H2 H3.
  destruct (chip_ok_facts Hok) as (Hb & Hs & Hs2 & Hw & Hd).
  destruct (translate_spec Hok dwStart ltac:(lia))
    as (ss & ps & os & Hts & HSeq & Hos & Hps & Hles & _).
  destruct (translate_spec Hok dwEnd ltac:(lia))
    as (se & pe & oe & Hte & HEeq & Hoe & Hpe & Hlee & _).
  destruct (bank_base_bounds Hok ss) as [Hbs Has].
  destruct (bank_base_bounds Hok se) as [Hbe Hae].
  pose proof (bank_base_aligned ss) as Als.
  pose proof (bank_base_aligned se) as Ale.
  unfold ComputeLockRange. rewrite Hts, Hte. cbn [obind].
  unfold IFLASH_LOCK_REGION_SIZE, IFLASH_PAGE_SIZE.
  change (u16 (8192 / 512)) with 16. cbv zeta.
  set (bs := bank_base ss) in *. set (be := bank_base se) in *.
  assert (Hps2 : ps <= 4096) by lia.
  assert (Hpe2 : pe <= 4096) by lia.
  pose proof (Z.div_mod ps 16 ltac:(lia)) as Hds.
  pose proof (Z.mod_pos_bound ps 16 ltac:(lia)) as Hms.
  rewrite (u16_small (ps - ps mod 16)) by lia.
  rewrite (compute_spec Hok) by lia. fold bs. cbn [obind].
  assert (Hpe' : exists pe', (if negb (pe mod 16 =? 0)
                              then u16 (pe + (16 - pe mod 16)) else pe) = pe'
            /\ pe' = 16 * ((pe + 15) / 16) /\ pe <= pe' <= 4096).
  { pose proof (Z.mod_pos_bound pe 16 ltac:(lia)) as Hme.
    destruct (pe mod 16 =? 0) eqn:E; cbn [negb].
    - apply Z.eqb_eq in E. exists pe. repeat split; try lia.
      Z.div_mod_to_equations; lia.
    - apply Z.eqb_neq in E.
      rewrite u16_small by lia. eexists. split; [reflexivity |].
      repeat split; try lia; Z.div_mod_to_equations; lia. }
  destruct Hpe' as (pe' & -> & Hpe'eq & Hpe'b).
  rewrite (compute_spec Hok) by lia. fold be. cbn [obind].
  assert (E1 : bs + (ps - ps mod 16) * 512 + 0
               = dwStart - (dwStart - IFLASH0_CNC_ADDR) mod 8192)
    by (Z.div_mod_to_equations; lia).
  assert (E2 : be + pe' * 512 + 0
               = IFLASH0_CNC_ADDR
                 + 8192 * (((dwEnd - IFLASH0_CNC_ADDR) / 512 + 15) / 16))
    by (Z.div_mod_to_equations; lia).
  rewrite E1, E2. reflexivity.
Qed.

Lemma lock_or_unlock_outcome dwCommand start end_ pActualStart pActualEnd s :
  IFLASH0_CNC_ADDR <= start -> start <= end_ ->
  end_ <= IFLASH0_CNC_ADDR + IFLASH_SIZE ->
  lock_outcome patience dwCommand start end_ pActualStart pActualEnd s
    (lock_or_unlock patience dwCommand start end_ pActualStart pActualEnd s).
Proof.
  intros H1 H2 H3.
  destruct (lock_or_unlock_spec dwCommand start end_ pActualStart pActualEnd s
              H1 H2 H3) as (aS & aE & pSefc & sp & ep & Hc & Hts & Hte & L).
  rewrite (ComputeLockRange_value start end_ H1 H2 H3) in Hc.
  injection Hc as <- <-.
  unfold lock_outcome. cbv zeta. exists pSefc, sp, ep.
  split; [exact Hts |]. split; [exact Hte |].
  cbv zeta in L. destruct L as (Hn & L). split; [exact Hn |].
  destruct (lock_or_unlock patience dwCommand start end_ pActualStart pActualEnd s)
    as [[[[r oS] oE] s'] | |]; [| exact L | exact L].
  destruct L as (HoS & HoE & es & Hrun & Htr & Hrest).
  split; [rewrite HoS; destruct pActualStart; reflexivity |].
  split; [rewrite HoE; destruct pActualEnd; reflexivity |].
  exists es. split; [exact Hrun |]. split; [exact Htr | exact Hrest].
Qed.

(** C7: for in-range [start <= end], FLASHD_Lock issues set-lock-bit
    commands and FLASHD_Unlock clear-lock-bit commands as [lock_outcome]
    says.  The aligned range is [start] rounded down to a lock-region
    boundary and the boundary at or above the page of [end]; there is one
    command per lock region of it, with page arguments from the aligned
    start page in steps of [numPagesInRegion] until the cursor reaches the
    aligned end page; each is the request of that command and page and the
    word made of key, page and command code on the bus; a non-null output
    pointer holds the aligned address, a null one stays null; the first
    command that reports an error ends the loop and its code is returned,
    else 0. *)
Theorem FLASHD_Lock_Unlock_regions start end_ pActualStart pActualEnd s :
  IFLASH0_CNC_ADDR <= start -> start <= end_ ->
  end_ <= IFLASH0_CNC_ADDR + IFLASH_SIZE ->
  lock_outcome patience SEFC_FCMD_SLB start end_ pActualStart pActualEnd s
    (FLASHD_Lock patience start end_ pActualStart pActualEnd s)
  /\ lock_outcome patience SEFC_FCMD_CLB start end_ pActualStart pActualEnd s
       (FLASHD_Unlock patience start end_ pActualStart pActualEnd s).
Proof.
  intros H1 H2 H3. split; apply lock_or_unlock_outcome; assumption.
Qed.

End LockRegions.

(** ** The page write *)

Lemma lor_window x :
  0 <= x < 536870912 -> Z.lor x 2684354560 = x + 2684354560.
Proof.
  intros Hx. pose proof (Z.add_lor_land x 2684354560) as Hadd.
  enough (Z.land x 2684354560 = 0) by lia.
  apply Z.bits_inj'. intros n Hn. rewrite Z.land_spec, Z.bits_0.
  destruct (Z.ltb_spec n 29).
  - change 2684354560 with (Z.shiftl 5 29).
    rewrite Z.shiftl_spec_low by lia. apply andb_false_r.
  - destruct (Z.eq_dec x 0) as [-> | Hne]; [rewrite Z.bits_0; reflexivity |].
    rewrite Z.bits_above_log2; [reflexivity | lia |].
    apply Z.log2_lt_pow2; [lia |].
    apply Z.lt_le_trans with (2 ^ 29); [simpl; lia |].
    apply Z.pow_le_mono_r; lia.
Qed.

Lemma word_bytes b0 b1 b2 b3 :
  0 <= b0 < 256 -> 0 <= b1 < 256 -> 0 <= b2 < 256 -> 0 <= b3 < 256 ->
  let w := b0 + 256 * b1 + 65536 * b2 + 16777216 * b3 in
  w mod 256 = b0 /\ (w / 256) mod 256 = b1
  /\ (w / 65536) mod 256 = b2 /\ (w / 16777216) mod 256 = b3.
Proof. intros; subst w; repeat split; Z.div_mod_to_equations; lia. Qed.

Ltac zbool :=
  repeat match goal with
         | |- context [?a <=? ?b] => destruct (Z.leb_spec a b)
         | |- context [?a <? ?b] => destruct (Z.ltb_spec a b)
         | |- context [?a =? ?b] => destruct (Z.eqb_spec a b)
         end;
  cbn [andb orb negb].

Section PageWrite.
Context {C : Chip} {K : Controller}.
Variable patience : nat.
Hypothesis Hok : chip_ok C = true.

Lemma store_words_spec n :
  forall dwIdx a s,
  exists s',
    store_words n dwIdx a s = Done (tt, s')
    /\ trace s' = trace s
         ++ map (fun j => EvStore32 (a + 4 * Z.of_nat j)
                                    (buffer_word (_pdwPageBuffer s) (dwIdx + Z.of_nat j)))
                (seq 0 n)
    /\ _pdwPageBuffer s' = _pdwPageBuffer s
    /\ hw_st s' = hw_st s /\ _dwUseIAP s' = _dwUseIAP s
    /\ forall x,
         mem s' x = if (a <=? x) && (x <? a + 4 * Z.of_nat n)
                    then _pdwPageBuffer s (4 * dwIdx + (x - a)) mod 256
                    else mem s x.
Proof.
  induction n as [| n IH]; intros dwIdx a s.
  - exists s. simpl. rewrite app_nil_r. repeat split; auto.
    intros x. zbool; try reflexivity; lia.
  - cbn [store_words]. unfold bind, store32.
    set (w := buffer_word (_pdwPageBuffer s) dwIdx).
    set (s1 := emit (EvStore32 a w) (set_mem (store32_mem a w (mem s)) s)).
    destruct (IH (dwIdx + 1) (a + 4) s1) as (s' & E & Ht & Hb & Hh & Hu & Hm).
    exists s'. split; [exact E |].
    split.
    { rewrite Ht. subst s1. cbn [trace emit set_mem _pdwPageBuffer].
      rewrite <- app_assoc. f_equal.
      cbn [seq map app]. rewrite <- seq_shift, map_map.
      f_equal.
      - subst w. f_equal; [lia | f_equal; lia].
      - apply map_ext. intros j. f_equal; [lia | f_equal; lia]. }
    split; [rewrite Hb; reflexivity |].
    split; [rewrite Hh; reflexivity |].
    split; [rewrite Hu; reflexivity |].
    intros x. rewrite Hm. subst s1. cbn [mem emit set_mem _pdwPageBuffer].
    unfold store32_mem.
    pose proof (Z.mod_pos_bound (_pdwPageBuffer s (4 * dwIdx)) 256 ltac:(lia)) as B0.
    pose proof (Z.mod_pos_bound (_pdwPageBuffer s (4 * dwIdx + 1)) 256 ltac:(lia)) as B1.
    pose proof (Z.mod_pos_bound (_pdwPageBuffer s (4 * dwIdx + 2)) 256 ltac:(lia)) as B2.
    pose proof (Z.mod_pos_bound (_pdwPageBuffer s (4 * dwIdx + 3)) 256 ltac:(lia)) as B3.
    destruct (word_bytes _ _ _ _ B0 B1 B2 B3) as (W0 & W1 & W2 & W3).
    fold (buffer_word (_pdwPageBuffer s) dwIdx) in W0, W1, W2, W3. fold w in W0, W1, W2, W3.
    zbool; try lia; try reflexivity.
    + f_equal. f_equal. lia.
    + subst x. rewrite W0. f_equal. f_equal. lia.
    + subst x. rewrite W1. f_equal. f_equal. lia.
    + subst x. rewrite W2. f_equal. f_equal. lia.
    + subst x. rewrite W3. f_equal. f_equal. lia.
Qed.

Lemma load8_idem m a : load8 m a mod 256 = load8 m a.
Proof. unfold load8. apply Z.mod_mod. lia. Qed.

(** One iteration of the loop of FLASHD_Write. *)
Lemma program_page_spec pSefc page offset pvBuffer writeSize s :
  valid_sefc pSefc ->
  0 <= page -> 0 <= offset -> 0 < writeSize -> offset + writeSize <= 512 ->
  bank_base pSefc + page * 512 + offset + writeSize <= IFLASH0_CNC_ADDR + IFLASH_SIZE ->
  match program_page patience pSefc page offset pvBuffer writeSize s with
  | Done (e, s1) =>
      (forall i, 0 <= i < 512 ->
         _pdwPageBuffer s1 i
         = staged (mem s) (window pSefc page) offset pvBuffer writeSize i)
      /\ trace s1 = trace s ++ page_traffic pSefc (_dwUseIAP s) page (_pdwPageBuffer s1)
      /\ _dwUseIAP s1 = _dwUseIAP s
      /\ (forall x,
            mem s1 x = if (window pSefc page <=? x) && (x <? window pSefc page + 512)
                       then _pdwPageBuffer s1 (x - window pSefc page)
                       else mem s x)
      /\ exists s0, SEFC_PerformCommand patience pSefc SEFC_FCMD_WP page (_dwUseIAP s) s0
                    = Done (e, s1)
  | AssertFailed => False
  | Hung => ~ responsive patience
  end.
Proof.
  intros Hv Hp Ho Hws Hfit Hin.
  destruct (chip_ok_facts Hok) as (Hb & Hs & Hs2 & Hw & Hd).
  destruct (bank_base_bounds Hok pSefc) as [Hbb _].
  unfold program_page, bind, lift.
  rewrite (compute_spec Hok) by lia.
  assert (Hwin : window pSefc page = bank_base pSefc + page * 512 + 2684354560).
  { unfold window, IFLASH_PAGE_SIZE. apply lor_window. lia. }
  replace (Z.lor (bank_base pSefc + page * 512 + 0) 2684354560)
    with (window pSefc page)
    by (unfold window, IFLASH_PAGE_SIZE; f_equal; lia).
  set (pa := window pSefc page) in *.
  unfold memcpy_to_buffer at 1 2 3. cbn [mem set_buffer _pdwPageBuffer].
  unfold IFLASH_PAGE_SIZE.
  rewrite (u32_small (512 - offset - writeSize)) by lia.
  rewrite (u16_small (512 - offset - writeSize)) by lia.
  rewrite (u32_small (pa + offset + writeSize)) by lia.
  match goal with
  | |- context [store_words ?n 0 pa ?st] =>
      destruct (store_words_spec n 0 pa st) as (s2 & E & Ht & Hbuf & Hh & Hu & Hm);
      rewrite E
  end.
  cbn [trace mem set_buffer _dwUseIAP hw_st] in Ht, Hh, Hu, Hm.
  rewrite <- Hbuf in Hm, Ht.
  assert (Hstaged : forall i, 0 <= i < 512 ->
            _pdwPageBuffer s2 i = staged (mem s) pa offset pvBuffer writeSize i).
  { intros i Hi. rewrite Hbuf. cbn [mem set_buffer _pdwPageBuffer]. unfold staged.
    zbool; try lia; try reflexivity; f_equal; lia. }
  pose proof (SEFC_PerformCommand_frame patience pSefc SEFC_FCMD_WP page
                (_dwUseIAP s2) s2 Hv) as F.
  destruct (SEFC_PerformCommand _ _ _ _ _ s2) as [[e s1] | |] eqn:P; auto.
  destruct F as (Ft & Fm & Fb & Fu).
  split; [intros i Hi; rewrite Fb; auto |].
  split.
  { rewrite Ft, Ht, Hu, Fb, <- app_assoc. unfold page_traffic, burst.
    reflexivity. }
  split; [congruence |].
  split.
  { intros x. rewrite Fm, Hm, Fb. change (4 * Z.of_nat (Z.to_nat (512 / 4))) with 512.
    destruct ((pa <=? x) && (x <? pa + 512)) eqn:B; [| reflexivity].
    apply andb_prop in B as [B1 B2]. apply Z.leb_le in B1. apply Z.ltb_lt in B2.
    replace (4 * 0 + (x - pa)) with (x - pa) by lia.
    rewrite Hstaged by lia.
    unfold staged. zbool; apply load8_idem. }
  exists s2. rewrite <- Hu. exact P.
Qed.

Lemma write_step_arith sefc page offset dwSize :
  0 <= offset < 512 -> 0 <= page <= 4096 -> 0 < dwSize ->
  bank_base sefc + page * 512 + offset + dwSize <= IFLASH0_CNC_ADDR + IFLASH_SIZE ->
  let ws := write_size offset dwSize in
  0 < ws /\ ws <= dwSize /\ offset + ws <= 512
  /\ (0 < dwSize - ws -> ws = 512 - offset)
  /\ u16 (page + 1) = page + 1 /\ u32 (dwSize - ws) = dwSize - ws
  /\ page + 1 <= 4096
  /\ bank_base sefc + (page + 1) * 512 <= IFLASH0_CNC_ADDR + IFLASH_SIZE
  /\ window sefc page = bank_base sefc + page * 512 + 2684354560
  /\ window sefc (page + 1) = window sefc page + 512
  /\ pages_spanned 0 (dwSize - ws) = pages_spanned offset dwSize - 1
  /\ 1 <= pages_spanned offset dwSize.
Proof.
  intros Ho Hp Hs Hin ws.
  destruct (chip_ok_facts Hok) as (Hb & Hsz & Hs2 & Hw & Hd).
  pose proof (chip_ok_regions Hok) as Hreg.
  destruct (bank_base_bounds Hok sefc) as [Hbb Hbm].
  assert (Hws : ws = if 512 - offset <? dwSize then 512 - offset else dwSize).
  { subst ws. unfold write_size, IFLASH_PAGE_SIZE. rewrite u32_small by lia. reflexivity. }
  assert (Hnext : bank_base sefc + (page + 1) * 512 <= IFLASH0_CNC_ADDR + IFLASH_SIZE).
  { Z.div_mod_to_equations; lia. }
  assert (Hw1 : window sefc page = bank_base sefc + page * 512 + 2684354560).
  { unfold window, IFLASH_PAGE_SIZE. apply lor_window. lia. }
  assert (Hw2 : window sefc (page + 1) = bank_base sefc + (page + 1) * 512 + 2684354560).
  { unfold window, IFLASH_PAGE_SIZE. apply lor_window. lia. }
  clearbody ws. subst ws.
  unfold pages_spanned, IFLASH_PAGE_SIZE.
  destruct (Z.ltb_spec (512 - offset) dwSize).
  - rewrite u16_small, u32_small by lia.
    destruct (Z.leb_spec dwSize 0); [lia |].
    destruct (Z.leb_spec (dwSize - (512 - offset)) 0); [lia |].
    repeat split; try lia; Z.div_mod_to_equations; lia.
  - rewrite u16_small, u32_small by lia.
    destruct (Z.leb_spec dwSize 0); [lia |].
    destruct (Z.leb_spec (dwSize - dwSize) 0); [| lia].
    repeat split; try lia; Z.div_mod_to_equations; lia.
Qed.

Lemma write_run_facts sefc page offset pvBuffer dwSize s its r s' :
  valid_sefc sefc ->
  write_run patience sefc page offset pvBuffer dwSize s its r s' ->
  0 <= offset < 512 -> 0 <= page <= 4096 ->
  (0 < dwSize ->
   bank_base sefc + page * 512 + offset + dwSize <= IFLASH0_CNC_ADDR + IFLASH_SIZE) ->
  trace s' = trace s ++ write_traffic sefc (_dwUseIAP s) page (map snd its)
  /\ _dwUseIAP s' = _dwUseIAP s
  /\ Z.of_nat (length its) <= pages_spanned offset dwSize
  /\ (r = 0 -> Z.of_nat (length its) = pages_spanned offset dwSize
               /\ Forall (fun it => fst it = 0) its)
  /\ (r <> 0 -> exists its0 pb, its = its0 ++ [(r, pb)]
                                /\ Forall (fun it => fst it = 0) its0)
  /\ (forall x, x < window sefc page -> mem s' x = mem s x)
  /\ (forall j pb i,
        nth_error (map snd its) j = Some pb -> 0 <= i < 512 ->
        mem s' (window sefc (page + Z.of_nat j) + i) = pb i).
Proof.
  intros Hv.
  induction 1 as [page offset pvBuffer dwSize s Hz
                 | page offset pvBuffer dwSize s e s1 Hpos Hpp He
                 | page offset pvBuffer dwSize s s1 its r s' Hpos Hpp Hrun IH];
    intros Ho Hp Hin.
  - cbn [map write_traffic length]. rewrite app_nil_r.
    unfold pages_spanned. destruct (Z.leb_spec dwSize 0); [| lia].
    repeat split; auto; try lia; try contradiction.
    intros j pb i Hn. destruct j; discriminate.
  - specialize (Hin Hpos).
    destruct (write_step_arith sefc page offset dwSize Ho Hp Hpos Hin)
      as (A1 & A2 & A3 & A4 & A5 & A6 & A7 & A8 & A9 & A10 & A11 & A12).
    pose proof (program_page_spec sefc page offset pvBuffer
                  (write_size offset dwSize) s Hv ltac:(lia) ltac:(lia) A1 A3
                  ltac:(lia)) as PS.
    rewrite Hpp in PS. destruct PS as (Pb & Pt & Pu & Pm & _).
    cbn [map snd write_traffic length]. rewrite app_nil_r.
    split; [exact Pt |]. split; [exact Pu |]. split; [simpl; lia |].
    split; [intros; contradiction |].
    split; [intros _; exists [], (_pdwPageBuffer s1); split; auto |].
    split.
    + intros x Hx. rewrite Pm. zbool; try lia; reflexivity.
    + intros j pb i Hn Hi. destruct j as [| j]; [| destruct j; discriminate].
      inversion Hn; subst pb. rewrite Pm. rewrite Z.add_0_r.
      zbool; try lia. f_equal. lia.
  - specialize (Hin Hpos).
    destruct (write_step_arith sefc page offset dwSize Ho Hp Hpos Hin)
      as (A1 & A2 & A3 & A4 & A5 & A6 & A7 & A8 & A9 & A10 & A11 & A12).
    pose proof (program_page_spec sefc page offset pvBuffer
                  (write_size offset dwSize) s Hv ltac:(lia) ltac:(lia) A1 A3
                  ltac:(lia)) as PS.
    rewrite Hpp in PS. destruct PS as (Pb & Pt & Pu & Pm & _).
    rewrite A5, A6 in IH.
    destruct (IH ltac:(lia) ltac:(lia) ltac:(intros; lia))
      as (It & Iu & Il & I0 & I1 & If & Ir).
    cbn [map snd write_traffic length].
    split; [rewrite It, Pt, Pu, <- app_assoc; reflexivity |].
    split; [congruence |].
    split; [rewrite A11 in Il; lia |].
    split.
    { intros E. destruct (I0 E) as [Hl Hf]. split; [rewrite A11 in Hl; lia |].
      constructor; auto. }
    split.
    { intros E. destruct (I1 E) as (its0 & pb & -> & Hf).
      exists ((0, _pdwPageBuffer s1) :: its0), pb. split; auto. }
    split.
    + intros x Hx. rewrite If by lia. rewrite Pm. zbool; try lia; reflexivity.
    + intros j pb i Hn Hi. destruct j as [| j].
      * inversion Hn; subst pb. rewrite Z.add_0_r.
        rewrite If by lia. rewrite Pm. zbool; try lia. f_equal. lia.
      * cbn [nth_error] in Hn.
        replace (page + Z.of_nat (S j)) with (page + 1 + Z.of_nat j) by lia.
        apply Ir; auto.
Qed.

(** The loop of FLASHD_Write runs as [write_run] describes. *)
Lemma FLASHD_Write_loop_run sefc k :
  valid_sefc sefc ->
  forall page offset pvBuffer dwSize s,
    0 <= offset < 512 -> 0 <= page <= 4096 ->
    (0 < dwSize ->
     bank_base sefc + page * 512 + offset + dwSize <= IFLASH0_CNC_ADDR + IFLASH_SIZE) ->
    (Z.to_nat dwSize < k)%nat ->
    match FLASHD_Write_loop patience k sefc page offset pvBuffer dwSize s with
    | Done (r, s') =>
        exists its, write_run patience sefc page offset pvBuffer dwSize s its r s'
    | AssertFailed => False
    | Hung => ~ responsive patience
    end.
Proof.
  intros Hv. induction k as [| k IH];
    intros page offset pvBuffer dwSize s Ho Hp Hin Hk; [lia |].
  cbn [FLASHD_Write_loop]. destruct (Z.ltb_spec 0 dwSize) as [Hpos | Hz].
  - specialize (Hin Hpos).
    destruct (write_step_arith sefc page offset dwSize Ho Hp Hpos Hin)
      as (A1 & A2 & A3 & A4 & A5 & A6 & A7 & A8 & A9 & A10 & A11 & A12).
    pose proof (program_page_spec sefc page offset pvBuffer
                  (write_size offset dwSize) s Hv ltac:(lia) ltac:(lia) A1 A3
                  ltac:(lia)) as PS.
    unfold bind.
    destruct (program_page _ _ _ _ _ _ s) as [[e s1] | |] eqn:Hpp; auto.
    destruct (Z.eqb_spec e 0) as [-> | Hne]; cbn [negb].
    + specialize (IH (u16 (page + 1)) 0 (u32 (pvBuffer + write_size offset dwSize))
                     (u32 (dwSize - write_size offset dwSize)) s1).
      rewrite A5, A6 in IH.
      specialize (IH ltac:(lia) ltac:(lia) ltac:(intros; lia) ltac:(lia)).
      rewrite A5, A6.
      destruct (FLASHD_Write_loop _ _ _ _ _ _ _ s1) as [[r s'] | |]; auto.
      destruct IH as (its & Hr).
      exists ((0, _pdwPageBuffer s1) :: its).
      eapply write_run_next; eauto. rewrite A5, A6. exact Hr.
    + unfold ret. exists [(e, _pdwPageBuffer s1)].
      eapply write_run_abort; eauto.
  - unfold ret. exists []. constructor. lia.
Qed.

(** FLASHD_Write on a range its assertions accept. *)
Lemma FLASHD_Write_run dwAddress pvBuffer dwSize s :
  IFLASH0_CNC_ADDR <= dwAddress -> 0 <= dwSize ->
  dwAddress + dwSize <= IFLASH0_CNC_ADDR + IFLASH_SIZE ->
  pvBuffer <> 0 ->
  exists sefc page offset,
    SEFC_TranslateAddress dwAddress = Done (sefc, page, offset)
    /\ valid_sefc sefc /\ 0 <= offset < 512 /\ 0 <= page <= 4096
    /\ dwAddress = bank_base sefc + page * 512 + offset
    /\ match FLASHD_Write patience dwAddress pvBuffer dwSize s with
       | Done (r, s') =>
           exists its, write_run patience sefc page offset pvBuffer dwSize s its r s'
       | AssertFailed => False
       | Hung => ~ responsive patience
       end.
Proof.
  intros HA Hsz Hfit Hbuf.
  destruct (chip_ok_facts Hok) as (Hb & Hs & Hs2 & Hw & Hd).
  destruct (translate_spec Hok dwAddress ltac:(lia))
    as (sefc & page & offset & Ht & HAeq & Ho & Hp & Hle & Hsefc).
  destruct (bank_base_bounds Hok sefc) as [Hbb _].
  assert (Hv : valid_sefc sefc).
  { unfold valid_sefc. destruct EFC1_defined; auto. }
  exists sefc, page, offset.
  split; [exact Ht |]. split; [exact Hv |]. split; [exact Ho |].
  split; [lia |]. split; [exact HAeq |].
  unfold FLASHD_Write, bind, lift, assert. rewrite Ht.
  destruct (Z.eqb_spec pvBuffer 0); [contradiction |]. cbn [negb].
  destruct (Z.leb_spec IFLASH0_CNC_ADDR dwAddress); [| lia].
  rewrite !u32_small by lia.
  destruct (Z.leb_spec (dwAddress + dwSize) (IFLASH0_CNC_ADDR + IFLASH_SIZE)); [| lia].
  apply FLASHD_Write_loop_run; auto; try lia.
Qed.

(** Every code recorded in a run is what the write-page command of that
    iteration returned. *)
Lemma write_run_codes sefc page offset pvBuffer dwSize s its r s' :
  valid_sefc sefc ->
  write_run patience sefc page offset pvBuffer dwSize s its r s' ->
  0 <= offset < 512 -> 0 <= page <= 4096 ->
  (0 < dwSize ->
   bank_base sefc + page * 512 + offset + dwSize <= IFLASH0_CNC_ADDR + IFLASH_SIZE) ->
  forall j it,
    nth_error its j = Some it ->
    exists s0 s1,
      SEFC_PerformCommand patience sefc SEFC_FCMD_WP (page + Z.of_nat j) (_dwUseIAP s) s0
      = Done (fst it, s1).
Proof.
  intros Hv.
  induction 1 as [page offset pvBuffer dwSize s Hz
                 | page offset pvBuffer dwSize s e s1 Hpos Hpp He
                 | page offset pvBuffer dwSize s s1 its r s' Hpos Hpp Hrun IH];
    intros Ho Hp Hin j it Hn.
  - destruct j; discriminate.
  - specialize (Hin Hpos).
    destruct (write_step_arith sefc page offset dwSize Ho Hp Hpos Hin)
      as (A1 & A2 & A3 & A4 & A5 & A6 & A7 & A8 & A9 & A10 & A11 & A12).
    pose proof (program_page_spec sefc page offset pvBuffer
                  (write_size offset dwSize) s Hv ltac:(lia) ltac:(lia) A1 A3
                  ltac:(lia)) as PS.
    rewrite Hpp in PS. destruct PS as (_ & _ & _ & _ & s0 & Pc).
    destruct j as [| j]; [| destruct j; discriminate].
    inversion Hn; subst it. rewrite Z.add_0_r. eauto.
  - specialize (Hin Hpos).
    destruct (write_step_arith sefc page offset dwSize Ho Hp Hpos Hin)
      as (A1 & A2 & A3 & A4 & A5 & A6 & A7 & A8 & A9 & A10 & A11 & A12).
    pose proof (program_page_spec sefc page offset pvBuffer
                  (write_size offset dwSize) s Hv ltac:(lia) ltac:(lia) A1 A3
                  ltac:(lia)) as PS.
    rewrite Hpp in PS. destruct PS as (_ & _ & Pu & _ & s0 & Pc).
    destruct j as [| j].
    + inversion Hn; subst it. rewrite Z.add_0_r. eauto.
    + cbn [nth_error] in Hn. rewrite A5, A6 in IH.
      destruct (IH ltac:(lia) ltac:(lia) ltac:(intros; lia) j it Hn) as (t0 & t1 & Ht).
      rewrite Pu in Ht.
      replace (page + Z.of_nat (S j)) with (page + 1 + Z.of_nat j) by lia. eauto.
Qed.

Lemma pages_spanned_aligned n :
  0 < n -> pages_spanned 0 (n * IFLASH_PAGE_SIZE) = n.
Proof.
  intros Hn. unfold pages_spanned, IFLASH_PAGE_SIZE.
  destruct (Z.leb_spec (n * 512) 0); [lia |].
  Z.div_mod_to_equations; lia.
Qed.

(** C1: a write of fewer than [IFLASH_PAGE_SIZE] bytes leaves every byte of
    the page of its start address outside [offset, offset + size) as it
    was.  The image stored for that page is [staged]: the page's own
    content before [offset] and after the written bytes, the caller's bytes
    in between; it is the first thing the call puts on the bus. *)
Theorem FLASHD_Write_preserves_page dwAddress pvBuffer dwSize s :
  IFLASH0_CNC_ADDR <= dwAddress ->
  0 < dwSize < IFLASH_PAGE_SIZE ->
  dwAddress + dwSize <= IFLASH0_CNC_ADDR + IFLASH_SIZE ->
  pvBuffer <> 0 ->
  exists sefc page offset,
    SEFC_TranslateAddress dwAddress = Done (sefc, page, offset)
    /\ match FLASHD_Write patience dwAddress pvBuffer dwSize s with
       | Done (r, s') =>
           (forall i, 0 <= i < IFLASH_PAGE_SIZE ->
              i < offset \/ offset + dwSize <= i ->
              load8 (mem s') (window sefc page + i)
              = load8 (mem s) (window sefc page + i))
           /\ exists pb rest,
               trace s' = trace s ++ page_traffic sefc (_dwUseIAP s) page pb ++ rest
               /\ forall i, 0 <= i < IFLASH_PAGE_SIZE ->
                    pb i = staged (mem s) (window sefc page) offset pvBuffer
                                  (write_size offset dwSize) i
       | AssertFailed => False
       | Hung => ~ responsive patience
       end.
Proof.
  unfold IFLASH_PAGE_SIZE. intros HA Hsz Hfit Hbuf.
  destruct (FLASHD_Write_run dwAddress pvBuffer dwSize s HA ltac:(lia) Hfit Hbuf)
    as (sefc & page & offset & Ht & Hv & Ho & Hp & HAeq & Hrun).
  exists sefc, page, offset. split; [exact Ht |].
  destruct (FLASHD_Write patience dwAddress pvBuffer dwSize s) as [[r s'] | |]; auto.
  destruct Hrun as (its & Hrun).
  assert (Hpos : 0 < dwSize) by lia.
  assert (Hin : bank_base sefc + page * 512 + offset + dwSize
                <= IFLASH0_CNC_ADDR + IFLASH_SIZE) by lia.
  destruct (write_step_arith sefc page offset dwSize Ho Hp Hpos Hin)
    as (A1 & A2 & A3 & A4 & A5 & A6 & A7 & A8 & A9 & A10 & A11 & A12).
  pose proof (program_page_spec sefc page offset pvBuffer
                (write_size offset dwSize) s Hv ltac:(lia) ltac:(lia) A1 A3
                ltac:(lia)) as PS.
  assert (Hfirst : forall s1 i,
             mem s1 (window sefc page + i)
             = staged (mem s) (window sefc page) offset pvBuffer
                      (write_size offset dwSize) i ->
             0 <= i < 512 -> i < offset \/ offset + dwSize <= i ->
             load8 (mem s1) (window sefc page + i)
             = load8 (mem s) (window sefc page + i)).
  { intros s1 i E Hi Hout. unfold load8 at 1. rewrite E. unfold staged.
    zbool; try lia; apply load8_idem. }
  inversion Hrun; subst; try lia.
  - (* the first command reported an error *)
    rewrite H0 in PS. destruct PS as (Pb & Pt & Pu & Pm & _).
    split.
    + intros i Hi Hout. apply Hfirst; auto.
      rewrite Pm. zbool; try lia.
      replace (window sefc page + i - window sefc page) with i by lia. auto.
    + exists (_pdwPageBuffer s'), []. rewrite app_nil_r. split; auto.
  - (* the first command succeeded, the loop went on *)
    rewrite H0 in PS. destruct PS as (Pb & Pt & Pu & Pm & _).
    rewrite A5, A6 in H1.
    destruct (write_run_facts _ _ _ _ _ _ _ _ _ Hv H1
                ltac:(lia) ltac:(lia) ltac:(intros; lia))
      as (It & Iu & _ & _ & _ & If & _).
    split.
    + intros i Hi Hout. apply Hfirst; auto.
      rewrite If by lia. rewrite Pm. zbool; try lia.
      replace (window sefc page + i - window sefc page) with i by lia. auto.
    + exists (_pdwPageBuffer s1), (write_traffic sefc (_dwUseIAP s1) (page + 1) (map snd its0)).
      split; auto. rewrite It, Pt, <- app_assoc. reflexivity.
Qed.

(** The bus writes of consecutive iterations, event by event. *)
Lemma write_traffic_flat sefc u page pbs :
  forall b,
    write_traffic sefc u (page + Z.of_nat b) pbs
    = flat_map
        (fun jp : nat * (Z -> Z) =>
           map (fun k => EvStore32 (window sefc (page + Z.of_nat (fst jp))
                                    + 4 * Z.of_nat k)
                                   (buffer_word (snd jp) (Z.of_nat k)))
               (seq 0 (Z.to_nat (IFLASH_PAGE_SIZE / 4)))
           ++ [if negb (u =? 0)
               then EvIAP (if Sefc_eqb sefc SEFC0 then 0 else 1)
                          (Z.lor (Z.lor EEFC_FCR_FKEY_PASSWD
                                        (EEFC_FCR_FARG (page + Z.of_nat (fst jp))))
                                 (Z.land EEFC_FCR_FCMD_Msk
                                         (Z.shiftl SEFC_FCMD_WP EEFC_FCR_FCMD_Pos)))
               else EvFCR sefc
                          (Z.lor (Z.lor EEFC_FCR_FKEY_PASSWD
                                        (EEFC_FCR_FARG (page + Z.of_nat (fst jp))))
                                 (Z.land EEFC_FCR_FCMD_Msk
                                         (Z.shiftl SEFC_FCMD_WP EEFC_FCR_FCMD_Pos)))])
        (combine (seq b (length pbs)) pbs).
Proof.
  induction pbs as [| pb rest IH]; intros b.
  - reflexivity.
  - cbn [write_traffic length seq combine flat_map fst snd].
    replace (page + Z.of_nat b + 1) with (page + Z.of_nat (S b)) by lia.
    rewrite IH. f_equal.
Qed.

(** C2: a write of [dwSize > 0] in-range bytes puts on the bus, for each
    iteration, the [IFLASH_PAGE_SIZE / 4] word stores of the staged page
    into the window of its page, followed by one write-page command: the
    word made of the key, the page number as argument and the write-page
    code, handed over by the selected path, and requested of
    SEFC_PerformCommand with that page.  The pages are consecutive from the
    page of the start address.  There are at most as many iterations as the
    range spans pages, and exactly that many when the call returns 0: [N]
    for [N] pages' worth of data written from the start of a page. *)
Theorem FLASHD_Write_traffic dwAddress pvBuffer dwSize s :
  IFLASH0_CNC_ADDR <= dwAddress ->
  0 < dwSize ->
  dwAddress + dwSize <= IFLASH0_CNC_ADDR + IFLASH_SIZE ->
  pvBuffer <> 0 ->
  exists sefc page offset,
    SEFC_TranslateAddress dwAddress = Done (sefc, page, offset)
    /\ match FLASHD_Write patience dwAddress pvBuffer dwSize s with
       | Done (r, s') =>
           exists its : list (Z * (Z -> Z)),
             (forall j it, nth_error its j = Some it ->
                exists s0 s1,
                  SEFC_PerformCommand patience sefc SEFC_FCMD_WP
                    (page + Z.of_nat j) (_dwUseIAP s) s0 = Done (fst it, s1))
             /\ trace s' = trace s
                  ++ flat_map
                       (fun jp : nat * (Z -> Z) =>
                          map (fun k =>
                                 EvStore32 (window sefc (page + Z.of_nat (fst jp))
                                            + 4 * Z.of_nat k)
                                           (buffer_word (snd jp) (Z.of_nat k)))
                              (seq 0 (Z.to_nat (IFLASH_PAGE_SIZE / 4)))
                          ++ [if negb (_dwUseIAP s =? 0)
                              then EvIAP (if Sefc_eqb sefc SEFC0 then 0 else 1)
                                     (Z.lor (Z.lor EEFC_FCR_FKEY_PASSWD
                                               (EEFC_FCR_FARG (page + Z.of_nat (fst jp))))
                                            (Z.land EEFC_FCR_FCMD_Msk
                                               (Z.shiftl SEFC_FCMD_WP EEFC_FCR_FCMD_Pos)))
                              else EvFCR sefc
                                     (Z.lor (Z.lor EEFC_FCR_FKEY_PASSWD
                                               (EEFC_FCR_FARG (page + Z.of_nat (fst jp))))
                                            (Z.land EEFC_FCR_FCMD_Msk
                                               (Z.shiftl SEFC_FCMD_WP EEFC_FCR_FCMD_Pos)))])
                       (combine (seq 0 (length its)) (map snd its))
             /\ 1 <= Z.of_nat (length its) <= pages_spanned offset dwSize
             /\ (r = 0 -> Z.of_nat (length its) = pages_spanned offset dwSize)
             /\ (r = 0 -> offset = 0 ->
                 forall N, dwSize = N * IFLASH_PAGE_SIZE -> Z.of_nat (length its) = N)
       | AssertFailed => False
       | Hung => ~ responsive patience
       end.
Proof.
  intros HA Hsz Hfit Hbuf.
  destruct (FLASHD_Write_run dwAddress pvBuffer dwSize s HA ltac:(lia) Hfit Hbuf)
    as (sefc & page & offset & Ht & Hv & Ho & Hp & HAeq & Hrun).
  exists sefc, page, offset. split; [exact Ht |].
  destruct (FLASHD_Write patience dwAddress pvBuffer dwSize s) as [[r s'] | |]; auto.
  destruct Hrun as (its & Hrun).
  destruct (write_run_facts _ _ _ _ _ _ _ _ _ Hv Hrun Ho Hp ltac:(intros; lia))
    as (It & Iu & Il & I0 & I1 & _ & _).
  exists its.
  split; [eapply write_run_codes; eauto; intros; lia |].
  split.
  { rewrite It. f_equal.
    pose proof (write_traffic_flat sefc (_dwUseIAP s) page (map snd its) 0) as F.
    rewrite Z.add_0_r, length_map in F. exact F. }
  split; [split; [inversion Hrun; subst; simpl; lia | exact Il] |].
  split; [intros E; apply I0; exact E |].
  intros E Hoff N HN. destruct (I0 E) as [Hlen _]. rewrite Hlen.
  unfold pages_spanned, IFLASH_PAGE_SIZE in *.
  destruct (Z.leb_spec dwSize 0); [lia |].
  subst offset dwSize. Z.div_mod_to_equations; lia.
Qed.

(** C3: FLASHD_Write returns 0 exactly when a write-page command was issued
    for every page of the range and each reported no error bit.  Otherwise
    the run ends with the first command that reported a code other than 0,
    and that code is the result; the commands before it reported 0, no bus
    write follows it, and every page programmed so far still holds the
    image that was stored for it. *)
Theorem FLASHD_Write_first_error dwAddress pvBuffer dwSize s :
  IFLASH0_CNC_ADDR <= dwAddress ->
  0 <= dwSize ->
  dwAddress + dwSize <= IFLASH0_CNC_ADDR + IFLASH_SIZE ->
  pvBuffer <> 0 ->
  exists sefc page offset,
    SEFC_TranslateAddress dwAddress = Done (sefc, page, offset)
    /\ match FLASHD_Write patience dwAddress pvBuffer dwSize s with
       | Done (r, s') =>
           exists its,
             write_run patience sefc page offset pvBuffer dwSize s its r s'
             /\ (forall j it, nth_error its j = Some it ->
                   exists s0 s1,
                     SEFC_PerformCommand patience sefc SEFC_FCMD_WP
                       (page + Z.of_nat j) (_dwUseIAP s) s0 = Done (fst it, s1))
             /\ (r = 0 <->
                 Z.of_nat (length its) = pages_spanned offset dwSize
                 /\ Forall (fun it => fst it = 0) its)
             /\ (r <> 0 ->
                 exists its0 pb, its = its0 ++ [(r, pb)]
                                 /\ Forall (fun it => fst it = 0) its0)
             /\ trace s' = trace s
                           ++ write_traffic sefc (_dwUseIAP s) page (map snd its)
             /\ (forall j pb i,
                   nth_error (map snd its) j = Some pb -> 0 <= i < IFLASH_PAGE_SIZE ->
                   mem s' (window sefc (page + Z.of_nat j) + i) = pb i)
       | AssertFailed => False
       | Hung => ~ responsive patience
       end.
Proof.
  intros HA Hsz Hfit Hbuf.
  destruct (FLASHD_Write_run dwAddress pvBuffer dwSize s HA Hsz Hfit Hbuf)
    as (sefc & page & offset & Ht & Hv & Ho & Hp & HAeq & Hrun).
  exists sefc, page, offset. split; [exact Ht |].
  destruct (FLASHD_Write patience dwAddress pvBuffer dwSize s) as [[r s'] | |]; auto.
  destruct Hrun as (its & Hrun).
  destruct (write_run_facts _ _ _ _ _ _ _ _ _ Hv Hrun Ho Hp ltac:(intros; lia))
    as (It & Iu & Il & I0 & I1 & _ & Ir).
  exists its. split; [exact Hrun |].
  split; [eapply write_run_codes; eauto; intros; lia |].
  split.
  { split; [exact I0 |]. intros [_ Hall].
    destruct (Z.eq_dec r 0) as [| Hne]; [assumption |].
    destruct (I1 Hne) as (its0 & pb & -> & _).
    apply Forall_app in Hall as [_ Hl]. inversion Hl; subst. simpl in *. contradiction. }
  split; [exact I1 |]. split; [exact It |]. exact Ir.
Qed.

End PageWrite.

Section Assertions.
Context {C : Chip} {K : Controller}.
Variable patience : nat.
Hypothesis Hok : chip_ok C = true.

(** C9 (amended): the address assertions accept
    [IFLASH0_CNC_ADDR <= address <= IFLASH0_CNC_ADDR + IFLASH_SIZE], the end
    of the flash included.  For an address outside this interval
    translation, whole-chip erase, sector erase and write all end in a
    failed assertion, not in an error code; for an address inside it
    translation and the two erase functions never fail an assertion, nor
    does a write whose buffer is non-null and whose last byte lies in the
    flash. *)
Theorem address_assertions dwAddress pvBuffer dwSize s :
  (dwAddress < IFLASH0_CNC_ADDR \/ IFLASH0_CNC_ADDR + IFLASH_SIZE < dwAddress ->
   SEFC_TranslateAddress dwAddress = AssertFailed
   /\ FLASHD_Erase patience dwAddress s = AssertFailed
   /\ FLASHD_EraseSector patience dwAddress s = AssertFailed
   /\ FLASHD_Write patience dwAddress pvBuffer dwSize s = AssertFailed)
  /\ (IFLASH0_CNC_ADDR <= dwAddress <= IFLASH0_CNC_ADDR + IFLASH_SIZE ->
      SEFC_TranslateAddress dwAddress <> AssertFailed
      /\ FLASHD_Erase patience dwAddress s <> AssertFailed
      /\ FLASHD_EraseSector patience dwAddress s <> AssertFailed
      /\ (pvBuffer <> 0 -> 0 <= dwSize ->
          dwAddress + dwSize <= IFLASH0_CNC_ADDR + IFLASH_SIZE ->
          FLASHD_Write patience dwAddress pvBuffer dwSize s <> AssertFailed)).
Proof.
  destruct (chip_ok_facts Hok) as (Hb & Hs & Hs2 & Hw & Hd).
  split.
  - intros Hout.
    assert (Ht : SEFC_TranslateAddress dwAddress = AssertFailed).
    { unfold SEFC_TranslateAddress, obind, assert.
      rewrite (u32_small (IFLASH0_CNC_ADDR + IFLASH_SIZE)) by lia.
      destruct (Z.leb_spec IFLASH0_CNC_ADDR dwAddress); [| reflexivity].
      destruct (Z.leb_spec dwAddress (IFLASH0_CNC_ADDR + IFLASH_SIZE)); [lia | reflexivity]. }
    split; [exact Ht |].
    unfold FLASHD_Erase, FLASHD_EraseSector, FLASHD_Write, bind, lift, assert.
    rewrite Ht.
    repeat split;
      repeat match goal with
             | |- context [if ?b then _ else _] => destruct b
             end; reflexivity.
  - intros Hin.
    destruct (translate_spec Hok dwAddress Hin)
      as (sefc & page & offset & Ht & HAeq & Ho & Hp & Hle & Hsefc).
    assert (Hv : valid_sefc sefc).
    { unfold valid_sefc. destruct EFC1_defined; auto. }
    split; [rewrite Ht; discriminate |].
    assert (Hcmd : forall cmd arg,
               SEFC_PerformCommand patience sefc cmd arg (_dwUseIAP s) s <> AssertFailed).
    { intros cmd arg E.
      pose proof (SEFC_PerformCommand_frame patience sefc cmd arg (_dwUseIAP s) s Hv) as F.
      rewrite E in F. exact F. }
    unfold FLASHD_Erase, FLASHD_EraseSector, bind, lift, assert.
    rewrite Ht.
    destruct (Z.leb_spec IFLASH0_CNC_ADDR dwAddress); [| lia]. cbn [orb].
    split; [apply Hcmd |]. split; [apply Hcmd |].
    intros Hbuf Hsz Hfit E.
    destruct (FLASHD_Write_run patience Hok dwAddress pvBuffer dwSize s
                ltac:(lia) Hsz Hfit Hbuf) as (? & ? & ? & _ & _ & _ & _ & _ & Hrun).
    rewrite E in Hrun. exact Hrun.
Qed.

End Assertions.

(* ================================================================== *)
(** * The driver at work on [pic32cx2051mtg] with the controller [sim] *)

Lemma sim_responsive : @responsive pic32cx2051mtg sim 2.
Proof.
  intros sefc [g f e b l]. destruct b, e; cbn; discriminate.
Qed.

Section AtWork.
#[local] Existing Instance pic32cx2051mtg.
#[local] Existing Instance sim.

Lemma translate_compute_roundtrip_witness :
  chip_ok pic32cx2051mtg = true
  /\ IFLASH0_CNC_ADDR <= 16777828 < IFLASH0_CNC_ADDR + IFLASH_SIZE
  /\ exists sefc page offset,
       SEFC_TranslateAddress 16777828 = Done (sefc, page, offset)
       /\ 0 <= page < IFLASH_NB_OF_PAGES /\ 0 <= offset < IFLASH_PAGE_SIZE
       /\ SEFC_ComputeAddress sefc page offset = Done 16777828.
Proof.
  split; [reflexivity |]. split; [simpl; lia |].
  apply (translate_compute_roundtrip (C := pic32cx2051mtg) eq_refl 16777828).
  simpl; lia.
Defined.

(** The round trip also holds when the array is split over two controllers. *)
Example roundtrip_second_bank :
  @SEFC_TranslateAddress dual_bank 17826404 = Done (EFC1, 1, 100)
  /\ @SEFC_ComputeAddress dual_bank EFC1 1 100 = Done 17826404.
Proof. split; reflexivity. Qed.

Lemma ComputeLockRange_aligned_witness :
  chip_ok pic32cx2051mtg = true
  /\ IFLASH0_CNC_ADDR <= 16777828 /\ 16777828 <= 16800000
  /\ 16800000 <= IFLASH0_CNC_ADDR + IFLASH_SIZE
  /\ exists actualStart actualEnd,
    ComputeLockRange 16777828 16800000 = Done (actualStart, actualEnd)
    /\ actualStart <= 16777828
    /\ 16800000 - (16800000 - IFLASH0_CNC_ADDR) mod IFLASH_PAGE_SIZE <= actualEnd
    /\ (16800000 <= actualEnd <->
        ~ 0 < (16800000 - IFLASH0_CNC_ADDR) mod IFLASH_LOCK_REGION_SIZE
            < IFLASH_PAGE_SIZE)
    /\ (actualStart - IFLASH0_CNC_ADDR) mod IFLASH_LOCK_REGION_SIZE = 0
    /\ (actualEnd - IFLASH0_CNC_ADDR) mod IFLASH_LOCK_REGION_SIZE = 0
    /\ ((16777828 - IFLASH0_CNC_ADDR) mod IFLASH_LOCK_REGION_SIZE = 0 ->
        (16800000 - IFLASH0_CNC_ADDR) mod IFLASH_LOCK_REGION_SIZE = 0 ->
        actualStart = 16777828 /\ actualEnd = 16800000).
Proof.
  split; [reflexivity |]. split; [simpl; lia |]. split; [lia |].
  split; [simpl; lia |].
  apply (ComputeLockRange_aligned (C := pic32cx2051mtg) eq_refl 16777828 16800000);
    simpl; lia.
Defined.

(** C5 as stated fails: the range from the flash base to the byte after it
    is in range and ordered, yet the computed end is the base itself, below
    the requested end. *)
Lemma ComputeLockRange_end_below_request :
  IFLASH0_CNC_ADDR <= 16777216 /\ 16777216 <= 16777217
  /\ 16777217 < IFLASH0_CNC_ADDR + IFLASH_SIZE
  /\ ComputeLockRange 16777216 16777217 = Done (16777216, 16777216)
  /\ ~ (16777216 >= 16777217).
Proof.
  split; [simpl; lia |]. split; [lia |]. split; [simpl; lia |].
  split; [reflexivity | lia].
Qed.

(** What follows from it: locking that range locks nothing. *)
Example lock_first_byte_issues_nothing :
  match FLASHD_Lock 2 16777216 16777217 (Some 0) (Some 0) (sim_state 0 [] 0) with
  | Done (r, oS, oE, s') =>
      r = 0 /\ oS = Some 16777216 /\ oE = Some 16777216 /\ trace s' = []
  | _ => False
  end.
Proof. vm_compute. auto. Qed.

Lemma FLASHD_Lock_Unlock_regions_witness :
  chip_ok pic32cx2051mtg = true
  /\ IFLASH0_CNC_ADDR <= 16908288 /\ 16908288 <= 17039359
  /\ 17039359 <= IFLASH0_CNC_ADDR + IFLASH_SIZE
  /\ lock_outcome 2 SEFC_FCMD_SLB 16908288 17039359 (Some 0) None (sim_state 0 [] 0)
       (FLASHD_Lock 2 16908288 17039359 (Some 0) None (sim_state 0 [] 0))
  /\ lock_outcome 2 SEFC_FCMD_CLB 16908288 17039359 (Some 0) None (sim_state 0 [] 0)
       (FLASHD_Unlock 2 16908288 17039359 (Some 0) None (sim_state 0 [] 0)).
Proof.
  split; [reflexivity |]. split; [simpl; lia |]. split; [lia |].
  split; [simpl; lia |].
  apply (FLASHD_Lock_Unlock_regions (C := pic32cx2051mtg) (K := sim) 2 eq_refl);
    simpl; lia.
Defined.

(** The call of EraseSector in FlashPrg.c for the second sector: sixteen
    lock regions, sixteen clear-lock-bit commands on pages 256, 272, ... *)
Example unlock_second_sector :
  match FLASHD_Unlock 2 16908288 17039359 None None (sim_state 0 [] 0) with
  | Done (r, _, _, s') =>
      r = 0 /\ length (trace s') = 16%nat
      /\ firstn 2 (trace s') = [EvFCR SEFC0 (fcr_word SEFC_FCMD_CLB 256);
                                EvFCR SEFC0 (fcr_word SEFC_FCMD_CLB 272)]
  | _ => False
  end.
Proof. vm_compute. auto. Qed.

Lemma FLASHD_Write_preserves_page_witness :
  chip_ok pic32cx2051mtg = true
  /\ IFLASH0_CNC_ADDR <= 16777828 /\ 0 < 40 < IFLASH_PAGE_SIZE
  /\ 16777828 + 40 <= IFLASH0_CNC_ADDR + IFLASH_SIZE /\ 536870912 <> 0
  /\ exists sefc page offset,
    SEFC_TranslateAddress 16777828 = Done (sefc, page, offset)
    /\ match FLASHD_Write 2 16777828 536870912 40 (sim_state 0 [] 0) with
       | Done (r, s') =>
           (forall i, 0 <= i < IFLASH_PAGE_SIZE ->
              i < offset \/ offset + 40 <= i ->
              load8 (mem s') (window sefc page + i)
              = load8 (mem (sim_state 0 [] 0)) (window sefc page + i))
           /\ exists pb rest,
               trace s' = trace (sim_state 0 [] 0)
                          ++ page_traffic sefc (_dwUseIAP (sim_state 0 [] 0)) page pb
                          ++ rest
               /\ forall i, 0 <= i < IFLASH_PAGE_SIZE ->
                    pb i = staged (mem (sim_state 0 [] 0)) (window sefc page) offset
                                  536870912 (write_size offset 40) i
       | AssertFailed => False
       | Hung => ~ responsive 2
       end.
Proof.
  split; [reflexivity |]. split; [simpl; lia |]. split; [unfold IFLASH_PAGE_SIZE; lia |].
  split; [simpl; lia |]. split; [lia |].
  apply (FLASHD_Write_preserves_page (C := pic32cx2051mtg) (K := sim) 2 eq_refl
           16777828 536870912 40 (sim_state 0 [] 0));
    try (simpl; lia); unfold IFLASH_PAGE_SIZE; lia.
Defined.

(** Forty bytes written 100 bytes into page 1: the byte before and the byte
    after the written range keep their value, the first written byte holds
    the caller's. *)
Example write_mid_page :
  match FLASHD_Write 2 16777828 536870912 40 (sim_state 0 [] 0) with
  | Done (r, s') =>
      r = 0
      /\ load8 (mem s') (2684354560 + 16777827)
         = load8 (mem (sim_state 0 [] 0)) (2684354560 + 16777827)
      /\ load8 (mem s') (2684354560 + 16777828) = 536870912 mod 251
      /\ load8 (mem s') (2684354560 + 16777868)
         = load8 (mem (sim_state 0 [] 0)) (2684354560 + 16777868)
  | _ => False
  end.
Proof. vm_compute. auto. Qed.

Lemma FLASHD_Write_traffic_witness :
  chip_ok pic32cx2051mtg = true
  /\ IFLASH0_CNC_ADDR <= 16777828 /\ 0 < 600
  /\ 16777828 + 600 <= IFLASH0_CNC_ADDR + IFLASH_SIZE /\ 536870912 <> 0
  /\ exists sefc page offset,
    SEFC_TranslateAddress 16777828 = Done (sefc, page, offset)
    /\ match FLASHD_Write 2 16777828 536870912 600 (sim_state 0 [] 0) with
       | Done (r, s') =>
           exists its : list (Z * (Z -> Z)),
             (forall j it, nth_error its j = Some it ->
                exists s0 s1,
                  SEFC_PerformCommand 2 sefc SEFC_FCMD_WP
                    (page + Z.of_nat j) (_dwUseIAP (sim_state 0 [] 0)) s0
                  = Done (fst it, s1))
             /\ trace s' = trace (sim_state 0 [] 0)
                  ++ flat_map
                       (fun jp : nat * (Z -> Z) =>
                          map (fun k =>
                                 EvStore32 (window sefc (page + Z.of_nat (fst jp))
                                            + 4 * Z.of_nat k)
                                           (buffer_word (snd jp) (Z.of_nat k)))
                              (seq 0 (Z.to_nat (IFLASH_PAGE_SIZE / 4)))
                          ++ [if negb (_dwUseIAP (sim_state 0 [] 0) =? 0)
                              then EvIAP (if Sefc_eqb sefc SEFC0 then 0 else 1)
                                     (Z.lor (Z.lor EEFC_FCR_FKEY_PASSWD
                                               (EEFC_FCR_FARG (page + Z.of_nat (fst jp))))
                                            (Z.land EEFC_FCR_FCMD_Msk
                                               (Z.shiftl SEFC_FCMD_WP EEFC_FCR_FCMD_Pos)))
                              else EvFCR sefc
                                     (Z.lor (Z.lor EEFC_FCR_FKEY_PASSWD
                                               (EEFC_FCR_FARG (page + Z.of_nat (fst jp))))
                                            (Z.land EEFC_FCR_FCMD_Msk
                                               (Z.shiftl SEFC_FCMD_WP EEFC_FCR_FCMD_Pos)))])
                       (combine (seq 0 (length its)) (map snd its))
             /\ 1 <= Z.of_nat (length its) <= pages_spanned offset 600
             /\ (r = 0 -> Z.of_nat (length its) = pages_spanned offset 600)
             /\ (r = 0 -> offset = 0 ->
                 forall N, 600 = N * IFLASH_PAGE_SIZE -> Z.of_nat (length its) = N)
       | AssertFailed => False
       | Hung => ~ responsive 2
       end.
Proof.
  split; [reflexivity |]. split; [simpl; lia |]. split; [lia |].
  split; [simpl; lia |]. split; [lia |].
  apply (FLASHD_Write_traffic (C := pic32cx2051mtg) (K := sim) 2 eq_refl
           16777828 536870912 600 (sim_state 0 [] 0));
    simpl; lia.
Defined.

(** The scenario of the specification: 600 bytes written 100 bytes into a
    page span two pages; two write-page commands, for pages 1 and 2, each
    after 128 word stores. *)
Example write_600_at_100 :
  pages_spanned 100 600 = 2
  /\ match FLASHD_Write 2 16777828 536870912 600 (sim_state 0 [] 0) with
     | Done (r, s') =>
         r = 0 /\ length (trace s') = 258%nat
         /\ nth_error (trace s') 128 = Some (EvFCR SEFC0 (fcr_word SEFC_FCMD_WP 1))
         /\ nth_error (trace s') 257 = Some (EvFCR SEFC0 (fcr_word SEFC_FCMD_WP 2))
     | _ => False
     end.
Proof. vm_compute. auto. Qed.

(** Two pages' worth of data from the start of page 1: two write-page
    commands, the words 0x5A000101 and 0x5A000201.  One page's worth from
    100 bytes into page 1 spans two pages and takes two commands as well. *)
Example write_pages_worth :
  match FLASHD_Write 2 16777728 536870912 1024 (sim_state 0 [] 0) with
  | Done (r, s') =>
      r = 0 /\ length (trace s') = 258%nat
      /\ nth_error (trace s') 128 = Some (EvFCR SEFC0 1509949697)
      /\ nth_error (trace s') 257 = Some (EvFCR SEFC0 1509949953)
  | _ => False
  end
  /\ match FLASHD_Write 2 16777828 536870912 512 (sim_state 0 [] 0) with
     | Done (r, s') =>
         r = 0 /\ length (trace s') = 258%nat
         /\ nth_error (trace s') 257 = Some (EvFCR SEFC0 1509949953)
     | _ => False
     end.
Proof. vm_compute. auto. Qed.

Lemma FLASHD_Write_first_error_witness :
  chip_ok pic32cx2051mtg = true
  /\ IFLASH0_CNC_ADDR <= 16777828 /\ 0 <= 1200
  /\ 16777828 + 1200 <= IFLASH0_CNC_ADDR + IFLASH_SIZE /\ 536870912 <> 0
  /\ exists sefc page offset,
    SEFC_TranslateAddress 16777828 = Done (sefc, page, offset)
    /\ match FLASHD_Write 2 16777828 536870912 1200 (sim_state 0 [2] 0) with
       | Done (r, s') =>
           exists its,
             write_run 2 sefc page offset 536870912 1200 (sim_state 0 [2] 0) its r s'
             /\ (forall j it, nth_error its j = Some it ->
                   exists s0 s1,
                     SEFC_PerformCommand 2 sefc SEFC_FCMD_WP
                       (page + Z.of_nat j) (_dwUseIAP (sim_state 0 [2] 0)) s0
                     = Done (fst it, s1))
             /\ (r = 0 <->
                 Z.of_nat (length its) = pages_spanned offset 1200
                 /\ Forall (fun it => fst it = 0) its)
             /\ (r <> 0 ->
                 exists its0 pb, its = its0 ++ [(r, pb)]
                                 /\ Forall (fun it => fst it = 0) its0)
             /\ trace s' = trace (sim_state 0 [2] 0)
                           ++ write_traffic sefc (_dwUseIAP (sim_state 0 [2] 0)) page
                                            (map snd its)
             /\ (forall j pb i,
                   nth_error (map snd its) j = Some pb -> 0 <= i < IFLASH_PAGE_SIZE ->
                   mem s' (window sefc (page + Z.of_nat j) + i) = pb i)
       | AssertFailed => False
       | Hung => ~ responsive 2
       end.
Proof.
  split; [reflexivity |]. split; [simpl; lia |]. split; [lia |].
  split; [simpl; lia |]. split; [lia |].
  apply (FLASHD_Write_first_error (C := pic32cx2051mtg) (K := sim) 2 eq_refl
           16777828 536870912 1200 (sim_state 0 [2] 0));
    simpl; lia.
Defined.

(** 1200 bytes from page 1 span three pages; page 2 is locked: the call
    returns the lock error of the second command, the third page is never
    attempted, and page 1 keeps the bytes written to it. *)
Example write_stops_at_locked_page :
  pages_spanned 100 1200 = 3
  /\ match FLASHD_Write 2 16777828 536870912 1200 (sim_state 0 [2] 0) with
     | Done (r, s') =>
         r = EEFC_FSR_FLOCKE /\ length (trace s') = 258%nat
         /\ nth_error (trace s') 257 = Some (EvFCR SEFC0 (fcr_word SEFC_FCMD_WP 2))
         /\ load8 (mem s') (2684354560 + 16777828) = 536870912 mod 251
     | _ => False
     end.
Proof. vm_compute. auto. Qed.

Lemma sim_exec_fields w b h :
  sim_exec w b h
  = mkSim (sim_gpnvm (sim_exec w true h)) (sim_frr (sim_exec w true h))
          (sim_err (sim_exec w true h)) b (sim_locked (sim_exec w true h)).
Proof.
  unfold sim_exec.
  repeat match goal with
         | |- context [?a =? ?b] => destruct (a =? b)
         end; reflexivity.
Qed.

Lemma sim_command (s : @state sim) cmd arg :
  exists r s1,
    SEFC_PerformCommand 2 SEFC0 cmd arg (_dwUseIAP s) s = Done (r, s1)
    /\ sim_gpnvm (hw_st s1) = sim_gpnvm (sim_exec (fcr_word cmd arg) true (hw_st s))
    /\ sim_frr (hw_st s1) = sim_frr (sim_exec (fcr_word cmd arg) true (hw_st s)).
Proof.
  destruct s as [h m b u t]. unfold SEFC_PerformCommand. cbn [_dwUseIAP].
  set (w := fcr_word cmd arg).
  destruct (u =? 0); cbn [negb].
  - cbn [hw_st write_FCR emit set_hw hw_fcr sim].
    rewrite (sim_exec_fields w true h).
    generalize (sim_gpnvm (sim_exec w true h)), (sim_frr (sim_exec w true h)),
      (sim_err (sim_exec w true h)), (sim_locked (sim_exec w true h)).
    intros g f e l. destruct e; cbn; eauto.
  - unfold IAP_calls.
    cbn [Sefc_eqb andb EFC1_defined pic32cx2051mtg hw_st call_IAP emit set_hw hw_iap sim
           hw_fsr].
    rewrite (sim_exec_fields w false h).
    generalize (sim_gpnvm (sim_exec w true h)), (sim_frr (sim_exec w true h)),
      (sim_err (sim_exec w true h)), (sim_locked (sim_exec w true h)).
    intros g f e l. destruct e; cbn; eauto.
Qed.

Lemma sim_gpnvm_contract : gpnvm_contract 2 sim_gpnvm.
Proof.
  assert (Hi9 : forall i, 0 <= i < GPNVM_NUM_MAX ->
            i = 0 \/ i = 1 \/ i = 2 \/ i = 3 \/ i = 4 \/ i = 5 \/ i = 6 \/ i = 7 \/ i = 8)
    by (unfold GPNVM_NUM_MAX; intros; lia).
  split; [| split].
  - intros s r s1 v h E F.
    destruct (sim_command s SEFC_FCMD_GGPB 0) as (r' & s1' & E' & Hg & Hf).
    rewrite E' in E. inversion E; subst. cbn in F. inversion F; subst.
    rewrite Hg, Hf. cbn. auto.
  - intros s i s1 Hi E.
    destruct (sim_command s SEFC_FCMD_SGPB i) as (r' & s1' & E' & Hg & Hf).
    rewrite E' in E. inversion E; subst. rewrite Hg. clear - Hi Hi9.
    destruct (Hi9 i Hi) as [-> | [-> | [-> | [-> | [-> | [-> | [-> | [-> | ->]]]]]]]];
      match goal with
      | |- Z.testbit (sim_gpnvm (sim_exec ?w true ?h)) ?k = _ =>
          change (sim_gpnvm (sim_exec w true h))
            with (Z.lor (sim_gpnvm h) (Z.shiftl 1 k))
      end;
      rewrite Z.lor_spec, Z.shiftl_1_l, Z.pow2_bits_true by lia; apply orb_true_r.
  - intros s i s1 Hi E.
    destruct (sim_command s SEFC_FCMD_CGPB i) as (r' & s1' & E' & Hg & Hf).
    rewrite E' in E. inversion E; subst. rewrite Hg. clear - Hi Hi9.
    destruct (Hi9 i Hi) as [-> | [-> | [-> | [-> | [-> | [-> | [-> | [-> | ->]]]]]]]];
      match goal with
      | |- Z.testbit (sim_gpnvm (sim_exec ?w true ?h)) ?k = _ =>
          change (sim_gpnvm (sim_exec w true h))
            with (Z.ldiff (sim_gpnvm h) (Z.shiftl 1 k))
      end;
      rewrite Z.ldiff_spec, Z.shiftl_1_l, Z.pow2_bits_true by lia; apply andb_false_r.
Qed.

Lemma GPNVM_set_clear_witness :
  0 <= 5 < GPNVM_NUM_MAX
  /\ gpnvm_contract 2 sim_gpnvm
  /\ match FLASHD_SetGPNVM 2 5 (sim_state 0 [] 0) with
     | Done (e, s1) =>
         e = 0 ->
         match FLASHD_IsGPNVMSet 2 5 s1 with
         | Done (b, _) => b = 1
         | AssertFailed => False
         | Hung => ~ responsive 2
         end
     | _ => True
     end.
Proof.
  assert (Hi : 0 <= 5 < GPNVM_NUM_MAX) by (unfold GPNVM_NUM_MAX; lia).
  split; [exact Hi |]. split; [exact sim_gpnvm_contract |].
  destruct (GPNVM_set_clear (C := pic32cx2051mtg) (K := sim) 2 5 (sim_state 0 [] 0) Hi)
    as [_ H].
  exact (proj1 (H sim_gpnvm sim_gpnvm_contract)).
Defined.

(** Boot-mode bit 5 as Init of FlashPrg.c sets it: a query, the set command,
    and the bit reads back as set; clearing it makes it read back as clear. *)
Example set_then_clear_gpnvm5 :
  match FLASHD_SetGPNVM 2 5 (sim_state 0 [] 0) with
  | Done (e, s1) =>
      e = 0
      /\ trace s1 = [EvFCR SEFC0 (fcr_word SEFC_FCMD_GGPB 0);
                     EvFCR SEFC0 (fcr_word SEFC_FCMD_SGPB 5)]
      /\ match FLASHD_IsGPNVMSet 2 5 s1 with
         | Done (b, s2) =>
             b = 1
             /\ match FLASHD_ClearGPNVM 2 5 s2 with
                | Done (e', s3) =>
                    e' = 0
                    /\ match FLASHD_IsGPNVMSet 2 5 s3 with
                       | Done (b', _) => b' = 0
                       | _ => False
                       end
                | _ => False
                end
         | _ => False
         end
  | _ => False
  end.
Proof. vm_compute. auto. Qed.

(** C8 as stated fails: with bit 5 already set, FLASHD_SetGPNVM returns 0
    but has written one command word, the get-GPNVM query, to the command
    register, so the command count has gone from 0 to 1. *)
Lemma SetGPNVM_on_set_bit_issues_a_command :
  trace (sim_state 32 [] 0) = []
  /\ match FLASHD_IsGPNVMSet 2 5 (sim_state 32 [] 0) with
     | Done (b, _) => b = 1
     | _ => False
     end
  /\ match FLASHD_SetGPNVM 2 5 (sim_state 32 [] 0) with
     | Done (r, s') =>
         r = 0
         /\ trace s' = [EvFCR SEFC0 (fcr_word SEFC_FCMD_GGPB 0)]
         /\ length (trace s') = 1%nat
     | _ => False
     end.
Proof. vm_compute. auto. Qed.

Lemma address_assertions_witness :
  chip_ok pic32cx2051mtg = true
  /\ (IFLASH0_CNC_ADDR + IFLASH_SIZE < 18874369
      /\ SEFC_TranslateAddress 18874369 = AssertFailed
      /\ FLASHD_Erase 2 18874369 (sim_state 0 [] 0) = AssertFailed
      /\ FLASHD_EraseSector 2 18874369 (sim_state 0 [] 0) = AssertFailed
      /\ FLASHD_Write 2 18874369 536870912 4 (sim_state 0 [] 0) = AssertFailed)
  /\ (IFLASH0_CNC_ADDR <= 16777828 <= IFLASH0_CNC_ADDR + IFLASH_SIZE
      /\ SEFC_TranslateAddress 16777828 <> AssertFailed
      /\ FLASHD_Erase 2 16777828 (sim_state 0 [] 0) <> AssertFailed
      /\ FLASHD_EraseSector 2 16777828 (sim_state 0 [] 0) <> AssertFailed
      /\ FLASHD_Write 2 16777828 536870912 4 (sim_state 0 [] 0) <> AssertFailed).
Proof.
  split; [reflexivity |]. split.
  - assert (Hout : 18874369 < IFLASH0_CNC_ADDR
                   \/ IFLASH0_CNC_ADDR + IFLASH_SIZE < 18874369) by (right; simpl; lia).
    split; [simpl; lia |].
    exact (proj1 (address_assertions (C := pic32cx2051mtg) (K := sim) 2 eq_refl
                    18874369 536870912 4 (sim_state 0 [] 0)) Hout).
  - assert (Hin : IFLASH0_CNC_ADDR <= 16777828 <= IFLASH0_CNC_ADDR + IFLASH_SIZE)
      by (simpl; lia).
    split; [exact Hin |].
    destruct (proj2 (address_assertions (C := pic32cx2051mtg) (K := sim) 2 eq_refl
                       16777828 536870912 4 (sim_state 0 [] 0)) Hin)
      as (T & E & ES & W).
    repeat split; auto. apply W; simpl; lia.
Defined.

(** C9 as stated fails: the address one past the last byte of the flash is
    outside the mapped region, yet translation accepts it (page
    [IFLASH_NB_OF_PAGES], offset 0), both erase functions send their command
    and return its status, and an empty write returns 0. *)
Lemma end_of_flash_passes_the_assertions :
  ~ (IFLASH0_CNC_ADDR <= 18874368 < IFLASH0_CNC_ADDR + IFLASH_SIZE)
  /\ SEFC_TranslateAddress 18874368 = Done (SEFC0, 4096, 0)
  /\ match FLASHD_Erase 2 18874368 (sim_state 0 [] 0) with
     | Done (r, s') => r = 0 /\ trace s' = [EvFCR SEFC0 (fcr_word SEFC_FCMD_EA 0)]
     | _ => False
     end
  /\ match FLASHD_EraseSector 2 18874368 (sim_state 0 [] 0) with
     | Done (r, s') => r = 0 /\ trace s' = [EvFCR SEFC0 (fcr_word SEFC_FCMD_ES 4096)]
     | _ => False
     end
  /\ match FLASHD_Write 2 18874368 536870912 0 (sim_state 0 [] 0) with
     | Done (r, _) => r = 0
     | _ => False
     end.
Proof.
  split; [simpl; lia |]. split; [reflexivity |].
  vm_compute. auto.
Qed.

(** A command through the register path and through the ROM routine. *)
Example perform_command_paths :
  match SEFC_PerformCommand 2 SEFC0 SEFC_FCMD_WP 2 0 (sim_state 0 [2] 0) with
  | Done (r, s') => r = EEFC_FSR_FLOCKE /\ trace s' = [EvFCR SEFC0 (fcr_word SEFC_FCMD_WP 2)]
  | _ => False
  end
  /\ match SEFC_PerformCommand 2 SEFC0 SEFC_FCMD_WP 3 1 (sim_state 0 [2] 1) with
     | Done (r, s') => r = 0 /\ trace s' = [EvIAP 0 (fcr_word SEFC_FCMD_WP 3)]
     | _ => False
     end
  /\ match SEFC_PerformCommand 1 SEFC0 SEFC_FCMD_WP 3 0 (sim_state 0 [2] 0) with
     | Hung => True
     | _ => False
     end.
Proof. vm_compute. auto. Qed.

(** The unique identifier: four words from the base of the flash. *)
Example read_unique_id :
  match FLASHD_ReadUniqueID 2 (Some (7, 7, 7, 7)) (sim_state 0 [] 0) with
  | Done (r, out, s') =>
      r = 0
      /\ out = Some (load32 (mem (sim_state 0 [] 0)) 16777216,
                     load32 (mem (sim_state 0 [] 0)) 16777220,
                     load32 (mem (sim_state 0 [] 0)) 16777224,
                     load32 (mem (sim_state 0 [] 0)) 16777228)
      /\ length (trace s') = 2%nat
  | _ => False
  end.
Proof. vm_compute. auto. Qed.

End AtWork.

(* ================================================================== *)
(** * Further properties of efc.c, flashd.c and FlashPrg.c *)

Section MoreAddresses.
Context {C : Chip}.
Hypothesis Hok : chip_ok C = true.

(** Page coordinates of the flash go through SEFC_ComputeAddress and back
    through SEFC_TranslateAddress unchanged. *)
Theorem compute_translate_roundtrip sefc page offset :
  valid_coordinate sefc page offset = true ->
  obind (SEFC_ComputeAddress sefc page offset) SEFC_TranslateAddress
  = Done (sefc, page, offset).
Proof.
  intros Hv.
  destruct (chip_ok_facts Hok) as (Hb & Hs & Hs2 & Hw & Hd).
  destruct (half_bounds Hok) as [Hh Hh2].
  unfold valid_coordinate, IFLASH_PAGE_SIZE in Hv.
  repeat (apply andb_prop in Hv; destruct Hv as [Hv ?]).
  apply Z.leb_le in Hv. apply Z.leb_le in H1. apply Z.ltb_lt in H0.
  assert (Hp : page * 512 + offset <= IFLASH_SIZE).
  { destruct EFC1_defined; [destruct (Sefc_eqb sefc SEFC0) |].
    - apply Z.ltb_lt in H. lia.
    - apply Z.leb_le in H. lia.
    - apply andb_prop in H as [_ H]. apply Z.leb_le in H. lia. }
  rewrite (compute_spec Hok) by lia. cbn [obind].
  assert (Hdiv : (page * 512 + offset) / 512 = page
                 /\ (page * 512 + offset) mod 512 = offset)
    by (split; Z.div_mod_to_equations; lia).
  destruct Hdiv as [Hq Hr].
  unfold SEFC_TranslateAddress, bank_base, assert, obind, IFLASH_PAGE_SIZE.
  rewrite (u32_small (IFLASH0_CNC_ADDR + IFLASH_SIZE)) by lia.
  destruct EFC1_defined eqn:E.
  - rewrite (u32_small (IFLASH0_CNC_ADDR + IFLASH_SIZE / 2)) by lia.
    destruct sefc; cbn [Sefc_eqb] in *.
    + apply Z.ltb_lt in H.
      destruct (Z.leb_spec IFLASH0_CNC_ADDR (IFLASH0_CNC_ADDR + page * 512 + offset)); [| lia].
      destruct (Z.leb_spec (IFLASH0_CNC_ADDR + page * 512 + offset)
                  (IFLASH0_CNC_ADDR + IFLASH_SIZE)); [| lia].
      destruct (Z.ltb_spec (IFLASH0_CNC_ADDR + page * 512 + offset)
                  (IFLASH0_CNC_ADDR + IFLASH_SIZE / 2)); [| lia].
      replace (IFLASH0_CNC_ADDR + page * 512 + offset - IFLASH0_CNC_ADDR)
        with (page * 512 + offset) by lia.
      rewrite (u32_small (page * 512 + offset)) by lia.
      rewrite Hq, Hr, !u16_small by lia. reflexivity.
    + apply Z.leb_le in H.
      destruct (Z.leb_spec IFLASH0_CNC_ADDR
                  (IFLASH0_CNC_ADDR + IFLASH_SIZE / 2 + page * 512 + offset)); [| lia].
      destruct (Z.leb_spec (IFLASH0_CNC_ADDR + IFLASH_SIZE / 2 + page * 512 + offset)
                  (IFLASH0_CNC_ADDR + IFLASH_SIZE)); [| lia].
      destruct (Z.ltb_spec (IFLASH0_CNC_ADDR + IFLASH_SIZE / 2 + page * 512 + offset)
                  (IFLASH0_CNC_ADDR + IFLASH_SIZE / 2)); [lia |].
      replace (IFLASH0_CNC_ADDR + IFLASH_SIZE / 2 + page * 512 + offset
               - (IFLASH0_CNC_ADDR + IFLASH_SIZE / 2))
        with (page * 512 + offset) by lia.
      rewrite (u32_small (page * 512 + offset)) by lia.
      rewrite Hq, Hr, !u16_small by lia. reflexivity.
  - apply andb_prop in H as [Hs0 _]. destruct sefc; [| discriminate].
    destruct (Z.leb_spec IFLASH0_CNC_ADDR (IFLASH0_CNC_ADDR + page * 512 + offset)); [| lia].
    destruct (Z.leb_spec (IFLASH0_CNC_ADDR + page * 512 + offset)
                (IFLASH0_CNC_ADDR + IFLASH_SIZE)); [| lia].
    replace (IFLASH0_CNC_ADDR + page * 512 + offset - IFLASH0_CNC_ADDR)
      with (page * 512 + offset) by lia.
    rewrite (u32_small (page * 512 + offset)) by lia.
    rewrite Hq, Hr, !u16_small by lia. reflexivity.
Qed.

End MoreAddresses.

Section MoreWrite.
Context {C : Chip} {K : Controller}.
Variable patience : nat.
Hypothesis Hok : chip_ok C = true.

(** What a run of the loop leaves above the pages it programmed, and the
    bytes it leaves in them when the data come from below the window. *)
Lemma write_run_data sefc page offset pvBuffer dwSize s its r s' :
  valid_sefc sefc ->
  write_run patience sefc page offset pvBuffer dwSize s its r s' ->
  0 <= offset < 512 -> 0 <= page <= 4096 ->
  (0 < dwSize ->
   bank_base sefc + page * 512 + offset + dwSize <= IFLASH0_CNC_ADDR + IFLASH_SIZE) ->
  (forall x, window sefc page + 512 * Z.of_nat (length its) <= x ->
             mem s' x = mem s x)
  /\ (r = 0 -> 0 <= pvBuffer -> pvBuffer + dwSize <= 2684354560 ->
      forall i, 0 <= i < dwSize ->
                mem s' (window sefc page + offset + i) = load8 (mem s) (pvBuffer + i)).
Proof.
  intros Hv.
  induction 1 as [page offset pvBuffer dwSize s Hz
                 | page offset pvBuffer dwSize s e s1 Hpos Hpp He
                 | page offset pvBuffer dwSize s s1 its r s' Hpos Hpp Hrun IH];
    intros Ho Hp Hin.
  - split; [reflexivity | intros; lia].
  - specialize (Hin Hpos).
    destruct (write_step_arith Hok sefc page offset dwSize Ho Hp Hpos Hin)
      as (A1 & A2 & A3 & A4 & A5 & A6 & A7 & A8 & A9 & A10 & A11 & A12).
    pose proof (program_page_spec patience Hok sefc page offset pvBuffer
                  (write_size offset dwSize) s Hv ltac:(lia) ltac:(lia) A1 A3
                  ltac:(lia)) as PS.
    rewrite Hpp in PS. destruct PS as (Pb & Pt & Pu & Pm & _).
    split; [| intros; contradiction].
    intros x Hx. cbn [length] in Hx. rewrite Pm. zbool; try lia; reflexivity.
  - specialize (Hin Hpos).
    destruct (write_step_arith Hok sefc page offset dwSize Ho Hp Hpos Hin)
      as (A1 & A2 & A3 & A4 & A5 & A6 & A7 & A8 & A9 & A10 & A11 & A12).
    destruct (chip_ok_facts Hok) as (Hb & Hsz & Hs2 & Hw & Hd).
    destruct (bank_base_bounds Hok sefc) as [Hbb _].
    pose proof (program_page_spec patience Hok sefc page offset pvBuffer
                  (write_size offset dwSize) s Hv ltac:(lia) ltac:(lia) A1 A3
                  ltac:(lia)) as PS.
    rewrite Hpp in PS. destruct PS as (Pb & Pt & Pu & Pm & _).
    rewrite A5, A6 in IH, Hrun.
    destruct (IH ltac:(lia) ltac:(lia) ltac:(intros; lia)) as (Iup & Idata).
    destruct (write_run_facts patience Hok _ _ _ _ _ _ _ _ _ Hv Hrun
                ltac:(lia) ltac:(lia) ltac:(intros; lia))
      as (_ & _ & _ & _ & _ & If & _).
    split.
    + intros x Hx. cbn [length] in Hx.
      rewrite Iup by lia. rewrite Pm. zbool; try lia; reflexivity.
    + intros Hr Hb0 Hbelow i Hi.
      set (ws := write_size offset dwSize) in *.
      assert (Hsrc : forall j, 0 <= j < dwSize ->
                load8 (mem s1) (pvBuffer + j) = load8 (mem s) (pvBuffer + j)).
      { intros j Hj. unfold load8. rewrite Pm. zbool; try lia; reflexivity. }
      destruct (Z.lt_ge_cases i ws) as [Hlo | Hhi].
      * rewrite If by lia. rewrite Pm. zbool; try lia.
        rewrite Pb by lia. unfold staged. fold ws. zbool; try lia.
        f_equal. lia.
      * rewrite u32_small in Idata by lia.
        specialize (Idata Hr ltac:(lia) ltac:(lia) (i - ws) ltac:(lia)).
        replace (window sefc (page + 1) + 0 + (i - ws))
          with (window sefc page + offset + i) in Idata by lia.
        rewrite Idata. replace (pvBuffer + ws + (i - ws)) with (pvBuffer + i) by lia.
        apply Hsrc. lia.
Qed.

(** After a FLASHD_Write that returned 0, with the caller's buffer below
    the write window, the bytes of the window from the start address on are
    the caller's bytes as they were at the call. *)
Theorem FLASHD_Write_stores_data dwAddress pvBuffer dwSize s :
  IFLASH0_CNC_ADDR <= dwAddress -> 0 <= dwSize ->
  dwAddress + dwSize <= IFLASH0_CNC_ADDR + IFLASH_SIZE ->
  0 < pvBuffer -> pvBuffer + dwSize <= 2684354560 ->
  match FLASHD_Write patience dwAddress pvBuffer dwSize s with
  | Done (r, s') =>
      r = 0 ->
      forall i, 0 <= i < dwSize ->
        mem s' (Z.lor dwAddress 2684354560 + i) = load8 (mem s) (pvBuffer + i)
  | AssertFailed => False
  | Hung => ~ responsive patience
  end.
Proof.
  intros HA Hsz Hfit Hbuf Hbelow.
  destruct (chip_ok_facts Hok) as (Hb & Hs & Hs2 & Hw & Hd).
  destruct (FLASHD_Write_run patience Hok dwAddress pvBuffer dwSize s HA Hsz Hfit
              ltac:(lia))
    as (sefc & page & offset & Ht & Hv & Ho & Hp & HAeq & Hrun).
  destruct (FLASHD_Write patience dwAddress pvBuffer dwSize s) as [[r s'] | |]; auto.
  destruct Hrun as (its & Hrun).
  intros Hr i Hi.
  destruct (write_run_data _ _ _ _ _ _ _ _ _ Hv Hrun Ho Hp ltac:(intros; lia))
    as (_ & Hdata).
  destruct (bank_base_bounds Hok sefc) as [Hbb _].
  assert (Hwin : window sefc page = bank_base sefc + page * 512 + 2684354560).
  { unfold window, IFLASH_PAGE_SIZE. apply lor_window. lia. }
  rewrite lor_window by lia.
  replace (dwAddress + 2684354560 + i) with (window sefc page + offset + i) by lia.
  apply Hdata; auto; lia.
Qed.

(** The static page buffer after a run of the loop is the image of the
    last iteration. *)
Lemma write_run_last sefc page offset pvBuffer dwSize s its r s' :
  write_run patience sefc page offset pvBuffer dwSize s its r s' ->
  (its = [] /\ s' = s /\ r = 0)
  \/ exists its0, its = its0 ++ [(r, _pdwPageBuffer s')].
Proof.
  induction 1 as [page offset pvBuffer dwSize s Hz
                 | page offset pvBuffer dwSize s e s1 Hpos Hpp He
                 | page offset pvBuffer dwSize s s1 its r s' Hpos Hpp Hrun IH].
  - left. auto.
  - right. exists []. reflexivity.
  - right. destruct IH as [(-> & -> & ->) | (its0 & ->)].
    + exists []. reflexivity.
    + exists ((0, _pdwPageBuffer s1) :: its0). reflexivity.
Qed.

(** FLASHD_Write writes to two places only: the window pages from the page
    of its start address to the last page of the range, and its own static
    page buffer.  Whatever it returns, no byte of memory outside those
    window pages changes.  The static buffer, rewritten by every iteration,
    holds after the call the image of the last page that was programmed,
    which is the last page of the range when the result is 0; a write of
    size 0 leaves it as it was. *)
Theorem FLASHD_Write_touches_only_its_pages dwAddress pvBuffer dwSize s :
  IFLASH0_CNC_ADDR <= dwAddress -> 0 <= dwSize ->
  dwAddress + dwSize <= IFLASH0_CNC_ADDR + IFLASH_SIZE ->
  pvBuffer <> 0 ->
  exists sefc page offset,
    SEFC_TranslateAddress dwAddress = Done (sefc, page, offset)
    /\ match FLASHD_Write patience dwAddress pvBuffer dwSize s with
       | Done (r, s') =>
           (forall x,
              x < window sefc page
              \/ window sefc page + IFLASH_PAGE_SIZE * pages_spanned offset dwSize <= x ->
              mem s' x = mem s x)
           /\ (dwSize = 0 -> _pdwPageBuffer s' = _pdwPageBuffer s)
           /\ (0 < dwSize ->
               exists j,
                 0 <= j < pages_spanned offset dwSize
                 /\ (r = 0 -> j = pages_spanned offset dwSize - 1)
                 /\ forall i, 0 <= i < IFLASH_PAGE_SIZE ->
                      _pdwPageBuffer s' i = mem s' (window sefc (page + j) + i))
       | AssertFailed => False
       | Hung => ~ responsive patience
       end.
Proof.
  intros HA Hsz Hfit Hbuf.
  destruct (FLASHD_Write_run patience Hok dwAddress pvBuffer dwSize s HA Hsz Hfit Hbuf)
    as (sefc & page & offset & Ht & Hv & Ho & Hp & HAeq & Hrun).
  exists sefc, page, offset. split; [exact Ht |].
  destruct (FLASHD_Write patience dwAddress pvBuffer dwSize s) as [[r s'] | |]; auto.
  destruct Hrun as (its & Hrun).
  destruct (write_run_data _ _ _ _ _ _ _ _ _ Hv Hrun Ho Hp ltac:(intros; lia))
    as (Hup & _).
  destruct (write_run_facts patience Hok _ _ _ _ _ _ _ _ _ Hv Hrun Ho Hp
              ltac:(intros; lia))
    as (_ & _ & Il & I0 & _ & If & Ir).
  split; [| split].
  - unfold IFLASH_PAGE_SIZE.
    intros x [Hx | Hx]; [apply If; exact Hx | apply Hup; lia].
  - intros Hz. inversion Hrun; subst; try lia; reflexivity.
  - intros Hpos.
    destruct (write_run_last _ _ _ _ _ _ _ _ _ Hrun) as [(-> & _) | (its0 & ->)].
    + inversion Hrun; subst; lia.
    + rewrite length_app in Il, I0. cbn [length] in Il, I0.
      exists (Z.of_nat (length its0)).
      split; [lia |]. split; [intros E; destruct (I0 E) as [Hl _]; lia |].
      intros i Hi. symmetry. apply Ir; [| exact Hi].
      rewrite map_app, nth_error_app2 by (rewrite length_map; lia).
      rewrite length_map, Nat.sub_diag. reflexivity.
Qed.

(** An empty write returns 0 and changes nothing: no store, no command,
    also at the address just past the flash. *)
Theorem FLASHD_Write_nothing dwAddress pvBuffer s :
  IFLASH0_CNC_ADDR <= dwAddress <= IFLASH0_CNC_ADDR + IFLASH_SIZE ->
  pvBuffer <> 0 ->
  FLASHD_Write patience dwAddress pvBuffer 0 s = Done (0, s).
Proof.
  intros HA Hbuf.
  destruct (chip_ok_facts Hok) as (Hb & Hs & Hs2 & Hw & Hd).
  destruct (translate_spec Hok dwAddress HA) as (sefc & page & offset & Ht & _).
  unfold FLASHD_Write, bind, lift, assert. rewrite Ht.
  destruct (Z.eqb_spec pvBuffer 0); [contradiction |]. cbn [negb].
  destruct (Z.leb_spec IFLASH0_CNC_ADDR dwAddress); [| lia].
  rewrite Z.add_0_r, !u32_small by lia.
  destruct (Z.leb_spec dwAddress (IFLASH0_CNC_ADDR + IFLASH_SIZE)); [| lia].
  reflexivity.
Qed.

End MoreWrite.

Section MoreErase.
Context {C : Chip} {K : Controller} {H : Header} {R : ModeRegister K}.
Variable patience : nat.
Hypothesis Hok : chip_ok C = true.

Lemma translate_page A sefc page offset :
  IFLASH0_CNC_ADDR <= A <= IFLASH0_CNC_ADDR + IFLASH_SIZE ->
  SEFC_TranslateAddress A = Done (sefc, page, offset) ->
  valid_sefc sefc
  /\ page = (A - bank_base sefc) / IFLASH_PAGE_SIZE
  /\ offset = (A - bank_base sefc) mod IFLASH_PAGE_SIZE
  /\ 0 <= page <= 4096.
Proof.
  intros HA Ht.
  destruct (chip_ok_facts Hok) as (Hb & Hs & Hs2 & Hw & Hd).
  destruct (translate_spec Hok A HA) as (sefc' & page' & offset' & Ht' & HAeq & Ho & Hp & Hle & Hsefc).
  rewrite Ht in Ht'. inversion Ht'; subst sefc' page' offset'.
  destruct (bank_base_bounds Hok sefc) as [Hbb _].
  unfold IFLASH_PAGE_SIZE. split.
  - unfold valid_sefc. destruct EFC1_defined; auto.
  - repeat split; try lia; Z.div_mod_to_equations; lia.
Qed.

(** FLASHD_Erase hands exactly one command to the controller of the
    address, erase-all with argument 0, and returns what that command
    reports, not mapped to 0 or 1; memory is not touched.  With a single
    controller the address does not matter beyond being accepted. *)
Theorem FLASHD_Erase_command dwAddress s :
  IFLASH0_CNC_ADDR <= dwAddress <= IFLASH0_CNC_ADDR + IFLASH_SIZE ->
  exists sefc page offset,
    SEFC_TranslateAddress dwAddress = Done (sefc, page, offset)
    /\ FLASHD_Erase patience dwAddress s
       = SEFC_PerformCommand patience sefc SEFC_FCMD_EA 0 (_dwUseIAP s) s
    /\ match FLASHD_Erase patience dwAddress s with
       | Done (r, s') =>
           trace s' = trace s
             ++ [command_event sefc (fcr_word SEFC_FCMD_EA 0) (_dwUseIAP s)]
           /\ mem s' = mem s
       | AssertFailed => False
       | Hung => ~ responsive patience
       end
    /\ (EFC1_defined = false ->
        forall other,
          IFLASH0_CNC_ADDR <= other <= IFLASH0_CNC_ADDR + IFLASH_SIZE ->
          FLASHD_Erase patience other s = FLASHD_Erase patience dwAddress s).
Proof.
  intros HA.
  destruct (translate_spec Hok dwAddress HA)
    as (sefc & page & offset & Ht & HAeq & Ho & Hp & Hle & Hsefc).
  destruct (translate_page _ _ _ _ HA Ht) as (Hv & _).
  assert (Hun : forall A sf pg off,
             IFLASH0_CNC_ADDR <= A <= IFLASH0_CNC_ADDR + IFLASH_SIZE ->
             SEFC_TranslateAddress A = Done (sf, pg, off) ->
             FLASHD_Erase patience A s
             = SEFC_PerformCommand patience sf SEFC_FCMD_EA 0 (_dwUseIAP s) s).
  { intros A sf pg off HA' Ht'. unfold FLASHD_Erase, bind, lift, assert.
    rewrite Ht'. destruct (Z.leb_spec IFLASH0_CNC_ADDR A); [| lia]. reflexivity. }
  exists sefc, page, offset. split; [exact Ht |].
  split; [eapply Hun; eauto |]. split.
  - rewrite (Hun _ _ _ _ HA Ht).
    pose proof (SEFC_PerformCommand_frame patience sefc SEFC_FCMD_EA 0 (_dwUseIAP s) s Hv) as F.
    destruct (SEFC_PerformCommand _ _ _ _ _ s) as [[r s'] | |]; auto.
    destruct F as (Ft & Fm & _). auto.
  - intros E other Ho'.
    destruct (translate_spec Hok other Ho')
      as (sefc' & page' & offset' & Ht' & _ & _ & _ & _ & Hsefc').
    rewrite (Hun _ _ _ _ HA Ht), (Hun _ _ _ _ Ho' Ht').
    rewrite (Hsefc E), (Hsefc' E). reflexivity.
Qed.

(** FLASHD_EraseSector hands exactly one command to the controller of the
    address, erase-sector with the number of the page that holds the
    address as argument, and returns what that command reports; memory is
    not touched. *)
Theorem FLASHD_EraseSector_command dwAddress s :
  IFLASH0_CNC_ADDR <= dwAddress <= IFLASH0_CNC_ADDR + IFLASH_SIZE ->
  exists sefc page offset,
    SEFC_TranslateAddress dwAddress = Done (sefc, page, offset)
    /\ page = (dwAddress - bank_base sefc) / IFLASH_PAGE_SIZE
    /\ FLASHD_EraseSector patience dwAddress s
       = SEFC_PerformCommand patience sefc SEFC_FCMD_ES page (_dwUseIAP s) s
    /\ match FLASHD_EraseSector patience dwAddress s with
       | Done (r, s') =>
           trace s' = trace s
             ++ [command_event sefc (fcr_word SEFC_FCMD_ES page) (_dwUseIAP s)]
           /\ mem s' = mem s
       | AssertFailed => False
       | Hung => ~ responsive patience
       end.
Proof.
  intros HA.
  destruct (translate_spec Hok dwAddress HA)
    as (sefc & page & offset & Ht & HAeq & Ho & Hp & Hle & Hsefc).
  destruct (translate_page _ _ _ _ HA Ht) as (Hv & Hpage & _).
  assert (Hun : FLASHD_EraseSector patience dwAddress s
                = SEFC_PerformCommand patience sefc SEFC_FCMD_ES page (_dwUseIAP s) s).
  { unfold FLASHD_EraseSector, bind, lift, assert.
    rewrite Ht. destruct (Z.leb_spec IFLASH0_CNC_ADDR dwAddress); [| lia]. reflexivity. }
  exists sefc, page, offset. split; [exact Ht |]. split; [exact Hpage |].
  split; [exact Hun |]. rewrite Hun.
  pose proof (SEFC_PerformCommand_frame patience sefc SEFC_FCMD_ES page (_dwUseIAP s) s Hv) as F.
  destruct (SEFC_PerformCommand _ _ _ _ _ s) as [[r s'] | |]; auto.
  destruct F as (Ft & Fm & _). auto.
Qed.

Lemma FLASHD_Initialize_spec dwMCk dwUseIAP s :
  exists s',
    FLASHD_Initialize dwMCk dwUseIAP s = Done (tt, s')
    /\ _dwUseIAP s' = dwUseIAP /\ trace s' = trace s /\ mem s' = mem s
    /\ _pdwPageBuffer s' = _pdwPageBuffer s
    /\ hw_st s'
       = (let h0 := hw_set_fmr SEFC0
                      (Z.land (fst (hw_fmr SEFC0 (hw_st s)))
                              (u32 (Z.lnot EEFC_FMR_FRDY)))
                      (snd (hw_fmr SEFC0 (hw_st s))) in
          if EFC1_defined
          then hw_set_fmr EFC1
                 (Z.land (fst (hw_fmr EFC1 h0)) (u32 (Z.lnot EEFC_FMR_FRDY)))
                 (snd (hw_fmr EFC1 h0))
          else h0).
Proof.
  unfold FLASHD_Initialize, bind, SEFC_DisableFrdyIt, ret. cbv zeta.
  destruct (hw_fmr SEFC0 (hw_st s)) as [f0 h0]. cbn [fst snd].
  destruct EFC1_defined.
  - cbn [hw_st set_hw]. destruct (hw_fmr EFC1 _) as [f1 h1]. cbn [fst snd].
    eexists. split; [reflexivity |]. cbn. auto 6.
  - eexists. split; [reflexivity |]. cbn. auto 6.
Qed.

(** FLASHD_Initialize issues no flash command and stores nothing in memory:
    no write of a command register, no call of the ROM routine, no store
    into the write window.  What it does to the controller is to read and
    write the mode register EEFC_FMR of SEFC0, and of EFC1 where there is
    one, clearing the bits of [EEFC_FMR_FRDY] there; [dwMCk] plays no part.
    It records [dwUseIAP] as the path of the commands that follow: after it
    a whole-chip erase is the erase-all request by that path, handed over
    by a write of EEFC_FCR when [dwUseIAP] is 0 and by a call of the ROM
    routine otherwise, whatever the path was before. *)
Theorem FLASHD_Initialize_selects_path dwMCk dwUseIAP dwAddress s :
  IFLASH0_CNC_ADDR <= dwAddress <= IFLASH0_CNC_ADDR + IFLASH_SIZE ->
  exists sefc page offset s1,
    SEFC_TranslateAddress dwAddress = Done (sefc, page, offset)
    /\ FLASHD_Initialize dwMCk dwUseIAP s = Done (tt, s1)
    /\ hw_st s1
       = (let h0 := hw_set_fmr SEFC0
                      (Z.land (fst (hw_fmr SEFC0 (hw_st s)))
                              (u32 (Z.lnot EEFC_FMR_FRDY)))
                      (snd (hw_fmr SEFC0 (hw_st s))) in
          if EFC1_defined
          then hw_set_fmr EFC1
                 (Z.land (fst (hw_fmr EFC1 h0)) (u32 (Z.lnot EEFC_FMR_FRDY)))
                 (snd (hw_fmr EFC1 h0))
          else h0)
    /\ _dwUseIAP s1 = dwUseIAP /\ trace s1 = trace s /\ mem s1 = mem s
    /\ match FLASHD_Erase patience dwAddress s1 with
       | Done (r, s') =>
           SEFC_PerformCommand patience sefc SEFC_FCMD_EA 0 dwUseIAP s1
           = Done (r, s')
           /\ _dwUseIAP s' = dwUseIAP /\ mem s' = mem s
           /\ trace s' = trace s
                ++ [if dwUseIAP =? 0
                    then EvFCR sefc
                           (Z.lor (Z.lor EEFC_FCR_FKEY_PASSWD (EEFC_FCR_FARG 0))
                                  (Z.land EEFC_FCR_FCMD_Msk
                                          (Z.shiftl SEFC_FCMD_EA EEFC_FCR_FCMD_Pos)))
                    else EvIAP (if Sefc_eqb sefc SEFC0 then 0 else 1)
                           (Z.lor (Z.lor EEFC_FCR_FKEY_PASSWD (EEFC_FCR_FARG 0))
                                  (Z.land EEFC_FCR_FCMD_Msk
                                          (Z.shiftl SEFC_FCMD_EA EEFC_FCR_FCMD_Pos)))]
       | AssertFailed => False
       | Hung => ~ responsive patience
       end.
Proof.
  intros HA.
  destruct (translate_spec Hok dwAddress HA)
    as (sefc & page & offset & Ht & HAeq & Ho & Hp & Hle & Hsefc).
  destruct (translate_page _ _ _ _ HA Ht) as (Hv & _).
  destruct (FLASHD_Initialize_spec dwMCk dwUseIAP s)
    as (s1 & E & Hu & Htr & Hm & _ & Hhw).
  exists sefc, page, offset, s1. split; [exact Ht |]. split; [exact E |].
  split; [exact Hhw |]. split; [exact Hu |]. split; [exact Htr |].
  split; [exact Hm |].
  unfold FLASHD_Erase, bind, lift, assert. rewrite Ht.
  destruct (Z.leb_spec IFLASH0_CNC_ADDR dwAddress); [| lia]. cbn [orb].
  pose proof (SEFC_PerformCommand_frame patience sefc SEFC_FCMD_EA 0 (_dwUseIAP s1) s1 Hv) as F.
  rewrite Hu in *.
  destruct (SEFC_PerformCommand _ _ _ _ _ s1) as [[r s'] | |]; auto.
  destruct F as (Ft & Fm & _ & Fu).
  split; [reflexivity |].
  rewrite Fu, Fm, Hm, Ft, Htr. unfold command_event, fcr_word, EEFC_FCR_FCMD.
  destruct (dwUseIAP =? 0); cbn [negb]; repeat split; reflexivity.
Qed.

End MoreErase.

Section MoreLockBits.
Context {C : Chip} {K : Controller}.
Variable patience : nat.
Hypothesis Hok : chip_ok C = true.

Lemma read_status_spec n sefc :
  forall s, exists ws s',
    read_status n sefc s = Done (ws, s')
    /\ length ws = n /\ trace s' = trace s /\ mem s' = mem s
    /\ _dwUseIAP s' = _dwUseIAP s.
Proof.
  induction n as [| n IH]; intros s.
  - exists [], s. repeat split; reflexivity.
  - cbn [read_status]. unfold bind at 1. unfold SEFC_GetResult.
    destruct (hw_frr sefc (hw_st s)) as [v h].
    destruct (IH (set_hw h s)) as (ws & s' & E & Hl & Ht & Hm & Hu).
    unfold bind. rewrite E. unfold ret.
    exists (v :: ws), s'. cbn [length]. repeat split; auto.
Qed.

Lemma locked_between_succ status a n :
  locked_between status a (S n)
  = ((if lock_bit status a then 1 else 0) + locked_between status (a + 1) n)%nat.
Proof.
  unfold locked_between. cbn [cursors filter].
  destruct (lock_bit status a); reflexivity.
Qed.

Lemma locked_between_le status a n : (locked_between status a n <= n)%nat.
Proof.
  unfold locked_between.
  rewrite <- (cursors_length n a 1) at 2. apply filter_length_le.
Qed.

(** The counting loop on region numbers that fit eight bits. *)
Lemma count_locked_spec status endRegion k :
  endRegion <= 255 ->
  forall startRegion c,
    0 <= startRegion -> 0 <= c ->
    c + (endRegion - startRegion) < 4294967296 ->
    (Z.to_nat (endRegion - startRegion) < k)%nat ->
    count_locked k status startRegion endRegion c
    = Done (c + Z.of_nat (locked_between status startRegion
                            (Z.to_nat (endRegion - startRegion)))).
Proof.
  intros He. induction k as [| k IH]; intros a c Ha Hc Hsum Hk; [lia |].
  cbn [count_locked]. destruct (Z.ltb_spec a endRegion) as [Hlt | Hge].
  - assert (Hn : Z.to_nat (endRegion - a) = S (Z.to_nat (endRegion - (a + 1)))) by lia.
    rewrite Hn, locked_between_succ.
    pose proof (Z.mod_pos_bound a 32 ltac:(lia)) as Hj.
    assert (0 <= a / 32 < 8) by (Z.div_mod_to_equations; lia).
    rewrite (u32_small (a / 32)), (u32_small (a mod 32)) by lia.
    assert (Hpow : 0 <= Z.shiftl 1 (a mod 32) < 4294967296).
    { rewrite Z.shiftl_1_l. split; [apply Z.pow_nonneg; lia |].
      change 4294967296 with (2 ^ 32). apply Z.pow_lt_mono_r; lia. }
    rewrite (u32_small (Z.shiftl 1 (a mod 32))) by exact Hpow.
    rewrite land_bit_testbit by lia.
    fold (lock_bit status a).
    unfold u8. rewrite (Z.mod_small (a + 1) 256) by lia.
    pose proof (locked_between_le status (a + 1) (Z.to_nat (endRegion - (a + 1)))) as Hle.
    destruct (lock_bit status a).
    + rewrite u32_small by lia. rewrite IH by lia. f_equal. lia.
    + rewrite IH by lia. f_equal.
  - replace (Z.to_nat (endRegion - a)) with 0%nat by lia.
    unfold locked_between. cbn. f_equal. lia.
Qed.

(** FLASHD_IsLocked on a range its assertions accept: one get-lock-bits
    command, eight reads of the result register, and the count of the code's
    eight-bit region numbers. *)
Lemma FLASHD_IsLocked_run start end_ s :
  IFLASH0_CNC_ADDR <= start -> start <= end_ ->
  end_ <= IFLASH0_CNC_ADDR + IFLASH_SIZE ->
  exists sefc sp so sefc' ep eo,
    SEFC_TranslateAddress start = Done (sefc, sp, so)
    /\ SEFC_TranslateAddress end_ = Done (sefc', ep, eo)
    /\ start = bank_base sefc + sp * 512 + so /\ 0 <= so < 512 /\ 0 <= sp <= 4096
    /\ end_ = bank_base sefc' + ep * 512 + eo /\ 0 <= eo < 512 /\ 0 <= ep <= 4096
    /\ (EFC1_defined = false -> sefc = SEFC0 /\ sefc' = SEFC0)
    /\ match FLASHD_IsLocked patience start end_ s with
       | Done (n, s') =>
           exists r0 s0 status,
             SEFC_PerformCommand patience sefc SEFC_FCMD_GLB 0 (_dwUseIAP s) s
             = Done (r0, s0)
             /\ read_status 8 sefc s0 = Done (status, s')
             /\ length status = 8%nat
             /\ (let sR := u8 (sp / 16) in
                 let eR := if negb (ep mod 16 =? 0)
                           then u8 (u8 (ep / 16) + 1) else u8 (ep / 16) in
                 n = Z.of_nat (locked_between status sR (Z.to_nat (eR - sR))))
             /\ trace s' = trace s
                  ++ [command_event sefc (fcr_word SEFC_FCMD_GLB 0) (_dwUseIAP s)]
             /\ mem s' = mem s
       | AssertFailed => False
       | Hung => ~ responsive patience
       end.
Proof.
  intros H1 H2 H3.
  destruct (chip_ok_facts Hok) as (Hb & Hs & Hs2 & Hw & Hd).
  destruct (translate_spec Hok start ltac:(lia))
    as (sefc & sp & so & Hts & HSeq & Hso & Hsp & Hles & Hss).
  destruct (translate_spec Hok end_ ltac:(lia))
    as (sefc' & ep & eo & Hte & HEeq & Hoe & Hpe & Hlee & Hse).
  destruct (bank_base_bounds Hok sefc) as [Hbs _].
  destruct (bank_base_bounds Hok sefc') as [Hbe _].
  exists sefc, sp, so, sefc', ep, eo.
  split; [exact Hts |]. split; [exact Hte |].
  split; [exact HSeq |]. split; [exact Hso |]. split; [lia |].
  split; [exact HEeq |]. split; [exact Hoe |]. split; [lia |].
  split; [intros E; split; auto |].
  assert (Hv : valid_sefc sefc).
  { unfold valid_sefc. destruct EFC1_defined; auto. }
  unfold FLASHD_IsLocked, bind, lift, assert.
  destruct (Z.leb_spec start end_); [| lia].
  rewrite (u32_small (IFLASH0_CNC_ADDR + IFLASH_SIZE)) by lia.
  destruct (Z.leb_spec IFLASH0_CNC_ADDR start); [| lia].
  destruct (Z.leb_spec end_ (IFLASH0_CNC_ADDR + IFLASH_SIZE)); [| lia].
  cbn [andb]. rewrite Hts, Hte.
  change (IFLASH_LOCK_REGION_SIZE / IFLASH_PAGE_SIZE) with 16.
  change (Z.to_nat (IFLASH_NB_OF_LOCK_BITS / 32)) with 8%nat.
  pose proof (SEFC_PerformCommand_frame patience sefc SEFC_FCMD_GLB 0 (_dwUseIAP s) s Hv) as F.
  destruct (SEFC_PerformCommand _ _ _ _ _ s) as [[r0 s0] | |] eqn:P; auto.
  destruct F as (Ft & Fm & _ & Fu).
  destruct (read_status_spec 8 sefc s0) as (status & s' & E & Hl & Rt & Rm & Ru).
  rewrite E.
  set (sR := u8 (sp / 16)).
  set (eR := if negb (ep mod 16 =? 0) then u8 (u8 (ep / 16) + 1) else u8 (ep / 16)).
  assert (HsR : 0 <= sR <= 255) by (subst sR; unfold u8; Z.div_mod_to_equations; lia).
  assert (HeR : 0 <= eR <= 255).
  { subst eR. destruct (negb _); unfold u8; Z.div_mod_to_equations; lia. }
  rewrite (count_locked_spec status eR 256 ltac:(lia) sR 0) by lia.
  exists r0, s0, status.
  split; [reflexivity |]. split; [exact E |]. split; [exact Hl |].
  split; [cbv zeta; fold sR; fold eR; lia |].
  split; [congruence |]. congruence.
Qed.

(** For a range whose end page is at most 4080, the last page of the
    last-but-one lock region, FLASHD_IsLocked returns the number of set lock
    bits, in the eight words it read after its one get-lock-bits command,
    among the regions from the one of the start page up to, and not
    including, the end page rounded up to a region; the count is at most
    the number of these regions.  The end counts by its page only: a last
    region that the range reaches within its first page alone is not among
    them.  Memory is not touched. *)
Theorem FLASHD_IsLocked_count start end_ s :
  IFLASH0_CNC_ADDR <= start -> start <= end_ ->
  end_ <= IFLASH0_CNC_ADDR + IFLASH_SIZE ->
  start < IFLASH0_CNC_ADDR + IFLASH_SIZE ->
  exists sefc sp so sefc' ep eo,
    SEFC_TranslateAddress start = Done (sefc, sp, so)
    /\ SEFC_TranslateAddress end_ = Done (sefc', ep, eo)
    /\ match FLASHD_IsLocked patience start end_ s with
       | Done (n, s') =>
           trace s' = trace s
             ++ [command_event sefc (fcr_word SEFC_FCMD_GLB 0) (_dwUseIAP s)]
           /\ mem s' = mem s
           /\ exists r0 s0 status,
               SEFC_PerformCommand patience sefc SEFC_FCMD_GLB 0 (_dwUseIAP s) s
               = Done (r0, s0)
               /\ read_status 8 sefc s0 = Done (status, s')
               /\ (ep <= 4080 ->
                   n = Z.of_nat (locked_between status (sp / 16)
                                   (Z.to_nat ((ep + 15) / 16 - sp / 16)))
                   /\ 0 <= n <= Z.max 0 ((ep + 15) / 16 - sp / 16))
       | AssertFailed => False
       | Hung => ~ responsive patience
       end.
Proof.
  intros H1 H2 H3 H4.
  destruct (chip_ok_facts Hok) as (Hb & Hs & Hs2 & Hw & Hd).
  destruct (FLASHD_IsLocked_run start end_ s H1 H2 H3)
    as (sefc & sp & so & sefc' & ep & eo & Hts & Hte & HSeq & Hso & Hsp
        & HEeq & Heo & Hep & _ & Hrun).
  destruct (bank_base_bounds Hok sefc) as [Hbs _].
  exists sefc, sp, so, sefc', ep, eo. split; [exact Hts |]. split; [exact Hte |].
  destruct (FLASHD_IsLocked patience start end_ s) as [[n s'] | |]; auto.
  destruct Hrun as (r0 & s0 & status & P & E & Hl & Hn & Ht & Hm).
  split; [exact Ht |]. split; [exact Hm |].
  exists r0, s0, status. split; [exact P |]. split; [exact E |].
  intros Hep'. cbv zeta in Hn.
  assert (Hsp' : sp <= 4095) by lia.
  assert (HsR : u8 (sp / 16) = sp / 16)
    by (unfold u8; apply Z.mod_small; Z.div_mod_to_equations; lia).
  assert (HeR : (if negb (ep mod 16 =? 0) then u8 (u8 (ep / 16) + 1) else u8 (ep / 16))
                = (ep + 15) / 16).
  { destruct (Z.eqb_spec (ep mod 16) 0); cbn [negb]; unfold u8.
    - rewrite Z.mod_small by (Z.div_mod_to_equations; lia).
      Z.div_mod_to_equations; lia.
    - rewrite (Z.mod_small (ep / 16)) by (Z.div_mod_to_equations; lia).
      rewrite Z.mod_small by (Z.div_mod_to_equations; lia).
      Z.div_mod_to_equations; lia. }
  rewrite HsR, HeR in Hn. split; [exact Hn |].
  pose proof (locked_between_le status (sp / 16)
                (Z.to_nat ((ep + 15) / 16 - sp / 16))) as Hle.
  lia.
Qed.

(** With a single controller, for a range that ends beyond page 4080, in
    the last lock region or at the end of a flash of [IFLASH_NB_OF_PAGES]
    pages, FLASHD_IsLocked returns 0 whatever the lock bits are: the end
    region number, kept in eight bits, has wrapped to 0. *)
Theorem FLASHD_IsLocked_last_region start end_ s :
  EFC1_defined = false ->
  IFLASH0_CNC_ADDR <= start -> start <= end_ ->
  end_ <= IFLASH0_CNC_ADDR + IFLASH_SIZE ->
  IFLASH0_CNC_ADDR + 4081 * IFLASH_PAGE_SIZE <= end_ ->
  match FLASHD_IsLocked patience start end_ s with
  | Done (n, s') => n = 0
  | AssertFailed => False
  | Hung => ~ responsive patience
  end.
Proof.
  unfold IFLASH_PAGE_SIZE. intros Hsingle H1 H2 H3 H4.
  destruct (chip_ok_facts Hok) as (Hb & Hs & Hs2 & Hw & Hd).
  destruct (FLASHD_IsLocked_run start end_ s H1 H2 H3)
    as (sefc & sp & so & sefc' & ep & eo & Hts & Hte & HSeq & Hso & Hsp
        & HEeq & Heo & Hep & Hsefc & Hrun).
  destruct (Hsefc Hsingle) as [-> ->].
  assert (Hbase : bank_base SEFC0 = IFLASH0_CNC_ADDR)
    by (unfold bank_base; rewrite Hsingle; reflexivity).
  rewrite Hbase in *.
  destruct (FLASHD_IsLocked patience start end_ s) as [[n s'] | |]; auto.
  destruct Hrun as (r0 & s0 & status & P & E & Hl & Hn & Ht & Hm).
  cbv zeta in Hn.
  assert (HeR : (if negb (ep mod 16 =? 0) then u8 (u8 (ep / 16) + 1) else u8 (ep / 16))
                = 0).
  { assert (4081 <= ep <= 4096) by lia.
    destruct (Z.eqb_spec (ep mod 16) 0); cbn [negb]; unfold u8.
    - assert (ep = 4096) by (Z.div_mod_to_equations; lia). subst ep. reflexivity.
    - assert (ep / 16 = 255) by (Z.div_mod_to_equations; lia).
      rewrite H0. reflexivity. }
  rewrite HeR in Hn.
  assert (0 <= u8 (sp / 16)) by (unfold u8; Z.div_mod_to_equations; lia).
  replace (Z.to_nat (0 - u8 (sp / 16))) with 0%nat in Hn by lia.
  exact Hn.
Qed.

End MoreLockBits.

Section MoreGPNVM.
Context {C : Chip} {K : Controller}.
Variable patience : nat.

(** Bus writes of FLASHD_SetGPNVM: the query, then possibly the set
    command; both by the path selected in the state. *)
Lemma FLASHD_SetGPNVM_frame i s :
  0 <= i < GPNVM_NUM_MAX ->
  match FLASHD_SetGPNVM patience i s with
  | Done (e, s') =>
      (trace s' = trace s
         ++ [command_event SEFC0 (fcr_word SEFC_FCMD_GGPB 0) (_dwUseIAP s)]
       \/ trace s' = trace s
            ++ [command_event SEFC0 (fcr_word SEFC_FCMD_GGPB 0) (_dwUseIAP s);
                command_event SEFC0 (fcr_word SEFC_FCMD_SGPB i) (_dwUseIAP s)])
      /\ mem s' = mem s /\ _dwUseIAP s' = _dwUseIAP s
  | AssertFailed => False
  | Hung => ~ responsive patience
  end.
Proof.
  intros Hi.
  assert (Hv : valid_sefc SEFC0) by (left; reflexivity).
  unfold FLASHD_SetGPNVM, bind, lift, assert.
  destruct (Z.ltb_spec i GPNVM_NUM_MAX); [| lia].
  rewrite IsGPNVMSet_unfold by lia.
  pose proof (SEFC_PerformCommand_frame patience SEFC0 SEFC_FCMD_GGPB 0
                (_dwUseIAP s) s Hv) as F.
  destruct (SEFC_PerformCommand _ _ _ _ _ s) as [[r s1] | |]; auto.
  destruct F as (Ft & Fm & _ & Fu).
  destruct (hw_frr SEFC0 (hw_st s1)) as [v h].
  destruct (negb (Z.land v (Z.shiftl 1 i) =? 0)); cbn [Z.eqb].
  - unfold ret. cbn. auto.
  - pose proof (SEFC_PerformCommand_frame patience SEFC0 SEFC_FCMD_SGPB i
                  (_dwUseIAP (set_hw h s1)) (set_hw h s1) Hv) as G.
    destruct (SEFC_PerformCommand _ _ _ _ _ (set_hw h s1)) as [[e s2] | |]; auto.
    destruct G as (Gt & Gm & _ & Gu). cbn [trace mem _dwUseIAP set_hw] in Gt, Gm, Gu.
    split; [right; rewrite Gt, Ft, Fu, <- app_assoc; reflexivity |].
    split; congruence.
Qed.

End MoreGPNVM.

Section Adapter.
Context {C : Chip} {K : Controller} {H : Header} {R : ModeRegister K}.
Variable patience : nat.
Hypothesis Hok : chip_ok C = true.

(** Init selects the register path, sets the two boot-mode bits and
    reports only on the second: it returns 0 and records [adr] when the
    set of GPNVM bit 6 returned 0, and returns 1 and keeps the recorded
    address when it did not, whatever the set of bit 5 returned.  It never
    fails an assertion, issues between two and four commands, all by writes
    of the command register of SEFC0, and leaves memory alone. *)
Theorem Init_result adr clk fnc p :
  match Init patience adr clk fnc p with
  | Done (r, p') =>
      _dwUseIAP (drv p') = 0 /\ mem (drv p') = mem (drv p)
      /\ (exists evs,
             trace (drv p') = trace (drv p) ++ evs
             /\ Forall (fun e => exists w, e = EvFCR SEFC0 w) evs
             /\ (2 <= length evs <= 4)%nat)
      /\ exists s0 e1 s1 e2,
          FLASHD_Initialize 0 0 (drv p) = Done (tt, s0)
          /\ FLASHD_SetGPNVM patience GPNVM_BOOT_MODE_BIT0 s0 = Done (e1, s1)
          /\ FLASHD_SetGPNVM patience GPNVM_BOOT_MODE_BIT1 s1 = Done (e2, drv p')
          /\ (e2 = 0 -> r = 0 /\ dev_base_adr p' = adr)
          /\ (e2 <> 0 -> r = 1 /\ dev_base_adr p' = dev_base_adr p)
  | AssertFailed => False
  | Hung => ~ responsive patience
  end.
Proof.
  unfold Init.
  destruct (FLASHD_Initialize_spec 0 0 (drv p)) as (s0 & E0 & Hu0 & Ht0 & Hm0 & _).
  unfold bind at 1. rewrite E0. unfold bind at 1.
  pose proof (FLASHD_SetGPNVM_frame patience GPNVM_BOOT_MODE_BIT0 s0
                ltac:(unfold GPNVM_BOOT_MODE_BIT0, GPNVM_NUM_MAX; lia)) as F1.
  destruct (FLASHD_SetGPNVM patience GPNVM_BOOT_MODE_BIT0 s0)
    as [[e1 s1] | |] eqn:E1; auto.
  destruct F1 as (T1 & M1 & U1).
  unfold bind at 1.
  pose proof (FLASHD_SetGPNVM_frame patience GPNVM_BOOT_MODE_BIT1 s1
                ltac:(unfold GPNVM_BOOT_MODE_BIT1, GPNVM_NUM_MAX; lia)) as F2.
  destruct (FLASHD_SetGPNVM patience GPNVM_BOOT_MODE_BIT1 s1)
    as [[e2 s2] | |] eqn:E2; auto.
  destruct F2 as (T2 & M2 & U2).
  unfold ret.
  assert (Hpath : _dwUseIAP s1 = 0 /\ _dwUseIAP s2 = 0) by (split; congruence).
  destruct Hpath as [P1 P2].
  assert (Hev : exists evs,
             trace s2 = trace (drv p) ++ evs
             /\ Forall (fun e => exists w, e = EvFCR SEFC0 w) evs
             /\ (2 <= length evs <= 4)%nat).
  { rewrite P1 in T2. rewrite Hu0 in T1. unfold command_event in T1, T2.
    cbn [Z.eqb negb] in T1, T2.
    destruct T1 as [T1 | T1], T2 as [T2 | T2]; rewrite T2, T1, Ht0, <- app_assoc;
      eexists; (split; [reflexivity |]); cbn [app length];
      (split; [repeat constructor; eexists; reflexivity | lia]). }
  assert (Hmem : mem s2 = mem (drv p)) by congruence.
  destruct (Z.eqb_spec e2 0) as [-> | Hne]; cbn [negb drv dev_base_adr].
  - split; [exact P2 |]. split; [exact Hmem |]. split; [exact Hev |].
    exists s0, e1, s1, 0.
    split; [first [exact E0 | reflexivity] |].
    split; [exact E1 |]. split; [exact E2 |].
    split; [intros _; split; reflexivity | intros Hne; contradiction].
  - split; [exact P2 |]. split; [exact Hmem |]. split; [exact Hev |].
    exists s0, e1, s1, e2.
    split; [first [exact E0 | reflexivity] |].
    split; [exact E1 |]. split; [exact E2 |].
    split; [intros E; contradiction | intros _; split; reflexivity].
Qed.

(** EraseChip erases at the address Init recorded.  While that address is
    below the flash, as the initial 0 is on a part whose flash does not
    start at 0, or beyond its end, the call dies in the assertion of the
    address translation.  Otherwise it hands one erase-all command over and
    returns the controller's own code, not 0 or 1. *)
Theorem EraseChip_result p :
  (dev_base_adr p < IFLASH0_CNC_ADDR
   \/ IFLASH0_CNC_ADDR + IFLASH_SIZE < dev_base_adr p ->
   EraseChip patience p = AssertFailed)
  /\ (IFLASH0_CNC_ADDR <= dev_base_adr p <= IFLASH0_CNC_ADDR + IFLASH_SIZE ->
      exists sefc page offset,
        SEFC_TranslateAddress (dev_base_adr p) = Done (sefc, page, offset)
        /\ match EraseChip patience p with
           | Done (r, p') =>
               dev_base_adr p' = dev_base_adr p
               /\ SEFC_PerformCommand patience sefc SEFC_FCMD_EA 0
                    (_dwUseIAP (drv p)) (drv p) = Done (r, drv p')
           | AssertFailed => False
           | Hung => ~ responsive patience
           end).
Proof.
  destruct (chip_ok_facts Hok) as (Hb & Hs & Hs2 & Hw & Hd).
  split.
  - intros Hout. unfold EraseChip, FLASHD_Erase, bind, lift.
    assert (Ht : SEFC_TranslateAddress (dev_base_adr p) = AssertFailed).
    { unfold SEFC_TranslateAddress, obind, assert.
      rewrite (u32_small (IFLASH0_CNC_ADDR + IFLASH_SIZE)) by lia.
      destruct (Z.leb_spec IFLASH0_CNC_ADDR (dev_base_adr p)); [| reflexivity].
      destruct (Z.leb_spec (dev_base_adr p) (IFLASH0_CNC_ADDR + IFLASH_SIZE));
        [lia | reflexivity]. }
    rewrite Ht. unfold assert. destruct (orb _ _); reflexivity.
  - intros Hin.
    destruct (translate_spec Hok _ Hin)
      as (sefc & page & offset & Ht & HAeq & Ho & Hp & Hle & Hsefc).
    assert (Hv : valid_sefc sefc).
    { unfold valid_sefc. destruct EFC1_defined; auto. }
    exists sefc, page, offset. split; [exact Ht |].
    unfold EraseChip, FLASHD_Erase, bind, lift, assert. rewrite Ht.
    destruct (Z.leb_spec IFLASH0_CNC_ADDR (dev_base_adr p)); [| lia]. cbn [orb].
    pose proof (SEFC_PerformCommand_frame patience sefc SEFC_FCMD_EA 0
                  (_dwUseIAP (drv p)) (drv p) Hv) as F.
    destruct (SEFC_PerformCommand _ _ _ _ _ (drv p)) as [[r s'] | |]; auto.
Qed.

Lemma memcmp_zero_iff m n :
  forall a b,
    memcmp m a b n = 0 <->
    (forall i, 0 <= i < Z.of_nat n -> load8 m (a + i) = load8 m (b + i)).
Proof.
  induction n as [| n IH]; intros a b.
  - split; [intros _ i Hi; lia | reflexivity].
  - cbn [memcmp]. destruct (Z.eqb_spec (load8 m a) (load8 m b)) as [E | E].
    + rewrite IH. split.
      * intros Hall i Hi. destruct (Z.eq_dec i 0) as [-> | Hne].
        -- rewrite !Z.add_0_r. exact E.
        -- specialize (Hall (i - 1) ltac:(lia)).
           replace (a + 1 + (i - 1)) with (a + i) in Hall by lia.
           replace (b + 1 + (i - 1)) with (b + i) in Hall by lia. exact Hall.
      * intros Hall i Hi. specialize (Hall (i + 1) ltac:(lia)).
        replace (a + (i + 1)) with (a + 1 + i) in Hall by lia.
        replace (b + (i + 1)) with (b + 1 + i) in Hall by lia. exact Hall.
    + split; [lia |]. intros Hall. exfalso. apply E.
      specialize (Hall 0 ltac:(lia)). rewrite !Z.add_0_r in Hall. exact Hall.
Qed.

(** Verify returns the address just past the range, computed in 32 bits,
    when the [sz] bytes at [adr] and at [buf] agree, and [adr] itself as
    soon as one pair differs: not the address of the difference.  For an
    empty range the two answers coincide. *)
Theorem Verify_result adr sz buf p :
  ((forall i, 0 <= i < sz ->
      load8 (mem (drv p)) (adr + i) = load8 (mem (drv p)) (buf + i)) ->
   Verify adr sz buf p = u32 (adr + sz))
  /\ ((exists i, 0 <= i < sz
                 /\ load8 (mem (drv p)) (adr + i) <> load8 (mem (drv p)) (buf + i)) ->
      Verify adr sz buf p = adr)
  /\ (0 <= adr < 4294967296 -> Verify adr 0 buf p = adr).
Proof.
  unfold Verify. split; [| split].
  - intros Hall.
    destruct (Z.eqb_spec (memcmp (mem (drv p)) adr buf (Z.to_nat sz)) 0) as [_ | Hne];
      [reflexivity |].
    exfalso. apply Hne. apply memcmp_zero_iff. intros i Hi. apply Hall. lia.
  - intros (i & Hi & Hd).
    destruct (Z.eqb_spec (memcmp (mem (drv p)) adr buf (Z.to_nat sz)) 0) as [E | _];
      [| reflexivity].
    exfalso. apply Hd. rewrite memcmp_zero_iff in E. apply E. lia.
  - intros Ha. cbn. rewrite Z.add_0_r. apply u32_small. exact Ha.
Qed.

End Adapter.

Section MoreAdapter.
Context {C : Chip} {K : Controller}.
Variable patience : nat.
Hypothesis Hok : chip_ok C = true.

Lemma translate_single A :
  EFC1_defined = false ->
  IFLASH0_CNC_ADDR <= A <= IFLASH0_CNC_ADDR + IFLASH_SIZE ->
  SEFC_TranslateAddress A
  = Done (SEFC0, (A - IFLASH0_CNC_ADDR) / 512, (A - IFLASH0_CNC_ADDR) mod 512).
Proof.
  intros He HA.
  destruct (translate_spec Hok A HA)
    as (sefc & page & offset & Ht & HAeq & Ho & Hp & Hle & Hs).
  rewrite Ht. rewrite (Hs He) in *. unfold bank_base in HAeq. rewrite He in HAeq.
  assert (E1 : page = (A - IFLASH0_CNC_ADDR) / 512) by (Z.div_mod_to_equations; lia).
  assert (E2 : offset = (A - IFLASH0_CNC_ADDR) mod 512) by (Z.div_mod_to_equations; lia).
  rewrite <- E1, <- E2. reflexivity.
Qed.

Lemma ComputeLockRange_sector k adr :
  EFC1_defined = false -> 0 <= k ->
  adr = IFLASH0_CNC_ADDR + k * 131072 ->
  adr + 131072 <= IFLASH0_CNC_ADDR + IFLASH_SIZE ->
  ComputeLockRange adr (adr + 131071) = Done (adr, adr + 131072).
Proof.
  intros He Hk Hadr Hfit.
  destruct (chip_ok_facts Hok) as (Hb & Hs & Hs2 & Hw & Hd).
  unfold ComputeLockRange.
  rewrite !(translate_single _ He) by lia. cbn [obind].
  unfold IFLASH_LOCK_REGION_SIZE, IFLASH_PAGE_SIZE.
  change (u16 (8192 / 512)) with 16. cbv zeta.
  replace ((adr - IFLASH0_CNC_ADDR) / 512) with (k * 256)
    by (Z.div_mod_to_equations; lia).
  replace ((adr + 131071 - IFLASH0_CNC_ADDR) / 512) with (k * 256 + 255)
    by (Z.div_mod_to_equations; lia).
  replace ((k * 256) mod 16) with 0 by (Z.div_mod_to_equations; lia).
  replace ((k * 256 + 255) mod 16) with 15 by (Z.div_mod_to_equations; lia).
  cbn [Z.eqb negb]. rewrite !u16_small by lia.
  rewrite !(compute_spec Hok) by lia. cbn [obind].
  unfold bank_base. rewrite He. f_equal. f_equal; lia.
Qed.

Lemma region_run_mem dwCommand sefc ps s es r s' :
  valid_sefc sefc ->
  region_run patience dwCommand sefc ps s es r s' -> mem s' = mem s.
Proof.
  intros Hv. induction 1 as [s | p ps s e s1 Hp He | p ps s s1 es r s' Hp Hr IH].
  - reflexivity.
  - pose proof (SEFC_PerformCommand_frame patience sefc dwCommand p (_dwUseIAP s) s Hv) as F.
    rewrite Hp in F. destruct F as (_ & Fm & _). exact Fm.
  - pose proof (SEFC_PerformCommand_frame patience sefc dwCommand p (_dwUseIAP s) s Hv) as F.
    rewrite Hp in F. destruct F as (_ & Fm & _). congruence.
Qed.

(** EraseSector on sector [k] of a single-controller part whose flash lies
    below 0x02000000: sixteen clear-lock-bit commands go out, for the pages
    256 k, 256 k + 16, ... of the sector, up to the first that reports an
    error; only when all sixteen reported 0 does the erase-sector command
    follow, with page 256 k.  The result is 0 when every command reported 0
    and 1 otherwise; memory and the recorded base address are untouched. *)
Theorem EraseSector_result k adr p :
  EFC1_defined = false -> 0 <= k ->
  adr = IFLASH0_CNC_ADDR + k * 131072 ->
  adr + 131072 <= IFLASH0_CNC_ADDR + IFLASH_SIZE ->
  IFLASH0_CNC_ADDR + IFLASH_SIZE <= 33554432 ->
  match EraseSector patience adr p with
  | Done (r, p') =>
      dev_base_adr p' = dev_base_adr p /\ mem (drv p') = mem (drv p)
      /\ exists es ru s1,
          region_run patience SEFC_FCMD_CLB SEFC0 (cursors 16 (k * 256) 16)
                     (drv p) es ru s1
          /\ (ru <> 0 ->
              r = 1 /\ drv p' = s1
              /\ trace s1 = trace (drv p)
                   ++ map (fun pg => command_event SEFC0 (fcr_word SEFC_FCMD_CLB pg)
                                                   (_dwUseIAP (drv p)))
                          (firstn (length es) (cursors 16 (k * 256) 16)))
          /\ (ru = 0 ->
              exists e,
                SEFC_PerformCommand patience SEFC0 SEFC_FCMD_ES (k * 256)
                                    (_dwUseIAP s1) s1 = Done (e, drv p')
                /\ r = (if e =? 0 then 0 else 1)
                /\ trace (drv p') = trace (drv p)
                     ++ map (fun pg => command_event SEFC0 (fcr_word SEFC_FCMD_CLB pg)
                                                     (_dwUseIAP (drv p)))
                            (cursors 16 (k * 256) 16)
                     ++ [command_event SEFC0 (fcr_word SEFC_FCMD_ES (k * 256))
                                       (_dwUseIAP (drv p))])
  | AssertFailed => False
  | Hung => ~ responsive patience
  end.
Proof.
  intros He Hk Hadr Hfit Htop.
  destruct (chip_ok_facts Hok) as (Hb & Hs & Hs2 & Hw & Hd).
  assert (Hv : valid_sefc SEFC0) by (left; reflexivity).
  unfold EraseSector.
  change 33554431 with (Z.ones 25). rewrite Z.land_ones by lia.
  change (2 ^ 25) with 33554432. rewrite (Z.mod_small adr) by lia.
  replace (adr + 131072 - 1) with (adr + 131071) by lia.
  rewrite (u32_small (adr + 131071)) by lia.
  pose proof (lock_or_unlock_spec patience Hok SEFC_FCMD_CLB adr (adr + 131071)
                None None (drv p) ltac:(lia) ltac:(lia) ltac:(lia)) as L.
  change (lock_or_unlock patience SEFC_FCMD_CLB) with (FLASHD_Unlock patience) in L.
  destruct L as (aS & aE & pSefc & sp & ep & Hc & Hts & _ & L).
  rewrite (ComputeLockRange_sector k adr He Hk Hadr Hfit) in Hc.
  injection Hc as <- <-.
  rewrite (translate_single adr He ltac:(lia)) in Hts.
  injection Hts as <- <- _.
  replace ((adr - IFLASH0_CNC_ADDR) / 512) with (k * 256) in *
    by (Z.div_mod_to_equations; lia).
  cbv zeta in L. destruct L as (Hn & L). specialize (Hn He).
  unfold IFLASH_LOCK_REGION_SIZE in Hn.
  assert (En : Z.to_nat ((ep - k * 256 + 15) / 16) = 16%nat) by lia.
  rewrite En in L.
  destruct (FLASHD_Unlock patience adr (adr + 131071) None None (drv p))
    as [[[[ru oS] oE] s1] | |]; auto.
  destruct L as (_ & _ & es & Hrun & Htr & Hlen & H0 & H1).
  pose proof (region_run_mem _ _ _ _ _ _ _ Hv Hrun) as Hm1.
  destruct (region_run_facts patience _ _ _ _ _ _ _ Hv Hrun) as (_ & Hu1 & _).
  destruct (Z.eqb_spec ru 0) as [-> | Hne]; cbn [negb].
  - unfold FLASHD_EraseSector, bind, lift, assert.
    rewrite (translate_single adr He ltac:(lia)).
    replace ((adr - IFLASH0_CNC_ADDR) / 512) with (k * 256)
      by (Z.div_mod_to_equations; lia).
    destruct (Z.leb_spec IFLASH0_CNC_ADDR adr); [| lia]. cbn [orb].
    pose proof (SEFC_PerformCommand_frame patience SEFC0 SEFC_FCMD_ES (k * 256)
                  (_dwUseIAP s1) s1 Hv) as F.
    destruct (SEFC_PerformCommand patience SEFC0 SEFC_FCMD_ES (k * 256)
                (_dwUseIAP s1) s1) as [[e s2] | |] eqn:EP; auto.
    destruct F as (Ft & Fm & _ & Fu).
    destruct (H0 eq_refl) as [Hl16 _].
    assert (Hfull : firstn (length es) (cursors 16 (k * 256) 16)
                    = cursors 16 (k * 256) 16).
    { rewrite Hl16. apply firstn_all2. rewrite cursors_length. lia. }
    assert (Hgoal : dev_base_adr p = dev_base_adr p /\ mem s2 = mem (drv p)
              /\ exists es0 ru0 s10,
                  region_run patience SEFC_FCMD_CLB SEFC0 (cursors 16 (k * 256) 16)
                             (drv p) es0 ru0 s10
                  /\ (ru0 <> 0 -> (if e =? 0 then 0 else 1) = 1 /\ s2 = s10
                      /\ trace s10 = trace (drv p)
                           ++ map (fun pg => command_event SEFC0
                                     (fcr_word SEFC_FCMD_CLB pg) (_dwUseIAP (drv p)))
                                  (firstn (length es0) (cursors 16 (k * 256) 16)))
                  /\ (ru0 = 0 ->
                      exists e0,
                        SEFC_PerformCommand patience SEFC0 SEFC_FCMD_ES (k * 256)
                                            (_dwUseIAP s10) s10 = Done (e0, s2)
                        /\ (if e =? 0 then 0 else 1) = (if e0 =? 0 then 0 else 1)
                        /\ trace s2 = trace (drv p)
                             ++ map (fun pg => command_event SEFC0
                                       (fcr_word SEFC_FCMD_CLB pg) (_dwUseIAP (drv p)))
                                    (cursors 16 (k * 256) 16)
                             ++ [command_event SEFC0 (fcr_word SEFC_FCMD_ES (k * 256))
                                               (_dwUseIAP (drv p))])).
    { split; [reflexivity |]. split; [congruence |].
      exists es, 0, s1. split; [exact Hrun |].
      split; [intros Hc; contradiction |]. intros _.
      exists e. split; [exact EP |]. split; [reflexivity |].
      rewrite Ft, Htr, Hfull, Hu1, <- app_assoc. reflexivity. }
    destruct (e =? 0); cbn [negb dev_base_adr drv]; exact Hgoal.
  - cbn [dev_base_adr drv]. split; [reflexivity |]. split; [exact Hm1 |].
    exists es, ru, s1. split; [exact Hrun |].
    split; [intros _; repeat split; auto | intros Hc; contradiction].
Qed.

(** EraseSector masks the address for the unlock but not for the erase.
    For an address beyond the flash whose low 25 bits name a sector of it,
    the call never returns 0: either a clear-lock-bit command reports an
    error and the result is 1, or the sector is unlocked and the call dies
    in the address assertion of the erase. *)
Theorem EraseSector_alias adr p :
  IFLASH0_CNC_ADDR <= adr mod 33554432 ->
  adr mod 33554432 + 131071 <= IFLASH0_CNC_ADDR + IFLASH_SIZE ->
  IFLASH0_CNC_ADDR + IFLASH_SIZE < adr ->
  match EraseSector patience adr p with
  | Done (r, p') =>
      r = 1
      /\ exists ru oS oE,
          FLASHD_Unlock patience (adr mod 33554432) (adr mod 33554432 + 131071)
                        None None (drv p) = Done (ru, oS, oE, drv p')
          /\ ru <> 0
  | AssertFailed =>
      exists oS oE s1,
        FLASHD_Unlock patience (adr mod 33554432) (adr mod 33554432 + 131071)
                      None None (drv p) = Done (0, oS, oE, s1)
  | Hung => ~ responsive patience
  end.
Proof.
  intros Hlo Hhi Hout.
  destruct (chip_ok_facts Hok) as (Hb & Hs & Hs2 & Hw & Hd).
  unfold EraseSector.
  change 33554431 with (Z.ones 25). rewrite Z.land_ones by lia.
  change (2 ^ 25) with 33554432.
  replace (adr mod 33554432 + 131072 - 1) with (adr mod 33554432 + 131071) by lia.
  rewrite (u32_small (adr mod 33554432 + 131071)) by lia.
  pose proof (lock_or_unlock_spec patience Hok SEFC_FCMD_CLB (adr mod 33554432)
                (adr mod 33554432 + 131071) None None (drv p)
                ltac:(lia) ltac:(lia) ltac:(lia)) as L.
  change (lock_or_unlock patience SEFC_FCMD_CLB) with (FLASHD_Unlock patience) in L.
  destruct L as (aS & aE & pSefc & sp & ep & _ & _ & _ & L).
  cbv zeta in L. destruct L as (_ & L).
  destruct (FLASHD_Unlock patience (adr mod 33554432) (adr mod 33554432 + 131071)
              None None (drv p)) as [[[[ru oS] oE] s1] | |];
    [| destruct L | exact L].
  destruct (Z.eqb_spec ru 0) as [-> | Hne]; cbn [negb].
  - assert (Ht : SEFC_TranslateAddress adr = AssertFailed).
    { unfold SEFC_TranslateAddress, obind, assert.
      rewrite (u32_small (IFLASH0_CNC_ADDR + IFLASH_SIZE)) by lia.
      destruct (Z.leb_spec IFLASH0_CNC_ADDR adr); [| reflexivity].
      destruct (Z.leb_spec adr (IFLASH0_CNC_ADDR + IFLASH_SIZE));
        [lia | reflexivity]. }
    unfold FLASHD_EraseSector, bind, lift. rewrite Ht.
    unfold assert. destruct (orb _ _); exists oS, oE, s1; reflexivity.
  - split; [reflexivity |]. exists ru, oS, oE. split; [reflexivity | exact Hne].
Qed.

(** ProgramPage masks the address to its low 25 bits and returns 0 or 1.
    After a 0, with the caller's buffer below the write window, Verify of
    the same bytes at the window address of the masked address succeeds: it
    returns that address plus the size. *)
Theorem ProgramPage_then_Verify adr sz buf p :
  IFLASH0_CNC_ADDR <= adr mod 33554432 -> 0 <= sz ->
  adr mod 33554432 + sz <= IFLASH0_CNC_ADDR + IFLASH_SIZE ->
  0 < buf -> buf + sz <= 2684354560 ->
  match ProgramPage patience adr sz buf p with
  | Done (r, p') =>
      (r = 0 \/ r = 1) /\ dev_base_adr p' = dev_base_adr p
      /\ (r = 0 ->
          Verify (Z.lor (adr mod 33554432) 2684354560) sz buf p'
          = Z.lor (adr mod 33554432) 2684354560 + sz)
  | AssertFailed => False
  | Hung => ~ responsive patience
  end.
Proof.
  intros HA Hsz Hfit Hbuf Hbelow.
  destruct (chip_ok_facts Hok) as (Hb & Hs & Hs2 & Hw & Hd).
  unfold ProgramPage.
  change 33554431 with (Z.ones 25). rewrite Z.land_ones by lia.
  change (2 ^ 25) with 33554432.
  set (a := adr mod 33554432) in *.
  destruct (FLASHD_Write_run patience Hok a buf sz (drv p) HA Hsz Hfit ltac:(lia))
    as (sefc & page & offset & Ht & Hv & Ho & Hp & HAeq & Hrun).
  destruct (FLASHD_Write patience a buf sz (drv p)) as [[r s'] | |]; auto.
  destruct Hrun as (its & Hrun).
  destruct (write_run_data patience Hok _ _ _ _ _ _ _ _ _ Hv Hrun Ho Hp
              ltac:(intros; lia)) as (_ & Hdata).
  destruct (write_run_facts patience Hok _ _ _ _ _ _ _ _ _ Hv Hrun Ho Hp
              ltac:(intros; lia)) as (_ & _ & _ & _ & _ & If & _).
  destruct (bank_base_bounds Hok sefc) as [Hbb _].
  assert (Hwin : window sefc page = bank_base sefc + page * 512 + 2684354560).
  { unfold window, IFLASH_PAGE_SIZE. apply lor_window. lia. }
  destruct (Z.eqb_spec r 0) as [-> | Hne]; cbn [negb dev_base_adr drv].
  - split; [left; reflexivity |]. split; [reflexivity |]. intros _.
    rewrite lor_window by lia.
    assert (Hall : forall i, 0 <= i < sz ->
              load8 (mem s') (a + 2684354560 + i) = load8 (mem s') (buf + i)).
    { intros i Hi.
      replace (a + 2684354560 + i) with (window sefc page + offset + i) by lia.
      unfold load8 at 1. rewrite (Hdata eq_refl ltac:(lia) Hbelow i Hi).
      rewrite load8_idem. unfold load8. rewrite If by lia. reflexivity. }
    unfold Verify. cbn [drv].
    destruct (Z.eqb_spec (memcmp (mem s') (a + 2684354560) buf (Z.to_nat sz)) 0)
      as [_ | Hne].
    + apply u32_small. lia.
    + exfalso. apply Hne. apply memcmp_zero_iff. intros i Hi. apply Hall. lia.
  - split; [right; reflexivity |]. split; [reflexivity |].
    intros Hc; discriminate Hc.
Qed.



End MoreAdapter.

Section ModeRegisterUpdates.
Context {C : Chip} {K : Controller} {H : Header} {R : ModeRegister K}.

Lemma u32_lnot_bits x n :
  0 <= n -> Z.testbit (u32 (Z.lnot x)) n = (n <? 32) && negb (Z.testbit x n).
Proof.
  intros Hn. unfold u32. change 4294967296 with (2 ^ 32).
  destruct (Z.ltb_spec n 32).
  - rewrite Z.mod_pow2_bits_low by lia. rewrite Z.lnot_spec by lia. reflexivity.
  - rewrite Z.mod_pow2_bits_high by lia. reflexivity.
Qed.

Lemma word_high_bits x n :
  0 <= x < 4294967296 -> 32 <= n -> Z.testbit x n = false.
Proof.
  intros Hx Hn. rewrite <- (Z.mod_small x 4294967296) by lia.
  change 4294967296 with (2 ^ 32). apply Z.mod_pow2_bits_high. lia.
Qed.

(** The three updates of the mode register are read-modify-write: one
    read, one write, and the word written differs from the 32-bit word
    read only as intended.  SEFC_EnableFrdyIt adds the bits of
    [EEFC_FMR_FRDY], SEFC_DisableFrdyIt removes them and keeps the rest,
    SEFC_SetWaitState removes the bits of the wait-state mask and adds the
    field value. *)
Theorem FMR_updates_keep_other_bits sefc ucCycles s :
  0 <= fst (hw_fmr sefc (hw_st s)) < 4294967296 ->
  exists wEn wDis wWs,
    SEFC_EnableFrdyIt sefc s
    = Done (tt, set_hw (hw_set_fmr sefc wEn (snd (hw_fmr sefc (hw_st s)))) s)
    /\ SEFC_DisableFrdyIt sefc s
       = Done (tt, set_hw (hw_set_fmr sefc wDis (snd (hw_fmr sefc (hw_st s)))) s)
    /\ SEFC_SetWaitState sefc ucCycles s
       = Done (tt, set_hw (hw_set_fmr sefc wWs (snd (hw_fmr sefc (hw_st s)))) s)
    /\ forall n, 0 <= n ->
         Z.testbit wEn n
         = Z.testbit (fst (hw_fmr sefc (hw_st s))) n || Z.testbit EEFC_FMR_FRDY n
         /\ Z.testbit wDis n
            = Z.testbit (fst (hw_fmr sefc (hw_st s))) n
              && negb (Z.testbit EEFC_FMR_FRDY n)
         /\ Z.testbit wWs n
            = Z.testbit (fst (hw_fmr sefc (hw_st s))) n
              && negb (Z.testbit EEFC_FMR_FWS_Msk n)
              || Z.testbit (EEFC_FMR_FWS ucCycles) n.
Proof.
  intros Hw.
  unfold SEFC_EnableFrdyIt, SEFC_DisableFrdyIt, SEFC_SetWaitState.
  destruct (hw_fmr sefc (hw_st s)) as [fmr h]. cbn [fst snd] in *.
  do 3 eexists. split; [reflexivity |]. split; [reflexivity |].
  split; [reflexivity |].
  intros n Hn.
  rewrite Z.lor_spec, Z.land_spec, Z.lor_spec, Z.land_spec, !u32_lnot_bits by lia.
  split; [reflexivity |].
  destruct (Z.ltb_spec n 32) as [Hlt | Hge].
  - cbn [andb]. split; [reflexivity |].
    unfold u32 at 1. change 4294967296 with (2 ^ 32).
    rewrite Z.mod_pow2_bits_low by lia. reflexivity.
  - rewrite (word_high_bits fmr n Hw Hge). split; reflexivity.
Qed.

End ModeRegisterUpdates.

(** ** The further properties at work on the simulated controller *)

Ltac by_eval :=
  first [ reflexivity | lia | simpl; lia | vm_compute; intuition discriminate ].

Section MoreAtWork.
#[local] Existing Instance pic32cx2051mtg.
#[local] Existing Instance sim.

Lemma compute_translate_roundtrip_witness :
  chip_ok pic32cx2051mtg = true
  /\ valid_coordinate SEFC0 1 100 = true
  /\ obind (SEFC_ComputeAddress SEFC0 1 100) SEFC_TranslateAddress
     = Done (SEFC0, 1, 100).
Proof.
  split; [reflexivity |]. split; [reflexivity |].
  apply (compute_translate_roundtrip (C := pic32cx2051mtg) eq_refl SEFC0 1 100).
  reflexivity.
Defined.

(** The end of the flash is a coordinate too: page 4096, offset 0. *)
Example compute_translate_end_of_flash :
  valid_coordinate SEFC0 4096 0 = true
  /\ valid_coordinate SEFC0 4096 1 = false
  /\ obind (SEFC_ComputeAddress SEFC0 4096 0) SEFC_TranslateAddress
     = Done (SEFC0, 4096, 0).
Proof. repeat split; reflexivity. Qed.

Lemma FLASHD_Write_stores_data_witness :
  chip_ok pic32cx2051mtg = true
  /\ IFLASH0_CNC_ADDR <= 16777828 /\ 0 <= 40
  /\ 16777828 + 40 <= IFLASH0_CNC_ADDR + IFLASH_SIZE
  /\ 0 < 536870912 /\ 536870912 + 40 <= 2684354560
  /\ match FLASHD_Write 2 16777828 536870912 40 (sim_state 0 [] 0) with
     | Done (r, s') =>
         r = 0 ->
         forall i, 0 <= i < 40 ->
           mem s' (Z.lor 16777828 2684354560 + i)
           = load8 (mem (sim_state 0 [] 0)) (536870912 + i)
     | AssertFailed => False
     | Hung => ~ responsive 2
     end.
Proof.
  split; [reflexivity |]. split; [simpl; lia |]. split; [lia |].
  split; [simpl; lia |]. split; [lia |]. split; [lia |].
  apply (FLASHD_Write_stores_data (C := pic32cx2051mtg) (K := sim) 2 eq_refl
           16777828 536870912 40 (sim_state 0 [] 0)); simpl; lia.
Defined.

Lemma FLASHD_Write_touches_only_its_pages_witness :
  chip_ok pic32cx2051mtg = true
  /\ IFLASH0_CNC_ADDR <= 16777828 /\ 0 <= 1000
  /\ 16777828 + 1000 <= IFLASH0_CNC_ADDR + IFLASH_SIZE
  /\ 536870912 <> 0
  /\ exists sefc page offset,
      SEFC_TranslateAddress 16777828 = Done (sefc, page, offset)
      /\ match FLASHD_Write 2 16777828 536870912 1000 (sim_state 0 [] 0) with
         | Done (r, s') =>
             (forall x,
                x < window sefc page
                \/ window sefc page + IFLASH_PAGE_SIZE * pages_spanned offset 1000 <= x ->
                mem s' x = mem (sim_state 0 [] 0) x)
             /\ (1000 = 0 -> _pdwPageBuffer s' = _pdwPageBuffer (sim_state 0 [] 0))
             /\ (0 < 1000 ->
                 exists j,
                   0 <= j < pages_spanned offset 1000
                   /\ (r = 0 -> j = pages_spanned offset 1000 - 1)
                   /\ forall i, 0 <= i < IFLASH_PAGE_SIZE ->
                        _pdwPageBuffer s' i = mem s' (window sefc (page + j) + i))
         | AssertFailed => False
         | Hung => ~ responsive 2
         end.
Proof.
  split; [reflexivity |]. split; [simpl; lia |]. split; [lia |].
  split; [simpl; lia |]. split; [lia |].
  apply (FLASHD_Write_touches_only_its_pages (C := pic32cx2051mtg) (K := sim) 2
           eq_refl 16777828 536870912 1000 (sim_state 0 [] 0)); simpl; lia.
Defined.

(** A thousand bytes from offset 100 of page 1 span pages 1 to 3: the last
    byte of page 0 and the first of page 4 are as before, the last byte
    written is the caller's, and the static buffer, clear before, holds it
    too as byte 75 of the image of page 3. *)
Example write_three_pages :
  pages_spanned 100 1000 = 3
  /\ match FLASHD_Write 2 16777828 536870912 1000 (sim_state 0 [] 0) with
     | Done (r, s') =>
         r = 0
         /\ mem s' (2684354560 + 16777727) = (2684354560 + 16777727) mod 251
         /\ mem s' (2684354560 + 16779264) = (2684354560 + 16779264) mod 251
         /\ mem s' (2684354560 + 16778827) = (536870912 + 999) mod 251
         /\ _pdwPageBuffer s' 75 = (536870912 + 999) mod 251
         /\ _pdwPageBuffer (sim_state 0 [] 0) 75 = 0
     | _ => False
     end.
Proof. vm_compute. repeat split. Qed.

Lemma FLASHD_Write_nothing_witness :
  chip_ok pic32cx2051mtg = true
  /\ IFLASH0_CNC_ADDR <= 16777828 <= IFLASH0_CNC_ADDR + IFLASH_SIZE
  /\ 536870912 <> 0
  /\ FLASHD_Write 2 16777828 536870912 0 (sim_state 0 [] 0)
     = Done (0, sim_state 0 [] 0).
Proof.
  split; [reflexivity |]. split; [simpl; lia |]. split; [lia |].
  apply (FLASHD_Write_nothing (C := pic32cx2051mtg) (K := sim) 2 eq_refl
           16777828 536870912 (sim_state 0 [] 0)); simpl; lia.
Defined.

Lemma FLASHD_Erase_command_witness :
  chip_ok pic32cx2051mtg = true
  /\ IFLASH0_CNC_ADDR <= 16777216 <= IFLASH0_CNC_ADDR + IFLASH_SIZE
  /\ exists sefc page offset,
      SEFC_TranslateAddress 16777216 = Done (sefc, page, offset)
      /\ FLASHD_Erase 2 16777216 (sim_state 0 [] 0)
         = SEFC_PerformCommand 2 sefc SEFC_FCMD_EA 0
             (_dwUseIAP (sim_state 0 [] 0)) (sim_state 0 [] 0)
      /\ match FLASHD_Erase 2 16777216 (sim_state 0 [] 0) with
         | Done (r, s') =>
             trace s' = trace (sim_state 0 [] 0)
               ++ [command_event sefc (fcr_word SEFC_FCMD_EA 0)
                                 (_dwUseIAP (sim_state 0 [] 0))]
             /\ mem s' = mem (sim_state 0 [] 0)
         | AssertFailed => False
         | Hung => ~ responsive 2
         end
      /\ (EFC1_defined = false ->
          forall other,
            IFLASH0_CNC_ADDR <= other <= IFLASH0_CNC_ADDR + IFLASH_SIZE ->
            FLASHD_Erase 2 other (sim_state 0 [] 0)
            = FLASHD_Erase 2 16777216 (sim_state 0 [] 0)).
Proof.
  split; [reflexivity |]. split; [simpl; lia |].
  apply (FLASHD_Erase_command (C := pic32cx2051mtg) (K := sim) 2 eq_refl
           16777216 (sim_state 0 [] 0)); simpl; lia.
Defined.

Lemma FLASHD_EraseSector_command_witness :
  chip_ok pic32cx2051mtg = true
  /\ IFLASH0_CNC_ADDR <= 16908288 <= IFLASH0_CNC_ADDR + IFLASH_SIZE
  /\ exists sefc page offset,
      SEFC_TranslateAddress 16908288 = Done (sefc, page, offset)
      /\ page = (16908288 - bank_base sefc) / IFLASH_PAGE_SIZE
      /\ FLASHD_EraseSector 2 16908288 (sim_state 0 [] 0)
         = SEFC_PerformCommand 2 sefc SEFC_FCMD_ES page
             (_dwUseIAP (sim_state 0 [] 0)) (sim_state 0 [] 0)
      /\ match FLASHD_EraseSector 2 16908288 (sim_state 0 [] 0) with
         | Done (r, s') =>
             trace s' = trace (sim_state 0 [] 0)
               ++ [command_event sefc (fcr_word SEFC_FCMD_ES page)
                                 (_dwUseIAP (sim_state 0 [] 0))]
             /\ mem s' = mem (sim_state 0 [] 0)
         | AssertFailed => False
         | Hung => ~ responsive 2
         end.
Proof.
  split; [reflexivity |]. split; [simpl; lia |].
  apply (FLASHD_EraseSector_command (C := pic32cx2051mtg) (K := sim) 2 eq_refl
           16908288 (sim_state 0 [] 0)); simpl; lia.
Defined.

Lemma FLASHD_IsLocked_count_witness :
  chip_ok pic32cx2051mtg = true
  /\ IFLASH0_CNC_ADDR <= 16777216 /\ 16777216 <= 16908288
  /\ 16908288 <= IFLASH0_CNC_ADDR + IFLASH_SIZE
  /\ 16777216 < IFLASH0_CNC_ADDR + IFLASH_SIZE
  /\ exists sefc sp so sefc' ep eo,
      SEFC_TranslateAddress 16777216 = Done (sefc, sp, so)
      /\ SEFC_TranslateAddress 16908288 = Done (sefc', ep, eo)
      /\ match FLASHD_IsLocked 2 16777216 16908288 (sim_state 0 [48] 0) with
         | Done (n, s') =>
             trace s' = trace (sim_state 0 [48] 0)
               ++ [command_event sefc (fcr_word SEFC_FCMD_GLB 0)
                                 (_dwUseIAP (sim_state 0 [48] 0))]
             /\ mem s' = mem (sim_state 0 [48] 0)
             /\ exists r0 s0 status,
                 SEFC_PerformCommand 2 sefc SEFC_FCMD_GLB 0
                   (_dwUseIAP (sim_state 0 [48] 0)) (sim_state 0 [48] 0)
                 = Done (r0, s0)
                 /\ read_status 8 sefc s0 = Done (status, s')
                 /\ (ep <= 4080 ->
                     n = Z.of_nat (locked_between status (sp / 16)
                                     (Z.to_nat ((ep + 15) / 16 - sp / 16)))
                     /\ 0 <= n <= Z.max 0 ((ep + 15) / 16 - sp / 16))
         | AssertFailed => False
         | Hung => ~ responsive 2
         end.
Proof.
  split; [reflexivity |]. split; [simpl; lia |]. split; [lia |].
  split; [simpl; lia |]. split; [simpl; lia |].
  apply (FLASHD_IsLocked_count (C := pic32cx2051mtg) (K := sim) 2 eq_refl
           16777216 16908288 (sim_state 0 [48] 0)); simpl; lia.
Defined.

Lemma FLASHD_IsLocked_last_region_witness :
  chip_ok pic32cx2051mtg = true
  /\ EFC1_defined = false
  /\ IFLASH0_CNC_ADDR <= 16777216 /\ 16777216 <= 18874368
  /\ 18874368 <= IFLASH0_CNC_ADDR + IFLASH_SIZE
  /\ IFLASH0_CNC_ADDR + 4081 * IFLASH_PAGE_SIZE <= 18874368
  /\ match FLASHD_IsLocked 2 16777216 18874368 (sim_state 0 [48] 0) with
     | Done (n, s') => n = 0
     | AssertFailed => False
     | Hung => ~ responsive 2
     end.
Proof.
  split; [reflexivity |]. split; [reflexivity |]. split; [simpl; lia |].
  split; [lia |]. split; [simpl; lia |]. split; [simpl; lia |].
  apply (FLASHD_IsLocked_last_region (C := pic32cx2051mtg) (K := sim) 2 eq_refl
           16777216 18874368 (sim_state 0 [48] 0));
    try reflexivity; simpl; lia.
Defined.

Lemma EraseChip_result_witness :
  chip_ok pic32cx2051mtg = true
  /\ (dev_base_adr (mkPrg 0 (sim_state 0 [] 0)) < IFLASH0_CNC_ADDR
      \/ IFLASH0_CNC_ADDR + IFLASH_SIZE < dev_base_adr (mkPrg 0 (sim_state 0 [] 0)) ->
      EraseChip 2 (mkPrg 0 (sim_state 0 [] 0)) = AssertFailed)
  /\ (IFLASH0_CNC_ADDR <= dev_base_adr (mkPrg 0 (sim_state 0 [] 0))
                       <= IFLASH0_CNC_ADDR + IFLASH_SIZE ->
      exists sefc page offset,
        SEFC_TranslateAddress (dev_base_adr (mkPrg 0 (sim_state 0 [] 0)))
        = Done (sefc, page, offset)
        /\ match EraseChip 2 (mkPrg 0 (sim_state 0 [] 0)) with
           | Done (r, p') =>
               dev_base_adr p' = dev_base_adr (mkPrg 0 (sim_state 0 [] 0))
               /\ SEFC_PerformCommand 2 sefc SEFC_FCMD_EA 0
                    (_dwUseIAP (drv (mkPrg 0 (sim_state 0 [] 0))))
                    (drv (mkPrg 0 (sim_state 0 [] 0))) = Done (r, drv p')
           | AssertFailed => False
           | Hung => ~ responsive 2
           end).
Proof.
  split; [reflexivity |].
  apply (EraseChip_result (C := pic32cx2051mtg) (K := sim) 2 eq_refl
           (mkPrg 0 (sim_state 0 [] 0))).
Defined.

Lemma EraseSector_result_witness :
  chip_ok pic32cx2051mtg = true
  /\ EFC1_defined = false /\ 0 <= 1
  /\ 16908288 = IFLASH0_CNC_ADDR + 1 * 131072
  /\ 16908288 + 131072 <= IFLASH0_CNC_ADDR + IFLASH_SIZE
  /\ IFLASH0_CNC_ADDR + IFLASH_SIZE <= 33554432
  /\ match EraseSector 2 16908288 (mkPrg 16777216 (sim_state 0 [] 0)) with
     | Done (r, p') =>
         dev_base_adr p' = dev_base_adr (mkPrg 16777216 (sim_state 0 [] 0))
         /\ mem (drv p') = mem (drv (mkPrg 16777216 (sim_state 0 [] 0)))
         /\ exists es ru s1,
             region_run 2 SEFC_FCMD_CLB SEFC0 (cursors 16 (1 * 256) 16)
                        (drv (mkPrg 16777216 (sim_state 0 [] 0))) es ru s1
             /\ (ru <> 0 ->
                 r = 1 /\ drv p' = s1
                 /\ trace s1 = trace (drv (mkPrg 16777216 (sim_state 0 [] 0)))
                      ++ map (fun pg => command_event SEFC0 (fcr_word SEFC_FCMD_CLB pg)
                                (_dwUseIAP (drv (mkPrg 16777216 (sim_state 0 [] 0)))))
                             (firstn (length es) (cursors 16 (1 * 256) 16)))
             /\ (ru = 0 ->
                 exists e,
                   SEFC_PerformCommand 2 SEFC0 SEFC_FCMD_ES (1 * 256)
                                       (_dwUseIAP s1) s1 = Done (e, drv p')
                   /\ r = (if e =? 0 then 0 else 1)
                   /\ trace (drv p') = trace (drv (mkPrg 16777216 (sim_state 0 [] 0)))
                        ++ map (fun pg => command_event SEFC0 (fcr_word SEFC_FCMD_CLB pg)
                                  (_dwUseIAP (drv (mkPrg 16777216 (sim_state 0 [] 0)))))
                               (cursors 16 (1 * 256) 16)
                        ++ [command_event SEFC0 (fcr_word SEFC_FCMD_ES (1 * 256))
                              (_dwUseIAP (drv (mkPrg 16777216 (sim_state 0 [] 0))))])
     | AssertFailed => False
     | Hung => ~ responsive 2
     end.
Proof.
  split; [reflexivity |]. split; [reflexivity |]. split; [lia |].
  split; [reflexivity |]. split; [simpl; lia |]. split; [simpl; lia |].
  apply (EraseSector_result (C := pic32cx2051mtg) (K := sim) 2 eq_refl
           1 16908288 (mkPrg 16777216 (sim_state 0 [] 0)));
    try reflexivity; simpl; lia.
Defined.

(** The second sector on the simulated part: seventeen commands, the last
    the erase with page 256; with lock region 17 refusing to unlock, the
    call stops after two commands and returns 1. *)
Example erase_second_sector :
  match EraseSector 2 16908288 (mkPrg 16777216 (sim_state 0 [] 0)) with
  | Done (r, p') =>
      r = 0 /\ length (trace (drv p')) = 17%nat
      /\ nth 16 (trace (drv p')) (EvIAP 0 0) = EvFCR SEFC0 (fcr_word SEFC_FCMD_ES 256)
  | _ => False
  end.
Proof. vm_compute. auto. Qed.

Lemma EraseSector_alias_witness :
  chip_ok pic32cx2051mtg = true
  /\ IFLASH0_CNC_ADDR <= 50331648 mod 33554432
  /\ 50331648 mod 33554432 + 131071 <= IFLASH0_CNC_ADDR + IFLASH_SIZE
  /\ IFLASH0_CNC_ADDR + IFLASH_SIZE < 50331648
  /\ match EraseSector 2 50331648 (mkPrg 16777216 (sim_state 0 [] 0)) with
     | Done (r, p') =>
         r = 1
         /\ exists ru oS oE,
             FLASHD_Unlock 2 (50331648 mod 33554432) (50331648 mod 33554432 + 131071)
                           None None (drv (mkPrg 16777216 (sim_state 0 [] 0)))
             = Done (ru, oS, oE, drv p')
             /\ ru <> 0
     | AssertFailed =>
         exists oS oE s1,
           FLASHD_Unlock 2 (50331648 mod 33554432) (50331648 mod 33554432 + 131071)
                         None None (drv (mkPrg 16777216 (sim_state 0 [] 0)))
           = Done (0, oS, oE, s1)
     | Hung => ~ responsive 2
     end.
Proof.
  split; [reflexivity |]. split; [by_eval |]. split; [by_eval |].
  split; [by_eval |].
  apply (EraseSector_alias (C := pic32cx2051mtg) (K := sim) 2 eq_refl
           50331648 (mkPrg 16777216 (sim_state 0 [] 0))); by_eval.
Defined.

(** The alias 0x03000000 of the flash base: the sector is unlocked, then
    the call dies in the assertion; ProgramPage at the same alias
    programs the base. *)
Example erase_alias_dies :
  match EraseSector 2 50331648 (mkPrg 16777216 (sim_state 0 [] 0)) with
  | AssertFailed => True
  | _ => False
  end
  /\ match ProgramPage 2 50331648 4 536870912 (mkPrg 16777216 (sim_state 0 [] 0)) with
     | Done (r, p') =>
         r = 0 /\ mem (drv p') (2684354560 + 16777216) = 536870912 mod 251
     | _ => False
     end.
Proof. vm_compute. auto. Qed.

Lemma ProgramPage_then_Verify_witness :
  chip_ok pic32cx2051mtg = true
  /\ IFLASH0_CNC_ADDR <= 16777828 mod 33554432 /\ 0 <= 40
  /\ 16777828 mod 33554432 + 40 <= IFLASH0_CNC_ADDR + IFLASH_SIZE
  /\ 0 < 536870912 /\ 536870912 + 40 <= 2684354560
  /\ match ProgramPage 2 16777828 40 536870912 (mkPrg 16777216 (sim_state 0 [] 0)) with
     | Done (r, p') =>
         (r = 0 \/ r = 1)
         /\ dev_base_adr p' = dev_base_adr (mkPrg 16777216 (sim_state 0 [] 0))
         /\ (r = 0 ->
             Verify (Z.lor (16777828 mod 33554432) 2684354560) 40 536870912 p'
             = Z.lor (16777828 mod 33554432) 2684354560 + 40)
     | AssertFailed => False
     | Hung => ~ responsive 2
     end.
Proof.
  split; [reflexivity |]. split; [by_eval |]. split; [lia |].
  split; [by_eval |]. split; [lia |]. split; [lia |].
  apply (ProgramPage_then_Verify (C := pic32cx2051mtg) (K := sim) 2 eq_refl
           16777828 40 536870912 (mkPrg 16777216 (sim_state 0 [] 0))); by_eval.
Defined.

(** Verify through the window after a page was programmed: against the
    buffer programmed it returns the end of the range, against a buffer
    that differs it returns the start. *)
Example verify_after_program :
  match ProgramPage 2 16777828 40 536870912 (mkPrg 16777216 (sim_state 0 [] 0)) with
  | Done (r, p') =>
      r = 0
      /\ Verify (2684354560 + 16777828) 40 536870912 p' = 2684354560 + 16777828 + 40
      /\ Verify (2684354560 + 16777828) 40 536870913 p' = 2684354560 + 16777828
  | _ => False
  end.
Proof. vm_compute. auto. Qed.

End MoreAtWork.

Section AdapterAtWork.
#[local] Existing Instance pic32cx2051mtg.
#[local] Existing Instance simM.
#[local] Existing Instance eefc_header.
#[local] Existing Instance simM_mode.

Lemma FLASHD_Initialize_selects_path_witness :
  chip_ok pic32cx2051mtg = true
  /\ IFLASH0_CNC_ADDR <= 16777216 <= IFLASH0_CNC_ADDR + IFLASH_SIZE
  /\ exists sefc page offset s1,
      SEFC_TranslateAddress 16777216 = Done (sefc, page, offset)
      /\ FLASHD_Initialize 0 1 (simM_state 0 0 769 [] 0) = Done (tt, s1)
      /\ hw_st s1
         = (let h0 := hw_set_fmr SEFC0
                        (Z.land (fst (hw_fmr SEFC0 (hw_st (simM_state 0 0 769 [] 0))))
                                (u32 (Z.lnot EEFC_FMR_FRDY)))
                        (snd (hw_fmr SEFC0 (hw_st (simM_state 0 0 769 [] 0)))) in
            if EFC1_defined
            then hw_set_fmr EFC1
                   (Z.land (fst (hw_fmr EFC1 h0)) (u32 (Z.lnot EEFC_FMR_FRDY)))
                   (snd (hw_fmr EFC1 h0))
            else h0)
      /\ _dwUseIAP s1 = 1 /\ trace s1 = trace (simM_state 0 0 769 [] 0)
      /\ mem s1 = mem (simM_state 0 0 769 [] 0)
      /\ match FLASHD_Erase 2 16777216 s1 with
         | Done (r, s') =>
             SEFC_PerformCommand 2 sefc SEFC_FCMD_EA 0 1 s1 = Done (r, s')
             /\ _dwUseIAP s' = 1 /\ mem s' = mem (simM_state 0 0 769 [] 0)
             /\ trace s' = trace (simM_state 0 0 769 [] 0)
                  ++ [if 1 =? 0
                      then EvFCR sefc
                             (Z.lor (Z.lor EEFC_FCR_FKEY_PASSWD (EEFC_FCR_FARG 0))
                                    (Z.land EEFC_FCR_FCMD_Msk
                                            (Z.shiftl SEFC_FCMD_EA EEFC_FCR_FCMD_Pos)))
                      else EvIAP (if Sefc_eqb sefc SEFC0 then 0 else 1)
                             (Z.lor (Z.lor EEFC_FCR_FKEY_PASSWD (EEFC_FCR_FARG 0))
                                    (Z.land EEFC_FCR_FCMD_Msk
                                            (Z.shiftl SEFC_FCMD_EA EEFC_FCR_FCMD_Pos)))]
         | AssertFailed => False
         | Hung => ~ responsive 2
         end.
Proof.
  split; [reflexivity |]. split; [simpl; lia |].
  apply (FLASHD_Initialize_selects_path (C := pic32cx2051mtg) (K := simM)
           (H := eefc_header) (R := simM_mode) 2 eq_refl 0 1 16777216
           (simM_state 0 0 769 [] 0)); simpl; lia.
Defined.

(** The mode register 0x301 across FLASHD_Initialize: the interrupt bit is
    cleared, the wait states stay; nothing is sent. *)
Example initialize_clears_the_interrupt_bit :
  match FLASHD_Initialize 0 1 (simM_state 0 0 769 [] 0) with
  | Done (_, s1) => snd (hw_st s1) = 768 /\ trace s1 = [] /\ _dwUseIAP s1 = 1
  | _ => False
  end.
Proof. vm_compute. auto. Qed.

(** Init on a part with both boot bits clear: four commands, result 0, the
    address recorded, the ready interrupt masked; EraseChip before any
    Init dies in the assertion, after it one erase-all goes out. *)
Example init_then_erase_chip :
  match Init 2 16777216 0 1 (mkPrg 0 (simM_state 0 0 1 [] 5)) with
  | Done (r, p') =>
      r = 0 /\ dev_base_adr p' = 16777216 /\ _dwUseIAP (drv p') = 0
      /\ length (trace (drv p')) = 4%nat
      /\ snd (hw_st (drv p')) = 0
      /\ match EraseChip 2 p' with
         | Done (e, p2) => e = 0 /\ length (trace (drv p2)) = 5%nat
         | _ => False
         end
  | _ => False
  end
  /\ match EraseChip 2 (mkPrg 0 (simM_state 0 0 1 [] 5)) with
     | AssertFailed => True
     | _ => False
     end.
Proof. vm_compute. repeat split. Qed.

(** Lock bits 0 and 1 set.  A range that reaches region 1 in its first
    page only counts region 0 alone; one page further it counts both; a
    range within the first page of region 0 counts nothing. *)
Example is_locked_counts_by_page :
  match FLASHD_IsLocked 2 16777216 16785409 (simM_state 0 3 0 [] 0) with
  | Done (n, _) => n = 1
  | _ => False
  end
  /\ match FLASHD_IsLocked 2 16777216 16785920 (simM_state 0 3 0 [] 0) with
     | Done (n, _) => n = 2
     | _ => False
     end
  /\ match FLASHD_IsLocked 2 16777216 16777217 (simM_state 0 3 0 [] 0) with
     | Done (n, _) => n = 0
     | _ => False
     end.
Proof. vm_compute. auto. Qed.

(** The descriptor read on the simulated part: one command, and the four
    words are what the result register holds. *)
Example get_descriptor :
  match FLASHD_GetDescriptor 2 (simM_state 0 7 0 [] 1) with
  | Done (r, words, s') =>
      r = 0 /\ words = [7; 7; 7; 7] /\ trace s' = [EvFCR SEFC0 1509949440]
  | _ => False
  end.
Proof. vm_compute. auto. Qed.

Lemma FMR_updates_keep_other_bits_witness :
  0 <= fst (hw_fmr SEFC0 (hw_st (simM_state 0 0 769 [] 0))) < 4294967296
  /\ exists wEn wDis wWs,
      SEFC_EnableFrdyIt SEFC0 (simM_state 0 0 769 [] 0)
      = Done (tt, set_hw (hw_set_fmr SEFC0 wEn
                            (snd (hw_fmr SEFC0 (hw_st (simM_state 0 0 769 [] 0)))))
                         (simM_state 0 0 769 [] 0))
      /\ SEFC_DisableFrdyIt SEFC0 (simM_state 0 0 769 [] 0)
         = Done (tt, set_hw (hw_set_fmr SEFC0 wDis
                               (snd (hw_fmr SEFC0 (hw_st (simM_state 0 0 769 [] 0)))))
                            (simM_state 0 0 769 [] 0))
      /\ SEFC_SetWaitState SEFC0 5 (simM_state 0 0 769 [] 0)
         = Done (tt, set_hw (hw_set_fmr SEFC0 wWs
                               (snd (hw_fmr SEFC0 (hw_st (simM_state 0 0 769 [] 0)))))
                            (simM_state 0 0 769 [] 0))
      /\ forall n, 0 <= n ->
           Z.testbit wEn n
           = Z.testbit (fst (hw_fmr SEFC0 (hw_st (simM_state 0 0 769 [] 0)))) n
             || Z.testbit EEFC_FMR_FRDY n
           /\ Z.testbit wDis n
              = Z.testbit (fst (hw_fmr SEFC0 (hw_st (simM_state 0 0 769 [] 0)))) n
                && negb (Z.testbit EEFC_FMR_FRDY n)
           /\ Z.testbit wWs n
              = Z.testbit (fst (hw_fmr SEFC0 (hw_st (simM_state 0 0 769 [] 0)))) n
                && negb (Z.testbit EEFC_FMR_FWS_Msk n)
                || Z.testbit (EEFC_FMR_FWS 5) n.
Proof.
  split; [cbn; lia |].
  apply (FMR_updates_keep_other_bits (K := simM) (H := eefc_header)
           (R := simM_mode) SEFC0 5 (simM_state 0 0 769 [] 0)).
  cbn; lia.
Defined.

(** The mode register 0x301 on the simulated part: the wait states go from
    3 to 5 with the interrupt bit kept, the interrupt bit goes with the wait
    states kept. *)
Example mode_register_updates :
  match SEFC_SetWaitState SEFC0 5 (simM_state 0 0 769 [] 0) with
  | Done (_, s') => snd (hw_st s') = 1281
  | _ => False
  end
  /\ match SEFC_DisableFrdyIt SEFC0 (simM_state 0 0 769 [] 0) with
     | Done (_, s') => snd (hw_st s') = 768
     | _ => False
     end.
Proof. vm_compute. auto. Qed.

End AdapterAtWork.
